(** * Echo: the study execution pipeline

    A shallow embedding of the Python business layer of the Echo platform
    (components [tasks.py] and [participants.py], service [ai_service.py]
    and its routes, all given in LEARNING_GUIDE_PHASE2.md) together with the
    properties the specification states about it.

    Python functions that mutate the database or call an external service
    are functions in a state-and-exception monad: a raised exception is a
    left result, and the state is the one reached when it was raised.  The
    decorators [@handle_exception] and [@format_response] are not part of
    the sources; a decorated function is taken to report the exception it
    raises to its caller (specification, section 9).  Calls to [logger]
    have no effect on the database or the collaborator and are left out.
    [order_index] is an integer, as the schema and the docstrings have it:
    the column is nullable, and a row that holds null there (stored when a
    dictionary binds [order_index] to [None]) is not represented.  With
    such a row among several, [max] in [create_task] and [sort] in
    [read_tasks] raise [TypeError]; what is proved about these functions
    is therefore stated for the calls that return. *)

From Stdlib Require Import String Ascii List ZArith Lia Bool Arith.
From Stdlib Require Import Sorting.Sorted Sorting.Permutation.
Import ListNotations.

Set Warnings "-register-all".
Local Open Scope string_scope.
Local Open Scope Z_scope.

(* ================================================================== *)
(** * Part I: definitions *)
(* ================================================================== *)

(** ** Exceptions and the state monad *)

(** Python exceptions raised by the code ([Exception], [ValueError]) or
    by an operator applied to [None] ([TypeError]), and the error kinds of
    the specification's taxonomy used by the response ingestor
    ([NotFound], [InvalidPayload], [InvalidState]); the latter carry the
    identifier involved. *)
Inductive exn : Type :=
| Exception (msg : string)
| ValueError (msg : string)
| TypeError (msg : string)
| NotFound (ident : string)
| InvalidPayload (ident : string)
| InvalidState (ident : string).

(** [str(e)] *)
Definition str (e : exn) : string :=
  match e with
  | Exception m | ValueError m | TypeError m | NotFound m | InvalidPayload m
  | InvalidState m => m
  end.

Definition M (St A : Type) : Type := St -> (exn + A) * St.

Definition ret {St A : Type} (a : A) : M St A := fun s => (inr a, s).

Definition raise {St A : Type} (e : exn) : M St A := fun s => (inl e, s).

Definition bind {St A B : Type} (m : M St A) (k : A -> M St B) : M St B :=
  fun s =>
    match m s with
    | (inl e, s') => (inl e, s')
    | (inr a, s') => k a s'
    end.

(** [try: m  except Exception as e: h e] *)
Definition try_except {St A : Type} (m : M St A) (h : exn -> M St A) : M St A :=
  fun s =>
    match m s with
    | (inl e, s') => h e s'
    | (inr a, s') => (inr a, s')
    end.

(** [if not ok: raise e] *)
Definition require {St : Type} (ok : bool) (e : exn) : M St unit :=
  if ok then ret tt else raise e.

Declare Scope monad_scope.
Delimit Scope monad_scope with monad.
Notation "x <- c ;; k" := (bind c (fun x => k))
  (at level 61, c at next level, right associativity) : monad_scope.
Notation "c ;;; k" := (bind c (fun _ => k))
  (at level 61, right associativity) : monad_scope.
Local Open Scope monad_scope.

(** The state an operation leaves behind and the value it returns. *)
Definition exec {St A : Type} (m : M St A) (s : St) : St := snd (m s).
Definition result {St A : Type} (m : M St A) (s : St) : exn + A := fst (m s).

Definition succeeds {St A : Type} (m : M St A) (s : St) : bool :=
  match result m s with inr _ => true | inl _ => false end.

(** ** Python values *)

(** Truthiness of [d.get(key)] for a string-valued key: a missing key
    ([None]) and the empty string are falsy. *)
Definition truthy (v : option string) : bool :=
  match v with
  | Some s => negb (String.eqb s "")
  | None => false
  end.

Definition str_truthy (s : string) : bool := negb (String.eqb s "").

(** [x in xs] for a list of strings. *)
Definition str_in (x : string) (xs : list string) : bool :=
  existsb (String.eqb x) xs.

(** JSON values, for the JSONB columns and the request bodies. *)
Inductive json : Type :=
| JNull
| JBool (b : bool)
| JNum (n : Z)
| JStr (s : string)
| JArr (items : list json)
| JObj (fields : list (string * json)).

(** Truthiness of a JSON value decoded by [request.get_json]. *)
Definition json_truthy (j : json) : bool :=
  match j with
  | JNull => false
  | JBool b => b
  | JNum n => negb (n =? 0)
  | JStr s => str_truthy s
  | JArr l => match l with [] => false | _ => true end
  | JObj l => match l with [] => false | _ => true end
  end.

(** ** Rows of the database (schema of LEARNING_GUIDE.md, Step 2.4) *)

Record Study : Type := mkStudy {
  s_id : string;
  s_organization_id : string;
  s_name : string;
  s_status : string
}.

Record Task : Type := mkTask {
  t_id : string;
  t_study_id : string;
  t_type : string;
  t_title : string;
  t_instructions : option string;
  t_order_index : Z;
  t_created_at : string;
  t_updated_at : string
}.

Record Participant : Type := mkParticipant {
  p_id : string;
  p_study_id : string;
  p_contact : string;
  p_demographics : option json;
  p_status : string;
  p_invited_at : option string;
  p_started_at : option string;
  p_completed_at : option string;
  p_created_at : string;
  p_updated_at : string
}.

(** The tagged payload of a response: one variant per family of task
    types (specification, design notes). *)
Inductive Payload : Type :=
| Text (text : string)
| MediaUrls (urls : list string)
| RankedItems (items : list (string * Z))
| FillIns (answers : list string).

Record Response : Type := mkResponse {
  r_id : string;
  r_participant_id : string;
  r_task_id : string;
  r_response_data : Payload;
  r_submitted_at : string;
  r_created_at : string
}.

(** The database behind the global connector [db], and the number of
    times [datetime.now()] has been read so far. *)
Record World : Type := mkWorld {
  studies : list Study;
  tasks : list Task;
  participants : list Participant;
  responses : list Response;
  ticks : nat
}.

Definition set_tasks (f : list Task -> list Task) (w : World) : World :=
  mkWorld (studies w) (f (tasks w)) (participants w) (responses w) (ticks w).

Definition set_participants (f : list Participant -> list Participant)
  (w : World) : World :=
  mkWorld (studies w) (tasks w) (f (participants w)) (responses w) (ticks w).

Definition set_responses (f : list Response -> list Response)
  (w : World) : World :=
  mkWorld (studies w) (tasks w) (participants w) (f (responses w)) (ticks w).

Definition tick (w : World) : World :=
  mkWorld (studies w) (tasks w) (participants w) (responses w) (S (ticks w)).

Definition empty_world : World := mkWorld [] [] [] [] 0.

(** ** Dictionaries passed to the components *)

(** The [task] dictionary of [create_task]: a key is absent ([None]) or
    bound.  [created_at] and [updated_at] are overwritten by the function
    and are not represented. *)
Record TaskData : Type := mkTaskData {
  d_id : option string;
  d_study_id : option string;
  d_type : option string;
  d_title : option string;
  d_instructions : option string;
  d_order_index : option Z
}.

Definition is_some {A : Type} (o : option A) : bool :=
  match o with Some _ => true | None => false end.

(** [bool(task)]: a dictionary is truthy when it has a key. *)
Definition task_data_nonempty (d : TaskData) : bool :=
  is_some (d_id d) || is_some (d_study_id d) || is_some (d_type d)
  || is_some (d_title d) || is_some (d_instructions d)
  || is_some (d_order_index d).

(** Exact-match conjunctive filter on the [tasks] table. *)
Record TaskQuery : Type := mkTaskQuery {
  q_id : option string;
  q_study_id : option string;
  q_type : option string
}.

(** The update dictionary [reorder_tasks] sends to [db.update]. *)
Record TaskPatch : Type := mkTaskPatch {
  u_order_index : option Z;
  u_updated_at : option string
}.

(** The [participant] dictionary of [create_participant] and the [data]
    dictionary of [update_participant].  The timestamp columns are
    nullable, so a bound key holds a timestamp or [None].  [created_at]
    and [updated_at] are not represented ([create_participant] overwrites
    both, [update_participant] the second): a dictionary that binds
    nothing else is outside the model. *)
Record ParticipantData : Type := mkParticipantData {
  pd_id : option string;
  pd_study_id : option string;
  pd_contact : option string;
  pd_demographics : option json;
  pd_status : option string;
  pd_invited_at : option (option string);
  pd_started_at : option (option string);
  pd_completed_at : option (option string)
}.

Definition participant_data_nonempty (d : ParticipantData) : bool :=
  is_some (pd_id d) || is_some (pd_study_id d) || is_some (pd_contact d)
  || is_some (pd_demographics d) || is_some (pd_status d)
  || is_some (pd_invited_at d) || is_some (pd_started_at d)
  || is_some (pd_completed_at d).

Definition set_pd_started_at (v : option string) (d : ParticipantData)
  : ParticipantData :=
  mkParticipantData (pd_id d) (pd_study_id d) (pd_contact d)
    (pd_demographics d) (pd_status d) (pd_invited_at d) (Some v)
    (pd_completed_at d).

Definition set_pd_completed_at (v : option string) (d : ParticipantData)
  : ParticipantData :=
  mkParticipantData (pd_id d) (pd_study_id d) (pd_contact d)
    (pd_demographics d) (pd_status d) (pd_invited_at d) (pd_started_at d)
    (Some v).

(** ** The repository [db] *)

Definition field_matches (q : option string) (v : string) : bool :=
  match q with
  | None => true
  | Some x => String.eqb x v
  end.

Definition task_matches (q : TaskQuery) (t : Task) : bool :=
  field_matches (q_id q) (t_id t)
  && field_matches (q_study_id q) (t_study_id t)
  && field_matches (q_type q) (t_type t).

Definition apply_task_patch (p : TaskPatch) (t : Task) : Task :=
  mkTask (t_id t) (t_study_id t) (t_type t) (t_title t) (t_instructions t)
    (match u_order_index p with Some i => i | None => t_order_index t end)
    (t_created_at t)
    (match u_updated_at p with Some s => s | None => t_updated_at t end).

Definition or_default {A : Type} (o : option A) (d : A) : A :=
  match o with Some a => a | None => d end.

(** The patch [db.update] applies to a participant row: every bound key
    of [data] plus the [updated_at] the component adds. *)
Definition apply_participant_patch (d : ParticipantData) (updated_at : string)
  (p : Participant) : Participant :=
  mkParticipant
    (or_default (pd_id d) (p_id p))
    (or_default (pd_study_id d) (p_study_id p))
    (or_default (pd_contact d) (p_contact p))
    (match pd_demographics d with Some j => Some j | None => p_demographics p end)
    (or_default (pd_status d) (p_status p))
    (or_default (pd_invited_at d) (p_invited_at p))
    (or_default (pd_started_at d) (p_started_at p))
    (or_default (pd_completed_at d) (p_completed_at p))
    (p_created_at p)
    updated_at.

(** The module [database_manager] behind [db] is not part of the sources.
    Section 6 of the specification gives its contract: [create(table,
    record)] returns the id, [read(table, filter)] returns the records
    matching an exact-match conjunction, [update(table, filter, patch)]
    patches the matching records and returns the affected id.  [id] is the
    primary key of every table (schema of the guide), so [create] refuses an
    id that is already stored.  The other constraints of the schema that
    can refuse an insert or an update (the foreign key of [study_id], the
    range of the INTEGER column, the syntax of a UUID) are not modelled:
    the database may refuse more than [db_create_task] and
    [db_create_participant] do, and nothing below rests on an insert
    being accepted. *)

Section Repository.

(** Modelled from the spec: [db.read(table='tasks', query=q)], the rows
    matching the exact-match conjunction [q], in stored order. *)
Definition db_read_tasks (q : TaskQuery) : M World (list Task) :=
  fun w => (inr (filter (task_matches q) (tasks w)), w).

(** Modelled from the spec: [db.update(table='tasks', query=q, data=p)]
    patches every row matching [q] and returns the affected id, if any; a
    filter that matches nothing changes nothing. *)
Definition db_update_tasks (q : TaskQuery) (p : TaskPatch)
  : M World (option string) :=
  fun w =>
    (inr (option_map t_id (find (task_matches q) (tasks w))),
     set_tasks
       (map (fun t => if task_matches q t then apply_task_patch p t else t)) w).

(** Modelled from the spec: [db.create(table='tasks', data=row)] appends
    the row and returns its id; the primary key refuses a stored id. *)
Definition db_create_task (row : Task) : M World string :=
  fun w =>
    if str_in (t_id row) (map t_id (tasks w))
    then (inl (Exception "duplicate key value violates unique constraint"), w)
    else (inr (t_id row), set_tasks (fun l => (l ++ [row])%list) w).

Definition participant_has_id (id : string) (p : Participant) : bool :=
  String.eqb id (p_id p).

(** Modelled from the spec: [db.update(table='participants',
    query={'id': id}, data=d)]. *)
Definition db_update_participants (id : string) (d : ParticipantData)
  (updated_at : string) : M World (option string) :=
  fun w =>
    (inr (option_map (fun p => p_id (apply_participant_patch d updated_at p))
            (find (participant_has_id id) (participants w))),
     set_participants
       (map (fun p => if participant_has_id id p
                      then apply_participant_patch d updated_at p else p)) w).

(** Modelled from the spec: [db.create(table='participants', data=row)]. *)
Definition db_create_participant (row : Participant) : M World string :=
  fun w =>
    if str_in (p_id row) (map p_id (participants w))
    then (inl (Exception "duplicate key value violates unique constraint"), w)
    else (inr (p_id row), set_participants (fun l => (l ++ [row])%list) w).

End Repository.

(** ** Components [tasks.py] and [participants.py] *)

Section Components.

(** [clock n] is the string [datetime.now().strftime(...)] returns at its
    [n]-th reading. *)
Variable clock : nat -> string.

Definition datetime_now : M World string :=
  fun w => (inr (clock (ticks w)), tick w).

Definition valid_types : list string :=
  ["camera"; "discussion"; "gallery"; "collage"; "classification";
   "fill_blanks"].

Definition invalid_type_message : string :=
  "Invalid task type. Must be one of: " ++ String.concat ", " valid_types.

(** [max(l + [0])] *)
Definition max_with_zero (l : list Z) : Z := fold_right Z.max 0 l.

Definition study_query (study_id : string) : TaskQuery :=
  mkTaskQuery None (Some study_id) None.

(** [create_task(task)]; [uuid] is the id the database generates when the
    dictionary has none. *)
Definition create_task (task : option TaskData) (uuid : string)
  : M World string :=
  match task with
  | None => raise (Exception "Task data is required")
  | Some task =>
    require (task_data_nonempty task) (Exception "Task data is required") ;;;
    require (truthy (d_study_id task)) (Exception "study_id is required") ;;;
    require (truthy (d_type task)) (Exception "type is required") ;;;
    require (truthy (d_title task)) (Exception "title is required") ;;;
    require (str_in (or_default (d_type task) "") valid_types)
      (Exception invalid_type_message) ;;;
    current_time <- datetime_now ;;
    order_index <-
      match d_order_index task with
      | Some i => ret i
      | None =>
        existing_tasks <-
          db_read_tasks (study_query (or_default (d_study_id task) "")) ;;
        ret (max_with_zero (map t_order_index existing_tasks) + 1)
      end ;;
    db_create_task
      (mkTask (or_default (d_id task) uuid)
         (or_default (d_study_id task) "")
         (or_default (d_type task) "")
         (or_default (d_title task) "")
         (d_instructions task)
         order_index current_time current_time)
  end.

(** [list.sort(key=order_index)]: a stable sort. *)
Fixpoint insert_by_order_index (t : Task) (l : list Task) : list Task :=
  match l with
  | [] => [t]
  | h :: r =>
    if t_order_index t <=? t_order_index h then t :: l
    else h :: insert_by_order_index t r
  end.

Definition sort_by_order_index (l : list Task) : list Task :=
  fold_right insert_by_order_index [] l.

(** [read_tasks(query)], for rows whose [order_index] is an integer. *)
Definition read_tasks (query : option TaskQuery) : M World (list Task) :=
  let query := or_default query (mkTaskQuery None None None) in
  tasks <- db_read_tasks query ;;
  ret (sort_by_order_index tasks).

(** The loop [for index, task_id in enumerate(task_ids, start=index)]. *)
Fixpoint reorder_loop (study_id : string) (index : Z) (task_ids : list string)
  : M World unit :=
  match task_ids with
  | [] => ret tt
  | task_id :: rest =>
    now <- datetime_now ;;
    db_update_tasks (mkTaskQuery (Some task_id) (Some study_id) None)
      (mkTaskPatch (Some index) (Some now)) ;;;
    reorder_loop study_id (index + 1) rest
  end.

(** [reorder_tasks(study_id, task_ids)], returning the value under
    ['message']. *)
Definition reorder_tasks (study_id : string) (task_ids : list string)
  : M World string :=
  require (str_truthy study_id) (Exception "Study ID is required") ;;;
  require (match task_ids with [] => false | _ => true end)
    (Exception "Task IDs list is required") ;;;
  reorder_loop study_id 1 task_ids ;;;
  ret "Tasks reordered successfully".

(** [create_participant(participant)] *)
Definition create_participant (participant : option ParticipantData)
  (uuid : string) : M World string :=
  match participant with
  | None => raise (Exception "Participant data is required")
  | Some participant =>
    require (participant_data_nonempty participant)
      (Exception "Participant data is required") ;;;
    require (truthy (pd_study_id participant))
      (Exception "study_id is required") ;;;
    require (truthy (pd_contact participant))
      (Exception "contact is required") ;;;
    current_time <- datetime_now ;;
    db_create_participant
      (mkParticipant (or_default (pd_id participant) uuid)
         (or_default (pd_study_id participant) "")
         (or_default (pd_contact participant) "")
         (pd_demographics participant)
         (or_default (pd_status participant) "invited")
         (or_default (pd_invited_at participant) (Some current_time))
         (or_default (pd_started_at participant) None)
         (or_default (pd_completed_at participant) None)
         current_time current_time)
  end.

(** The branch [if 'status' in data] of [update_participant]: the
    dictionary sent to the database. *)
Definition stamp_status (data : ParticipantData) : M World ParticipantData :=
  match pd_status data with
  | None => ret data
  | Some status =>
    current_time <- datetime_now ;;
    if String.eqb status "started" && negb (is_some (pd_started_at data))
    then ret (set_pd_started_at (Some current_time) data)
    else if String.eqb status "completed"
            && negb (is_some (pd_completed_at data))
    then ret (set_pd_completed_at (Some current_time) data)
    else ret data
  end.

(** [update_participant(participant_id, data)] *)
Definition update_participant (participant_id : string)
  (data : option ParticipantData) : M World (option string) :=
  require (str_truthy participant_id)
    (Exception "Participant ID is required") ;;;
  match data with
  | None => raise (Exception "Update data is required")
  | Some data =>
    require (participant_data_nonempty data)
      (Exception "Update data is required") ;;;
    updated_at <- datetime_now ;;
    data <- stamp_status data ;;
    db_update_participants participant_id data updated_at
  end.

End Components.

(** ** Sequences of task operations *)

Inductive TaskOp : Type :=
| AddTask (task : option TaskData) (uuid : string)
| ReorderTasks (study_id : string) (task_ids : list string).

Definition apply_op (clock : nat -> string) (op : TaskOp) (w : World) : World :=
  match op with
  | AddTask task uuid => exec (create_task clock task uuid) w
  | ReorderTasks study_id task_ids => exec (reorder_tasks clock study_id task_ids) w
  end.

Definition run_ops (clock : nat -> string) (ops : list TaskOp) (w : World)
  : World :=
  fold_left (fun w op => apply_op clock op w) ops w.

(** The tasks of study [S], in stored order, and what [read_tasks] returns
    for the query [{'study_id': S}]. *)
Definition tasks_of (S : string) (w : World) : list Task :=
  filter (task_matches (study_query S)) (tasks w).

Definition list_tasks (S : string) (w : World) : list Task :=
  match result (read_tasks (Some (study_query S))) w with
  | inr l => l
  | inl _ => []
  end.

(** An operation is complete for study [S] when, if it adds a task to [S],
    it leaves [order_index] to the component, and, if it reorders [S], its
    list names every task [S] has at that moment. *)
Definition op_complete (S : string) (w : World) (op : TaskOp) : bool :=
  match op with
  | AddTask None _ => true
  | AddTask (Some d) _ =>
    negb (String.eqb (or_default (d_study_id d) "") S)
    || negb (is_some (d_order_index d))
  | ReorderTasks study_id task_ids =>
    negb (String.eqb study_id S)
    || forallb (fun t => str_in (t_id t) task_ids) (tasks_of S w)
  end.

Fixpoint ops_complete (clock : nat -> string) (S : string) (w : World)
  (ops : list TaskOp) : bool :=
  match ops with
  | [] => true
  | op :: rest =>
    op_complete S w op && ops_complete clock S (apply_op clock op w) rest
  end.

(** ** Service [ai_service.py] *)

(** Python's [sep in s] and [s.split(sep)] for a non-empty separator. *)
Fixpoint contains (sep s : string) : bool :=
  String.prefix sep s
  || match s with
     | EmptyString => false
     | String _ rest => contains sep rest
     end.

Fixpoint split_from (sep : string) (skip : nat) (cur s : string)
  : list string :=
  match s with
  | EmptyString => [cur]
  | String c rest =>
    match skip with
    | S k => split_from sep k cur rest
    | O =>
      if String.prefix sep s
      then cur :: split_from sep (String.length sep - 1) "" rest
      else split_from sep 0 (cur ++ String c "") rest
    end
  end.

Definition split (sep s : string) : list string := split_from sep 0 "" s.

Definition nl : string := String (ascii_of_nat 10) "".

Inductive Provider : Type := OpenAI | Anthropic.

(** One request to the external inference collaborator. *)
Record ApiCall : Type := mkApiCall {
  call_provider : Provider;
  call_model : string;
  call_system : option string;
  call_prompt : string
}.

(** How a request can fail (specification, section 6, plus the
    5xx-equivalent of section 4.4), with the text of the exception. *)
Inductive FailureKind : Type := Timeout | ServerError | RateLimited | AuthError.

Record ApiFailure : Type := mkApiFailure {
  failure_kind : FailureKind;
  failure_message : string
}.

Definition transient (k : FailureKind) : bool :=
  match k with
  | Timeout | ServerError | RateLimited => true
  | AuthError => false
  end.

(** [AIService]: a client is present when its key was configured. *)
Record AIService : Type := mkAIService {
  openai_client : option string;
  anthropic_client : option string
}.

(** [AIService.__init__], given the two environment variables. *)
Definition AIService_init (openai_key anthropic_key : option string)
  : AIService :=
  mkAIService (if truthy openai_key then openai_key else None)
    (if truthy anthropic_key then anthropic_key else None).

Section AI.

(** [json.dumps(_, indent=2)], [json.loads] (the text of the decoding error
    or the value) and [str.strip] are library functions. *)
Variable json_dumps : json -> string.
Variable json_loads : string -> string + json.
Variable strip : string -> string.

(** The external collaborator as the service sees it: what a call of the
    client's method [create] returns, given the calls made before it, is
    the text of the reply or a failure. *)
Variable inference : list ApiCall -> ApiCall -> ApiFailure + string.

(** The state of the service is the log of the calls of [create] made so
    far. *)
Definition AI (A : Type) : Type := M (list ApiCall) A.

Definition create_message (c : ApiCall) : AI string :=
  fun log =>
    match inference log c with
    | inl f => (inl (Exception (failure_message f)), (log ++ [c])%list)
    | inr text => (inr text, (log ++ [c])%list)
    end.

Definition loads (s : string) : AI json :=
  match json_loads s with
  | inl msg => raise (ValueError msg)
  | inr j => ret j
  end.

(** [xs[i]] *)
Definition index (xs : list string) (i : nat) : AI string :=
  match nth_error xs i with
  | Some x => ret x
  | None => raise (Exception "list index out of range")
  end.

Definition analysis_prompt (text : string) (context : option string)
  : string :=
  "Analyze the following participant response and extract insights:" ++ nl
  ++ nl
  ++ "RESPONSE: " ++ text ++ nl
  ++ nl
  ++ (if truthy context then "CONTEXT: " ++ or_default context "" else "")
  ++ nl
  ++ nl
  ++ "Provide a JSON analysis with:" ++ nl
  ++ "1. sentiment: object with score (-1 to 1), label (positive/neutral/negative), and confidence (0-1)" ++ nl
  ++ "2. themes: array of 3-5 main themes/topics mentioned" ++ nl
  ++ "3. key_phrases: array of 5-10 notable quotes or phrases (extract verbatim)" ++ nl
  ++ "4. emotions: array of detected emotions (joy, frustration, excitement, concern, etc.)" ++ nl
  ++ "5. insights: array of 2-3 key takeaways" ++ nl
  ++ nl
  ++ "Format as valid JSON.".

(** The reply may be wrapped in a markdown fence. *)
Definition unwrap_fence (content : string) : AI string :=
  if contains "```json" content then
    inner <- index (split "```json" content) 1 ;;
    index (split "```" inner) 0
  else if contains "```" content then
    inner <- index (split "```" content) 1 ;;
    index (split "```" inner) 0
  else ret content.

(** [AIService.analyze_text_response(text, context)] *)
Definition analyze_text_response (self : AIService) (text : string)
  (context : option string) : AI json :=
  require (is_some (anthropic_client self))
    (ValueError "Anthropic API key not configured") ;;;
  try_except
    (content <- create_message
       (mkApiCall Anthropic "claude-3-sonnet-20240229" None
          (analysis_prompt text context)) ;;
     content <- unwrap_fence content ;;
     loads (strip content))
    (fun e => raise (Exception ("Text analysis failed: " ++ str e))).

Definition synthesis_prompt (study_data : json) : string :=
  "You are analyzing a completed consumer research study. Based on all participant responses and data, provide a comprehensive analysis." ++ nl
  ++ nl
  ++ "STUDY DATA:" ++ nl
  ++ json_dumps study_data ++ nl
  ++ nl
  ++ "Provide a comprehensive JSON analysis with:" ++ nl
  ++ nl
  ++ "1. executive_summary: 3-4 sentence overview of key findings" ++ nl
  ++ "2. key_insights: array of 7-10 most important discoveries" ++ nl
  ++ "3. themes: array of objects with theme, frequency, sentiment, description, examples" ++ nl
  ++ "4. sentiment_analysis: overall percentages, by_segment, trends" ++ nl
  ++ "5. recommendations: array of 5-7 strategic actions with priority, category, recommendation, rationale, expected_impact" ++ nl
  ++ "6. opportunities: areas for growth or innovation" ++ nl
  ++ "7. risks: concerns or challenges identified" ++ nl
  ++ "8. next_steps: specific actions to take" ++ nl
  ++ nl
  ++ "Be specific, actionable, and business-focused.".

Definition synthesis_system : string :=
  "You are a senior consumer insights analyst who translates research data into actionable business strategy.".

(** [AIService.synthesize_study_insights(study_data)] *)
Definition synthesize_study_insights (self : AIService) (study_data : json)
  : AI json :=
  require (is_some (openai_client self))
    (ValueError "OpenAI API key not configured") ;;;
  try_except
    (content <- create_message
       (mkApiCall OpenAI "gpt-4-turbo-preview" (Some synthesis_system)
          (synthesis_prompt study_data)) ;;
     loads content)
    (fun e => raise (Exception ("Study synthesis failed: " ++ str e))).

(** The route [/synthesize-study]; [study_data] is
    [payload.get('study_data')]. *)
Definition synthesize_study (ai_service : AIService)
  (study_data : option json) : AI json :=
  require (json_truthy (or_default study_data JNull))
    (Exception "Study data is required") ;;;
  synthesize_study_insights ai_service (or_default study_data JNull).

End AI.

(** ** The clients of the inference collaborator *)

(** [AIService.__init__] builds both clients with default options, and the
    two operations call their method [create] once.  The clients are
    libraries (openai, anthropic) that are not part of the sources; what
    [create] does with a failing request follows the retry policy of the
    specification, section 4.4, which is the default of both libraries:
    two retries after the first request. *)

(** What one call of [create] does: the requests it sends to the provider,
    numbered from 0, and the waits between them, in milliseconds. *)
Inductive ClientEvent : Type :=
| Attempt (n : nat)
| Sleep (milliseconds : Z).


Section Client.

(** The first wait and the longest wait of a client, in milliseconds. *)
Variable initial_delay max_delay : Z.

(** Modelled from the spec: the wait before retry [n], counted from 0;
    the clients are missing.  Bounded exponential backoff: the first wait
    doubles with every retry and never exceeds the longest wait. *)
Definition backoff_delay (n : nat) : Z :=
  Z.min (initial_delay * 2 ^ Z.of_nat n) max_delay.

(** Modelled from the spec: the requests of one call of [create]; the
    clients are missing.  [reply n] is the answer of the provider to
    request [n].  A transient failure is retried after a wait while
    retries are left; an answer, or any other failure, ends the call at
    once. *)
Fixpoint request (reply : nat -> ApiFailure + string) (retries n : nat)
  : (ApiFailure + string) * list ClientEvent :=
  match reply n with
  | inr text => (inr text, [Attempt n])
  | inl f =>
    if transient (failure_kind f) then
      match retries with
      | O => (inl f, [Attempt n])
      | S retries =>
        let (answer, events) := request reply retries (S n) in
        (answer, Attempt n :: Sleep (backoff_delay n) :: events)
      end
    else (inl f, [Attempt n])
  end.

(** Modelled from the spec: three attempts, that is two retries; the
    clients are missing. *)
Definition max_retries : nat := 2.

(** The provider: its answer to request [n] of the call of [create] with
    the given arguments, made after the calls in the log. *)
Variable provider : list ApiCall -> ApiCall -> nat -> ApiFailure + string.

(** Modelled from the spec: [client.messages.create(...)] and
    [client.chat.completions.create(...)] of a client built with default
    options; the clients are missing.  The result is what the caller
    gets, with the requests and waits behind it. *)
Definition client_create (log : list ApiCall) (c : ApiCall)
  : (ApiFailure + string) * list ClientEvent :=
  request (provider log c) max_retries 0.

Definition client_inference (log : list ApiCall) (c : ApiCall)
  : ApiFailure + string := fst (client_create log c).

End Client.

(** ** The response ingestor *)

(** The components [responses.py] are left to the reader by the guide and
    are not part of the sources; the ingestor follows section 4.3 of the
    specification. *)

Record ResponseFilter : Type := mkResponseFilter {
  f_participant_id : option string;
  f_task_id : option string;
  f_study_id : option string
}.


Definition for_pair (participant_id task_id : string) (r : Response) : bool :=
  String.eqb participant_id (r_participant_id r)
  && String.eqb task_id (r_task_id r).

Section Ingestor.

Variable clock : nat -> string.

(** Modelled from the spec: the shape of the payload implied by the task's
    type; [responses.py] is missing.  Free text for [discussion], a list
    of media URLs for [camera], [gallery] and [collage], a ranked-item list
    for [classification], a fill-in list for [fill_blanks]. *)
Definition payload_fits (type : string) (payload : Payload) : bool :=
  match payload with
  | Text _ => String.eqb type "discussion"
  | MediaUrls _ =>
    String.eqb type "camera" || String.eqb type "gallery"
    || String.eqb type "collage"
  | RankedItems _ => String.eqb type "classification"
  | FillIns _ => String.eqb type "fill_blanks"
  end.

(** Modelled from the spec: whether a response passes a filter of
    [list]; [responses.py] is missing.  The study filter joins through the
    response's task. *)
Definition response_matches (w : World) (f : ResponseFilter) (r : Response)
  : bool :=
  field_matches (f_participant_id f) (r_participant_id r)
  && field_matches (f_task_id f) (r_task_id r)
  && match f_study_id f with
     | None => true
     | Some study_id =>
       existsb (fun t => String.eqb (t_id t) (r_task_id r)
                         && String.eqb (t_study_id t) study_id) (tasks w)
     end.

(** Modelled from the spec: [list(filter)] of the response ingestor;
    [responses.py] is missing. *)
Definition list_responses (f : ResponseFilter) : M World (list Response) :=
  fun w => (inr (filter (response_matches w f) (responses w)), w).

(** Modelled from the spec: a referenced row that is missing is
    [NotFound]; [responses.py] is missing. *)
Definition lookup {A : Type} (table : World -> list A) (id_of : A -> string)
  (id : string) : M World A :=
  fun w =>
    match find (fun row => String.eqb id (id_of row)) (table w) with
    | Some row => (inr row, w)
    | None => (inl (NotFound id), w)
    end.

(** Modelled from the spec: the upsert of [submit]; [responses.py] is
    missing.  A response stored for the pair is replaced, otherwise a row
    is created under the generated id. *)
Definition upsert_response (participant_id task_id : string)
  (payload : Payload) (uuid now : string) : M World string :=
  fun w =>
    match find (for_pair participant_id task_id) (responses w) with
    | Some r =>
      (inr (r_id r),
       set_responses
         (map (fun r => if for_pair participant_id task_id r
                        then mkResponse (r_id r) (r_participant_id r)
                               (r_task_id r) payload now (r_created_at r)
                        else r)) w)
    | None =>
      if str_in uuid (map r_id (responses w))
      then (inl (Exception "duplicate key value violates unique constraint"), w)
      else (inr uuid,
            set_responses
              (fun l => (l ++ [mkResponse uuid participant_id task_id
                                 payload now now])%list) w)
    end.

(** Modelled from the spec: the status change [submit] triggers;
    [responses.py] is missing.  The lifecycle is the component
    [update_participant] of the sources. *)
Definition transition (participant_id status : string) : M World unit :=
  update_participant clock participant_id
    (Some (mkParticipantData None None None None (Some status) None None None)) ;;;
  ret tt.

(** Modelled from the spec: whether the participant has answered every
    task of the study; [responses.py] is missing. *)
Definition all_answered (study_id : string) (answered : list Response)
  (w : World) : bool :=
  forallb (fun t => existsb (fun r => String.eqb (r_task_id r) (t_id t)) answered)
    (tasks_of study_id w).

(** Modelled from the spec: [submit(participantId, taskId, payload)] of
    section 4.3; [responses.py] is missing.  A missing participant, task
    or study is [NotFound]; a study that is not active, or a participant
    already completed (design notes), is [InvalidState]; a payload of the
    wrong shape is [InvalidPayload]; the response is upserted; the first
    submission in the study moves the participant to [started], the one
    for the last remaining task to [completed]. *)
Definition submit (participant_id task_id : string) (payload : Payload)
  (uuid : string) : M World string :=
  participant <- lookup participants p_id participant_id ;;
  task <- lookup tasks t_id task_id ;;
  study <- lookup studies s_id (t_study_id task) ;;
  require (String.eqb (s_status study) "active") (InvalidState (s_id study)) ;;;
  require (negb (String.eqb (p_status participant) "completed"))
    (InvalidState participant_id) ;;;
  require (payload_fits (t_type task) payload) (InvalidPayload task_id) ;;;
  now <- datetime_now clock ;;
  let in_study :=
    mkResponseFilter (Some participant_id) None (Some (s_id study)) in
  earlier <- list_responses in_study ;;
  response_id <- upsert_response participant_id task_id payload uuid now ;;
  (match earlier with
   | [] => transition participant_id "started"
   | _ => ret tt
   end) ;;;
  answered <- list_responses in_study ;;
  (fun w =>
     if all_answered (s_id study) answered w
     then transition participant_id "completed" w
     else ret tt w) ;;;
  ret response_id.






End Ingestor.

(** ** Functions used to state the properties *)

(** The position, counted from 0, of the last occurrence of [id]. *)
Fixpoint last_index (id : string) (ids : list string) : option nat :=
  match ids with
  | [] => None
  | x :: rest =>
    match last_index id rest with
    | Some k => Some (S k)
    | None => if String.eqb x id then Some O else None
    end
  end.

(** What the loop of [reorder_tasks] makes of one stored task when it
    starts at position [index] with the clock read [start] times. *)
Definition reordered (clock : nat -> string) (study_id : string) (index : Z)
  (start : nat) (task_ids : list string) (t : Task) : Task :=
  if String.eqb study_id (t_study_id t) then
    match last_index (t_id t) task_ids with
    | Some k =>
      mkTask (t_id t) (t_study_id t) (t_type t) (t_title t) (t_instructions t)
        (index + Z.of_nat k) (t_created_at t) (clock (start + k)%nat)
    | None => t
    end
  else t.

(** Whether the ids in [task_ids] are, as a set, the ids of the tasks of
    study [S]. *)
Definition same_id_set (S : string) (task_ids : list string) (w : World)
  : bool :=
  forallb (fun t => str_in (t_id t) task_ids) (tasks_of S w)
  && forallb (fun id => str_in id (map t_id (tasks_of S w))) task_ids.

(** The row [create_task] stores for a dictionary that passes its checks. *)
Definition created_task (clock : nat -> string) (d : TaskData) (uuid : string) (w : World) : Task :=
  mkTask (or_default (d_id d) uuid) (or_default (d_study_id d) "")
    (or_default (d_type d) "") (or_default (d_title d) "")
    (d_instructions d)
    (match d_order_index d with
     | Some i => i
     | None =>
       max_with_zero
         (map t_order_index (tasks_of (or_default (d_study_id d) "") w)) + 1
     end)
    (clock (ticks w)) (clock (ticks w)).

(** The order [list.sort] establishes. *)
Definition by_order_index (a b : Task) : Prop :=
  t_order_index a <= t_order_index b.

(** Ids are unique in the table (primary key) and no two tasks of
    [study] share an [order_index]. *)
Definition distinct_order (study : string) (w : World) : Prop :=
  NoDup (map t_id (tasks w))
  /\ NoDup (map t_order_index (tasks_of study w)).

(** The dictionary [update_participant] sends to the database when it is
    called in world [w], after its status branch. *)
Definition stamped_data (clock : nat -> string) (data : ParticipantData)
  (w : World) : ParticipantData :=
  match result (stamp_status clock data) (tick w) with
  | inr data' => data'
  | inl _ => data
  end.

(** [data.get('status') == status] *)
Definition status_is (data : ParticipantData) (status : string) : bool :=
  match pd_status data with
  | Some s => String.eqb s status
  | None => false
  end.

(** The requests the two analysis operations send. *)
Definition analysis_call (text : string) (context : option string) : ApiCall :=
  mkApiCall Anthropic "claude-3-sonnet-20240229" None
    (analysis_prompt text context).

Definition synthesis_call (json_dumps : json -> string) (study_data : json)
  : ApiCall :=
  mkApiCall OpenAI "gpt-4-turbo-preview" (Some synthesis_system)
    (synthesis_prompt json_dumps study_data).

(** What [analyze_text_response] does with the reply to its request. *)
Definition decode_analysis (json_loads : string -> string + json)
  (strip : string -> string) (content : string) : AI json :=
  content <- unwrap_fence content ;;
  loads json_loads (strip content).

(** An operation that leaves the state alone. *)
Definition pure {St A : Type} (m : M St A) : Prop :=
  exists r, forall s, m s = (r, s).






(** ** Sample data *)

Definition sample_clock (n : nat) : string :=
  "2025-01-01 00:00:0" ++ String (ascii_of_nat (48 + n)) "".

Definition sample_participant : option ParticipantData :=
  Some (mkParticipantData (Some "p1") (Some "S1") (Some "p1@example.com")
          None None None None None).

Definition status_update (status : string) : option ParticipantData :=
  Some (mkParticipantData None None None None (Some status) None None None).

Definition sample_service : AIService :=
  AIService_init (Some "sk-test") (Some "sk-ant-test").

(** A decoder that accepts the empty object only, and a collaborator that
    always replies with it. *)
Definition sample_loads (s : string) : string + json :=
  if String.eqb s "{}" then inr (JObj [])
  else inl "Expecting value: line 1 column 1 (char 0)".

Definition sample_dumps (j : json) : string := "{...}".

Definition sample_inference (log : list ApiCall) (c : ApiCall)
  : ApiFailure + string := inr "{}".

(** A provider that times out twice and then answers, one that refuses
    the key, and one that is down. *)
Definition flaky_provider (log : list ApiCall) (c : ApiCall) (n : nat)
  : ApiFailure + string :=
  match n with
  | O | S O => inl (mkApiFailure Timeout "Request timed out.")
  | _ => inr "{}"
  end.

Definition denying_provider (log : list ApiCall) (c : ApiCall) (n : nat)
  : ApiFailure + string :=
  inl (mkApiFailure AuthError "Incorrect API key provided.").

Definition dead_provider (log : list ApiCall) (c : ApiCall) (n : nat)
  : ApiFailure + string :=
  inl (mkApiFailure ServerError "Internal server error").

(** The data of a study without responses. *)
Definition empty_study_data : json :=
  JObj [("study", JStr "S1"); ("participants", JArr []);
        ("responses", JArr [])].

(** An active study with two discussion tasks and two invited
    participants. *)
Definition sample_world : World :=
  mkWorld
    [mkStudy "S1" "org" "Snack study" "active"]
    [mkTask "T1" "S1" "discussion" "First" None 1 "t" "t";
     mkTask "T2" "S1" "discussion" "Second" None 2 "t" "t"]
    [mkParticipant "p1" "S1" "p1@example.com" None "invited" (Some "t")
       None None "t" "t";
     mkParticipant "p2" "S1" "p2@example.com" None "invited" (Some "t")
       None None "t" "t"]
    [] 0.


(** The scenario of the specification: study S1 with a camera task T1 at
    position 1, a discussion task T2 at position 2 and an invited
    participant p1. *)
Definition scenario_world : World :=
  mkWorld
    [mkStudy "S1" "org" "Snack study" "active"]
    [mkTask "T1" "S1" "camera" "Unboxing" None 1 "t" "t";
     mkTask "T2" "S1" "discussion" "Thoughts" None 2 "t" "t"]
    [mkParticipant "p1" "S1" "p1@example.com" None "invited" (Some "t")
       None None "t" "t"]
    [] 0.

Definition sample_task (id study_id : string) (order_index : option Z)
  : option TaskData :=
  Some (mkTaskData (Some id) (Some study_id) (Some "discussion")
          (Some "Thoughts") None order_index).

(** ** The remaining functions of [tasks.py] and [participants.py] *)

(** The [data] dictionary of [update_task]: one key per column of the
    table, absent ([None]) or bound; [instructions] is nullable. *)
Record TaskUpdate : Type := mkTaskUpdate {
  tu_id : option string;
  tu_study_id : option string;
  tu_type : option string;
  tu_title : option string;
  tu_instructions : option (option string);
  tu_order_index : option Z;
  tu_created_at : option string;
  tu_updated_at : option string
}.

(** [bool(data)] *)
Definition task_update_nonempty (d : TaskUpdate) : bool :=
  is_some (tu_id d) || is_some (tu_study_id d) || is_some (tu_type d)
  || is_some (tu_title d) || is_some (tu_instructions d)
  || is_some (tu_order_index d) || is_some (tu_created_at d)
  || is_some (tu_updated_at d).

(** The row after [db.update] has applied [data]; the component has
    replaced [data['updated_at']] by the time it read. *)
Definition apply_task_update (d : TaskUpdate) (updated_at : string) (t : Task)
  : Task :=
  mkTask (or_default (tu_id d) (t_id t))
    (or_default (tu_study_id d) (t_study_id t))
    (or_default (tu_type d) (t_type t))
    (or_default (tu_title d) (t_title t))
    (or_default (tu_instructions d) (t_instructions t))
    (or_default (tu_order_index d) (t_order_index t))
    (or_default (tu_created_at d) (t_created_at t)) updated_at.

Definition id_query (id : string) : TaskQuery := mkTaskQuery (Some id) None None.

(** Exact-match conjunctive filter on the [participants] table. *)
Record ParticipantQuery : Type := mkParticipantQuery {
  pq_id : option string;
  pq_study_id : option string;
  pq_status : option string
}.

Definition participant_matches (q : ParticipantQuery) (p : Participant)
  : bool :=
  field_matches (pq_id q) (p_id p)
  && field_matches (pq_study_id q) (p_study_id p)
  && field_matches (pq_status q) (p_status p).

(** Modelled from the spec: [db.update(table='tasks', query={'id': id},
    data=d)], with the [updated_at] the component adds. *)
Definition db_update_task_data (id : string) (d : TaskUpdate)
  (updated_at : string) : M World (option string) :=
  fun w =>
    (inr (option_map (fun t => t_id (apply_task_update d updated_at t))
            (find (task_matches (id_query id)) (tasks w))),
     set_tasks
       (map (fun t => if task_matches (id_query id) t
                      then apply_task_update d updated_at t else t)) w).

(** Modelled from the spec: [db.delete(table='tasks', query={'id': id})]
    removes the matching rows and returns the affected id, if any.  The
    schema declares [responses.task_id] with [ON DELETE CASCADE], so the
    responses to a removed task go with it. *)
Definition db_delete_tasks (id : string) : M World (option string) :=
  fun w =>
    let removed := filter (task_matches (id_query id)) (tasks w) in
    (inr (option_map t_id (find (task_matches (id_query id)) (tasks w))),
     mkWorld (studies w)
       (filter (fun t => negb (task_matches (id_query id) t)) (tasks w))
       (participants w)
       (filter (fun r => negb (str_in (r_task_id r) (map t_id removed)))
          (responses w))
       (ticks w)).

(** Modelled from the spec: [db.read(table='participants', query=q)]. *)
Definition db_read_participants (q : ParticipantQuery)
  : M World (list Participant) :=
  fun w => (inr (filter (participant_matches q) (participants w)), w).

(** Modelled from the spec: [db.delete(table='participants',
    query={'id': id})]; [responses.participant_id] is declared with
    [ON DELETE CASCADE]. *)
Definition db_delete_participants (id : string) : M World (option string) :=
  fun w =>
    let removed := filter (participant_has_id id) (participants w) in
    (inr (option_map p_id (find (participant_has_id id) (participants w))),
     mkWorld (studies w) (tasks w)
       (filter (fun p => negb (participant_has_id id p)) (participants w))
       (filter (fun r => negb (str_in (r_participant_id r) (map p_id removed)))
          (responses w))
       (ticks w)).

(** What [bulk_create_participants] returns. *)
Record BulkResult : Type := mkBulkResult {
  created_count : Z;
  total_requested : Z
}.

Section MoreComponents.

Variable clock : nat -> string.

(** [update_task(task_id, data)] *)
Definition update_task (task_id : string) (data : option TaskUpdate)
  : M World (option string) :=
  require (str_truthy task_id) (Exception "Task ID is required") ;;;
  match data with
  | None => raise (Exception "Update data is required")
  | Some data =>
    require (task_update_nonempty data)
      (Exception "Update data is required") ;;;
    require (match tu_type data with
             | Some type => str_in type valid_types
             | None => true
             end) (Exception invalid_type_message) ;;;
    updated_at <- datetime_now clock ;;
    db_update_task_data task_id data updated_at
  end.

(** [delete_task(task_id)] *)
Definition delete_task (task_id : string) : M World (option string) :=
  require (str_truthy task_id) (Exception "Task ID is required") ;;;
  db_delete_tasks task_id.

(** [read_participants(query)] *)
Definition read_participants (query : option ParticipantQuery)
  : M World (list Participant) :=
  db_read_participants
    (or_default query (mkParticipantQuery None None None)).

(** [delete_participant(participant_id)] *)
Definition delete_participant (participant_id : string)
  : M World (option string) :=
  require (str_truthy participant_id)
    (Exception "Participant ID is required") ;;;
  db_delete_participants participant_id.

(** The loop of [bulk_create_participants]; [uuid i] is the id the
    database generates for the [i]-th contact. *)
Fixpoint bulk_create_loop (study_id : string) (demographics : option json)
  (current_time : string) (uuid : nat -> string) (i : nat)
  (contacts : list string) (count : Z) : M World Z :=
  match contacts with
  | [] => ret count
  | contact :: rest =>
    count <-
      try_except
        (db_create_participant
           (mkParticipant (uuid i) study_id contact
              (if json_truthy (or_default demographics JNull)
               then demographics else None)
              "invited" (Some current_time) None None
              current_time current_time) ;;;
         ret (count + 1))
        (fun e => ret count) ;;
    bulk_create_loop study_id demographics current_time uuid (S i) rest count
  end.

(** [bulk_create_participants(study_id, contacts, demographics)] *)
Definition bulk_create_participants (study_id : string)
  (contacts : list string) (demographics : option json)
  (uuid : nat -> string) : M World BulkResult :=
  require (str_truthy study_id) (Exception "Study ID is required") ;;;
  require (match contacts with [] => false | _ => true end)
    (Exception "Contacts list is required") ;;;
  current_time <- datetime_now clock ;;
  count <- bulk_create_loop study_id demographics current_time uuid 0
             contacts 0 ;;
  ret (mkBulkResult count (Z.of_nat (length contacts))).

(** The route [/tasks/create].  [task] is the value under ['task'] in the
    payload: the key is absent ([None]), or bound to JSON null
    ([Some None]) or to an object; [payload.get('task', {})] makes the
    empty dictionary of an absent key, and ['id' not in None] raises.
    [uuid] is the value of [uuid.uuid4()]; the result is the value under
    ['id']. *)
Definition tasks_create (task : option (option TaskData)) (uuid : string)
  : M World string :=
  match or_default task (Some (mkTaskData None None None None None None)) with
  | None => raise (TypeError "argument of type 'NoneType' is not iterable")
  | Some task_data =>
    let task_data :=
      if is_some (d_id task_data) then task_data
      else mkTaskData (Some uuid) (d_study_id task_data) (d_type task_data)
             (d_title task_data) (d_instructions task_data)
             (d_order_index task_data) in
    create_task clock (Some task_data) uuid
  end.

(** An entry of the task list of the study form (create/page.tsx). *)
Record FormTask : Type := mkFormTask {
  taskTypeId : Z;
  prompt : string
}.

(** [getTaskTypeFromId(id)]: [typeMap[id] || 'discussion']. *)
Definition typeMap : list (Z * string) :=
  [(1, "camera"); (2, "discussion"); (3, "gallery"); (4, "collage");
   (5, "classification"); (6, "fill_blanks")].

Definition getTaskTypeFromId (id : Z) : string :=
  match find (fun entry => fst entry =? id) typeMap with
  | Some (_, type) => if str_truthy type then type else "discussion"
  | None => "discussion"
  end.

(** The loop [for (const task of tasks) await createTask({...})] of
    [handleSubmit]; [createTask] posts [{ task: taskData }] to the route.
    A refused request is taken to answer with a status on which
    [PostData] throws, which ends the loop.  [uuid i] is the id the route
    generates for the [i]-th request. *)
Fixpoint handleSubmit_tasks (studyId : string) (uuid : nat -> string)
  (i : nat) (tasks : list FormTask) : M World unit :=
  match tasks with
  | [] => ret tt
  | task :: rest =>
    tasks_create
      (Some (Some (mkTaskData None (Some studyId)
                     (Some (getTaskTypeFromId (taskTypeId task)))
                     (Some (prompt task)) (Some (prompt task)) None)))
      (uuid i) ;;;
    handleSubmit_tasks studyId uuid (S i) rest
  end.

End MoreComponents.

(** [handleRemoveTask(index)]: [tasks.filter((_, i) => i !== index)]. *)
Fixpoint remove_at {A : Type} (i : nat) (index : nat) (tasks : list A)
  : list A :=
  match tasks with
  | [] => []
  | task :: rest =>
    if Nat.eqb i index then remove_at (S i) index rest
    else task :: remove_at (S i) index rest
  end.

Definition handleRemoveTask {A : Type} (index : nat) (tasks : list A)
  : list A := remove_at 0 index tasks.

(** ** The remaining functions of [ai_service.py] and its routes *)

Definition dq : string := String (ascii_of_nat 34) "".

(** [s] in double quotes. *)
Definition quoted (s : string) : string := dq ++ s ++ dq.

Definition suggestion_system : string :=
  "You are an expert consumer research consultant with 20 years of experience designing effective research studies. Always provide practical, actionable recommendations.".

Section MoreAI.

(** [json.dumps(_)] without indentation. *)
Variable json_dumps_line : json -> string.
Variable json_loads : string -> string + json.
Variable strip : string -> string.
Variable inference : list ApiCall -> ApiCall -> ApiFailure + string.

Definition company_context (company_data : option json) : string :=
  if json_truthy (or_default company_data JNull)
  then "Company Context: " ++ json_dumps_line (or_default company_data JNull)
  else "No company data provided".

Definition suggestion_prompt (objective : string)
  (company_data : option json) : string :=
  "You are an expert market researcher. Based on the research objective below, provide a comprehensive study design recommendation." ++ nl
  ++ nl
  ++ "OBJECTIVE: " ++ objective ++ nl
  ++ nl
  ++ company_context company_data ++ nl
  ++ nl
  ++ "Please provide your recommendations in the following JSON format:" ++ nl
  ++ "{" ++ nl
  ++ "    " ++ quoted "study_type" ++ ": " ++ quoted "<recommended study type>" ++ "," ++ nl
  ++ "    " ++ quoted "reasoning" ++ ": " ++ quoted "<why this study type is appropriate>" ++ "," ++ nl
  ++ "    " ++ quoted "recommended_tasks" ++ ": [" ++ nl
  ++ "        {" ++ nl
  ++ "            " ++ quoted "type" ++ ": " ++ quoted "<camera|discussion|gallery|collage|classification|fill_blanks>" ++ "," ++ nl
  ++ "            " ++ quoted "title" ++ ": " ++ quoted "<task title>" ++ "," ++ nl
  ++ "            " ++ quoted "instructions" ++ ": " ++ quoted "<detailed instructions for participants>" ++ "," ++ nl
  ++ "            " ++ quoted "rationale" ++ ": " ++ quoted "<why this task is valuable>" ++ nl
  ++ "        }" ++ nl
  ++ "    ]," ++ nl
  ++ "    " ++ quoted "target_participants" ++ ": <recommended number>," ++ nl
  ++ "    " ++ quoted "duration_days" ++ ": <recommended duration>," ++ nl
  ++ "    " ++ quoted "segment_suggestions" ++ ": {" ++ nl
  ++ "        " ++ quoted "age_range" ++ ": " ++ quoted "<suggested age range>" ++ "," ++ nl
  ++ "        " ++ quoted "demographics" ++ ": [" ++ quoted "<key demographic factors>" ++ "]" ++ nl
  ++ "    }," ++ nl
  ++ "    " ++ quoted "key_questions" ++ ": [" ++ quoted "<3-5 key questions this study should answer>" ++ "]" ++ nl
  ++ "}" ++ nl
  ++ nl
  ++ "Ensure the tasks are diverse and will capture both qualitative and quantitative insights.".

Definition suggestion_call (objective : string) (company_data : option json)
  : ApiCall :=
  mkApiCall OpenAI "gpt-4-turbo-preview" (Some suggestion_system)
    (suggestion_prompt objective company_data).

(** [AIService.suggest_study_design(objective, company_data)] *)
Definition suggest_study_design (self : AIService) (objective : string)
  (company_data : option json) : AI json :=
  require (is_some (openai_client self))
    (ValueError "OpenAI API key not configured") ;;;
  try_except
    (content <- create_message inference
       (suggestion_call objective company_data) ;;
     loads json_loads content)
    (fun e => raise (Exception ("AI suggestion failed: " ++ str e))).

(** The route [/suggest-study-design]; the arguments are
    [payload.get('objective')] and [payload.get('company_data')]. *)
Definition suggest_study_design_route (ai_service : AIService)
  (objective : option string) (company_data : option json) : AI json :=
  require (truthy objective) (Exception "Objective is required") ;;;
  suggest_study_design ai_service (or_default objective "") company_data.

(** The route [/analyze-text]; the arguments are [payload.get('text')]
    and [payload.get('context')]. *)
Definition analyze_text (ai_service : AIService) (text context : option string)
  : AI json :=
  require (truthy text) (Exception "Text is required") ;;;
  analyze_text_response json_loads strip inference ai_service
    (or_default text "") context.

End MoreAI.

(** ** Functions used to state the further properties *)

(** No backtick occurs in the string. *)
Fixpoint tick_free (s : string) : bool :=
  match s with
  | EmptyString => true
  | String c rest => negb (Ascii.eqb c "`") && tick_free rest
  end.

(** The text before the first occurrence of [sep], all of [s] when there
    is none. *)
Fixpoint before (sep s : string) : string :=
  match s with
  | EmptyString => EmptyString
  | String c rest =>
    if String.prefix sep s then EmptyString else String c (before sep rest)
  end.

(** The checks [create_task] makes on its dictionary, in order, each with
    the message it raises. *)
Definition task_checks (d : TaskData) : list (bool * string) :=
  [(truthy (d_study_id d), "study_id is required");
   (truthy (d_type d), "type is required");
   (truthy (d_title d), "title is required");
   (str_in (or_default (d_type d) "") valid_types, invalid_type_message)].

(** All tasks have one of the six types. *)
Definition types_valid (w : World) : Prop :=
  Forall (fun t => str_in (t_type t) valid_types = true) (tasks w).

(** Every response refers to a stored task and a stored participant. *)
Definition references_resolve (w : World) : Prop :=
  Forall (fun r => str_in (r_task_id r) (map t_id (tasks w)) = true
                   /\ str_in (r_participant_id r) (map p_id (participants w))
                      = true) (responses w).

(** Edits of the task list, with removal. *)
Inductive TaskEdit : Type :=
| Edit (op : TaskOp)
| RemoveTask (task_id : string)
| UpdateTask (task_id : string) (data : option TaskUpdate).

Definition apply_edit (clock : nat -> string) (e : TaskEdit) (w : World)
  : World :=
  match e with
  | Edit op => apply_op clock op w
  | RemoveTask task_id => exec (delete_task task_id) w
  | UpdateTask task_id data => exec (update_task clock task_id data) w
  end.

Definition run_edits (clock : nat -> string) (es : list TaskEdit) (w : World)
  : World :=
  fold_left (fun w e => apply_edit clock e w) es w.

(** An edit that cannot tie two tasks of [S]: a complete operation, a
    removal, or an update that names neither [id], [study_id] nor
    [order_index]. *)
Definition edit_complete (S : string) (w : World) (e : TaskEdit) : bool :=
  match e with
  | Edit op => op_complete S w op
  | RemoveTask _ => true
  | UpdateTask _ None => true
  | UpdateTask _ (Some d) =>
    negb (is_some (tu_id d)) && negb (is_some (tu_study_id d))
    && negb (is_some (tu_order_index d))
  end.

Fixpoint edits_complete (clock : nat -> string) (S : string) (w : World)
  (es : list TaskEdit) : bool :=
  match es with
  | [] => true
  | e :: rest =>
    edit_complete S w e && edits_complete clock S (apply_edit clock e w) rest
  end.

(** The id, type, title, instructions and position of a task. *)
Definition row_of (t : Task)
  : string * string * string * option string * Z :=
  (t_id t, t_type t, t_title t, t_instructions t, t_order_index t).

(** The tasks the study form sends, as [read_tasks] should list them. *)
Definition form_rows (uuid : nat -> string) (i : nat) (first : Z)
  (tasks : list FormTask)
  : list (string * string * string * option string * Z) :=
  map (fun entry =>
         (uuid (i + fst entry)%nat,
          getTaskTypeFromId (taskTypeId (snd entry)),
          prompt (snd entry),
          Some (prompt (snd entry)),
          first + Z.of_nat (fst entry)))
    (combine (seq 0 (length tasks)) tasks).

(* ================================================================== *)
(** * Part II: properties *)
(* ================================================================== *)

(** ** The monad *)

Lemma bind_inr {St A B : Type} (m : M St A) (k : A -> M St B) s a s' :
  m s = (inr a, s') -> bind m k s = k a s'.
Proof. intros H. unfold bind. now rewrite H. Qed.

Lemma bind_inl {St A B : Type} (m : M St A) (k : A -> M St B) s e s' :
  m s = (inl e, s') -> bind m k s = (inl e, s').
Proof. intros H. unfold bind. now rewrite H. Qed.

Lemma require_true {St B : Type} (e : exn) (k : unit -> M St B) s :
  bind (require true e) k s = k tt s.
Proof. reflexivity. Qed.

Lemma require_false {St B : Type} (e : exn) (k : unit -> M St B) s :
  bind (require false e) k s = (inl e, s).
Proof. reflexivity. Qed.

(** ** Strings and lists *)

Lemma str_in_In x xs : str_in x xs = true <-> In x xs.
Proof.
  unfold str_in. rewrite existsb_exists. split.
  - intros [y [Hy Heq]]. apply String.eqb_eq in Heq. now subst.
  - intros H. exists x. split; [assumption | apply String.eqb_refl].
Qed.

Lemma str_in_false x xs : str_in x xs = false <-> ~ In x xs.
Proof.
  rewrite <- str_in_In. destruct (str_in x xs); split; intros; congruence.
Qed.

Lemma str_truthy_true s : str_truthy s = true <-> s <> "".
Proof.
  unfold str_truthy. rewrite negb_true_iff. split.
  - intros H Heq. subst. discriminate.
  - intros H. apply String.eqb_neq. assumption.
Qed.

Example split_on_fence :
  split "```" "a```b```c" = ["a"; "b"; "c"]
  /\ split "```json" "Here:```json{}```" = ["Here:"; "{}```"]
  /\ split "```" "a```" = ["a"; ""]
  /\ contains "```" "a``b" = false.
Proof. repeat split. Qed.

Example unwrap_fence_json :
  result (unwrap_fence "Here:```json{}```") [] = inr "{}".
Proof. reflexivity. Qed.

Example sort_is_stable :
  map t_id
    (sort_by_order_index
       [mkTask "A" "S" "camera" "a" None 2 "t" "t";
        mkTask "B" "S" "camera" "b" None 1 "t" "t";
        mkTask "C" "S" "camera" "c" None 2 "t" "t";
        mkTask "D" "S" "camera" "d" None 1 "t" "t"])
  = ["B"; "D"; "A"; "C"].
Proof. reflexivity. Qed.

Lemma last_index_None id ids : last_index id ids = None <-> ~ In id ids.
Proof.
  induction ids as [|x rest IH]; simpl.
  - tauto.
  - destruct (last_index id rest) as [k|].
    + split; [discriminate|]. intros H. exfalso. apply H. right.
      destruct (in_dec string_dec id rest) as [Hin|Hout]; [assumption|].
      apply IH in Hout. discriminate.
    + destruct (String.eqb_spec x id) as [->|Hne].
      * split; [discriminate|]. intros H. exfalso. apply H. now left.
      * split; [|reflexivity]. intros _ [Heq|Hin]; [congruence|].
        now apply IH.
Qed.

Lemma last_index_Some id ids k :
  last_index id ids = Some k ->
  nth_error ids k = Some id
  /\ forall j, (k < j)%nat -> nth_error ids j <> Some id.
Proof.
  revert k. induction ids as [|x rest IH]; simpl; intros k H.
  - discriminate.
  - destruct (last_index id rest) as [k'|] eqn:Hrest.
    + injection H as <-. destruct (IH k' eq_refl) as [Hn Hlast]. split.
      * assumption.
      * intros [|j] Hj; [lia|]. simpl. apply Hlast. lia.
    + destruct (String.eqb_spec x id) as [->|Hne]; [|discriminate].
      injection H as <-. split; [reflexivity|].
      intros [|j] Hj; [lia|]. simpl. intros Hnth.
      apply nth_error_In in Hnth. now apply last_index_None in Hrest.
Qed.

Lemma last_index_lt id ids k :
  last_index id ids = Some k -> (k < length ids)%nat.
Proof.
  intros H. apply last_index_Some in H as [H _].
  apply nth_error_Some. congruence.
Qed.

Lemma last_index_inj a b ids k :
  last_index a ids = Some k -> last_index b ids = Some k -> a = b.
Proof.
  intros Ha Hb. apply last_index_Some in Ha as [Ha _].
  apply last_index_Some in Hb as [Hb _]. congruence.
Qed.

(** ** Reordering *)

Section Reordering.

Variable clock : nat -> string.

Lemma reordered_nil S index start t : reordered clock S index start [] t = t.
Proof. unfold reordered. simpl. now destruct (String.eqb S (t_study_id t)). Qed.

Lemma task_eta t :
  mkTask (t_id t) (t_study_id t) (t_type t) (t_title t) (t_instructions t)
    (t_order_index t) (t_created_at t) (t_updated_at t) = t.
Proof. now destruct t. Qed.

(** One iteration followed by the rest of the loop. *)
Lemma reordered_cons S index start id rest t :
  reordered clock S index start (id :: rest) t =
  reordered clock S (index + 1) (Datatypes.S start) rest
    (if task_matches (mkTaskQuery (Some id) (Some S) None) t
     then apply_task_patch (mkTaskPatch (Some index) (Some (clock start))) t
     else t).
Proof.
  unfold reordered, task_matches, field_matches. simpl.
  rewrite andb_true_r.
  destruct (String.eqb S (t_study_id t)) eqn:HS.
  - rewrite andb_true_r. destruct (String.eqb_spec id (t_id t)) as [->|Hne].
    + simpl. rewrite HS.
      destruct (last_index (t_id t) rest) as [k|].
      * f_equal; [lia | f_equal; lia].
      * unfold apply_task_patch. simpl. f_equal; [lia | f_equal; lia].
    + rewrite HS. destruct (last_index (t_id t) rest) as [k|].
      * f_equal; [lia | f_equal; lia].
      * reflexivity.
  - rewrite andb_false_r. now rewrite HS.
Qed.

Lemma reorder_loop_run S ids : forall index w,
  reorder_loop clock S index ids w =
  (inr tt,
   mkWorld (studies w) (map (reordered clock S index (ticks w) ids) (tasks w))
     (participants w) (responses w) (ticks w + length ids)%nat).
Proof.
  induction ids as [|id rest IH]; intros index w.
  - simpl. unfold ret. f_equal. destruct w as [st ts ps rs n]. simpl.
    f_equal.
    + rewrite <- (map_id ts) at 1. apply map_ext. intros t.
      now rewrite reordered_nil.
    + lia.
  - simpl. unfold bind, datetime_now, db_update_tasks. simpl.
    rewrite IH. simpl. f_equal. f_equal.
    + rewrite map_map. apply map_ext. intros t.
      now rewrite reordered_cons.
    + lia.
Qed.

Lemma reorder_tasks_run S ids w :
  S <> "" -> ids <> [] ->
  reorder_tasks clock S ids w =
  (inr "Tasks reordered successfully",
   mkWorld (studies w) (map (reordered clock S 1 (ticks w) ids) (tasks w))
     (participants w) (responses w) (ticks w + length ids)%nat).
Proof.
  intros HS Hids. unfold reorder_tasks.
  apply str_truthy_true in HS. rewrite HS, require_true.
  destruct ids as [|id rest]; [congruence|]. rewrite require_true.
  unfold bind at 1. now rewrite reorder_loop_run.
Qed.

Lemma reorder_tasks_raise S ids w :
  S = "" \/ ids = [] ->
  exists e, reorder_tasks clock S ids w = (inl e, w)
            /\ (e = Exception "Study ID is required"
                \/ e = Exception "Task IDs list is required").
Proof.
  intros H. unfold reorder_tasks.
  destruct (str_truthy S) eqn:HS.
  - rewrite require_true. destruct H as [-> | ->]; [discriminate|].
    rewrite require_false. eexists. split; [reflexivity | now right].
  - rewrite require_false. eexists. split; [reflexivity | now left].
Qed.

Lemma reordered_id S index start ids t :
  t_id (reordered clock S index start ids t) = t_id t.
Proof.
  unfold reordered. destruct (String.eqb S (t_study_id t)); [|reflexivity].
  now destruct (last_index (t_id t) ids).
Qed.

Lemma reordered_study S index start ids t :
  t_study_id (reordered clock S index start ids t) = t_study_id t.
Proof.
  unfold reordered. destruct (String.eqb S (t_study_id t)); [|reflexivity].
  now destruct (last_index (t_id t) ids).
Qed.

Lemma reordered_other_study S index start ids t :
  t_study_id t <> S -> reordered clock S index start ids t = t.
Proof.
  intros H. unfold reordered.
  destruct (String.eqb_spec S (t_study_id t)); congruence.
Qed.

End Reordering.

(** ** Creating tasks *)

Section Creating.

Variable clock : nat -> string.

(** [create_task] either raises and stores nothing, or appends one row
    with a fresh id. *)
Lemma create_task_cases task uuid w :
  (exists e w', create_task clock task uuid w = (inl e, w')
                /\ studies w' = studies w /\ tasks w' = tasks w
                /\ participants w' = participants w
                /\ responses w' = responses w)
  \/ (exists d, task = Some d
        /\ truthy (d_study_id d) = true
        /\ ~ In (t_id (created_task clock d uuid w)) (map t_id (tasks w))
        /\ create_task clock task uuid w =
           (inr (t_id (created_task clock d uuid w)),
            mkWorld (studies w) (tasks w ++ [created_task clock d uuid w])%list
              (participants w) (responses w) (S (ticks w)))).
Proof.
  destruct task as [d|]; [|left; do 2 eexists; simpl; unfold raise; eauto].
  unfold create_task.
  destruct (task_data_nonempty d);
    [rewrite require_true | left; rewrite require_false; eauto 8].
  destruct (truthy (d_study_id d)) eqn:Hstudy;
    [rewrite require_true | left; rewrite require_false; eauto 8].
  destruct (truthy (d_type d));
    [rewrite require_true | left; rewrite require_false; eauto 8].
  destruct (truthy (d_title d));
    [rewrite require_true | left; rewrite require_false; eauto 8].
  destruct (str_in (or_default (d_type d) "") valid_types);
    [rewrite require_true | left; rewrite require_false; eauto 8].
  unfold bind, datetime_now, db_read_tasks, db_create_task, ret.
  destruct (d_order_index d) as [i|] eqn:Hidx; simpl.
  - destruct (str_in (or_default (d_id d) uuid) (map t_id (tasks w))) eqn:Hin.
    + left. do 2 eexists. split; [reflexivity|]. simpl. auto.
    + right. exists d. unfold created_task. rewrite Hidx. simpl.
      apply str_in_false in Hin. auto.
  - destruct (str_in (or_default (d_id d) uuid) (map t_id (tasks w))) eqn:Hin.
    + left. do 2 eexists. split; [reflexivity|]. simpl. auto.
    + right. exists d. unfold created_task. rewrite Hidx. simpl.
      apply str_in_false in Hin. auto.
Qed.

Lemma max_with_zero_ge l x : In x l -> x <= max_with_zero l.
Proof.
  induction l as [|y l IH]; simpl; [tauto|].
  intros [->|H]; [lia|]. specialize (IH H). lia.
Qed.

Lemma max_with_zero_nonneg l : 0 <= max_with_zero l.
Proof. induction l as [|y l IH]; simpl; lia. Qed.

Lemma max_with_zero_cases l :
  max_with_zero l = 0 \/ In (max_with_zero l) l.
Proof.
  induction l as [|y l IH]; simpl; [now left|].
  destruct (Z.max_spec y (max_with_zero l)) as [[_ ->]|[_ ->]].
  - destruct IH as [IH|IH]; [now left | right; now right].
  - right. now left.
Qed.

End Creating.

(** ** Sorting *)

Lemma insert_by_order_index_perm t l :
  Permutation (insert_by_order_index t l) (t :: l).
Proof.
  induction l as [|h r IH]; simpl.
  - apply Permutation_refl.
  - destruct (t_order_index t <=? t_order_index h).
    + apply Permutation_refl.
    + eapply Permutation_trans; [apply perm_skip, IH | apply perm_swap].
Qed.

Lemma sort_by_order_index_perm l : Permutation (sort_by_order_index l) l.
Proof.
  induction l as [|t l IH]; simpl.
  - apply perm_nil.
  - eapply Permutation_trans; [apply insert_by_order_index_perm|].
    now apply perm_skip.
Qed.

Lemma insert_by_order_index_sorted t l :
  StronglySorted by_order_index l ->
  StronglySorted by_order_index (insert_by_order_index t l).
Proof.
  induction 1 as [|h r Hr IH Hh]; simpl.
  - constructor; constructor.
  - destruct (Z.leb_spec (t_order_index t) (t_order_index h)) as [Hle|Hgt].
    + constructor; [now constructor|]. constructor; [assumption|].
      eapply Forall_impl; [|exact Hh]. unfold by_order_index. intros; lia.
    + constructor; [assumption|].
      eapply Permutation_Forall;
        [apply Permutation_sym, insert_by_order_index_perm|].
      constructor; [unfold by_order_index; lia | assumption].
Qed.

Lemma sort_by_order_index_sorted l :
  StronglySorted by_order_index (sort_by_order_index l).
Proof.
  induction l as [|t l IH]; simpl.
  - constructor.
  - now apply insert_by_order_index_sorted.
Qed.

Lemma sorted_indices l :
  StronglySorted by_order_index l ->
  StronglySorted Z.le (map t_order_index l).
Proof.
  induction 1 as [|h r Hr IH Hh]; simpl; constructor; [assumption|].
  apply Forall_map. exact Hh.
Qed.

Lemma sorted_nodup_strict (l : list Z) :
  StronglySorted Z.le l -> NoDup l -> StronglySorted Z.lt l.
Proof.
  induction 1 as [|h r Hr IH Hh]; intros Hnd; constructor.
  - apply IH. now inversion Hnd.
  - inversion Hnd as [|? ? Hnotin _]; subst.
    rewrite Forall_forall in *. intros x Hx.
    specialize (Hh x Hx). assert (x <> h) by (intros ->; contradiction). lia.
Qed.

(** ** Lists of rows *)

Lemma task_matches_study S t :
  task_matches (study_query S) t = String.eqb S (t_study_id t).
Proof.
  unfold task_matches, study_query, field_matches. simpl.
  now rewrite andb_true_r.
Qed.

Lemma filter_map_commute {A : Type} (p : A -> bool) (h : A -> A) l :
  (forall x, p (h x) = p x) -> filter p (map h l) = map h (filter p l).
Proof.
  intros H. induction l as [|x l IH]; simpl; [reflexivity|].
  rewrite H. destruct (p x); simpl; now rewrite IH.
Qed.

Lemma NoDup_map_filter {A B : Type} (f : A -> B) (p : A -> bool) l :
  NoDup (map f l) -> NoDup (map f (filter p l)).
Proof.
  induction l as [|x l IH]; simpl; intros H; [constructor|].
  inversion H as [|? ? Hnotin Hnd]; subst.
  destruct (p x); simpl; [|now apply IH].
  constructor; [|now apply IH].
  intros Hin. apply Hnotin. apply in_map_iff in Hin as [y [Hy Hin]].
  apply filter_In in Hin as [Hin _]. apply in_map_iff. now exists y.
Qed.

Lemma NoDup_map_transfer {A B C : Type} (f : A -> B) (g : A -> C) l :
  (forall a b, In a l -> In b l -> g a = g b -> f a = f b) ->
  NoDup (map f l) -> NoDup (map g l).
Proof.
  induction l as [|x l IH]; simpl; intros Hinj H; [constructor|].
  inversion H as [|? ? Hnotin Hnd]; subst. constructor.
  - intros Hin. apply in_map_iff in Hin as [y [Hy Hin]].
    apply Hnotin. apply in_map_iff. exists y. split; [|assumption].
    symmetry. apply Hinj; auto.
  - apply IH; [|assumption]. intros a b Ha Hb. apply Hinj; auto.
Qed.

(** ** The order of a study's tasks *)

Section Ordering.

Variable clock : nat -> string.
Variable study : string.

Lemma list_tasks_sorted w :
  list_tasks study w = sort_by_order_index (tasks_of study w).
Proof. reflexivity. Qed.

Lemma NoDup_snoc {A : Type} (l : list A) (x : A) :
  NoDup l -> ~ In x l -> NoDup (l ++ [x]).
Proof.
  intros Hl Hx. apply Permutation_NoDup with (l := x :: l).
  - apply Permutation_cons_append.
  - now constructor.
Qed.

Lemma add_task_distinct task uuid w :
  distinct_order study w ->
  op_complete study w (AddTask task uuid) = true ->
  distinct_order study (apply_op clock (AddTask task uuid) w).
Proof.
  intros [Hids Hord] Hok. unfold apply_op, exec, distinct_order, tasks_of.
  destruct (create_task_cases clock task uuid w)
    as [[e [w' [Hrun [_ [Htasks _]]]]] | [d [-> [Hstudy [Hfresh Hrun]]]]];
    rewrite Hrun; simpl.
  - rewrite Htasks. now split.
  - split.
    + rewrite map_app. simpl. now apply NoDup_snoc.
    + rewrite filter_app, map_app. simpl. rewrite task_matches_study. simpl.
      destruct (String.eqb_spec study (or_default (d_study_id d) ""))
        as [Heq|Hne]; simpl; [|now rewrite app_nil_r].
      apply NoDup_snoc; [assumption|].
      simpl in Hok. rewrite <- Heq, String.eqb_refl in Hok. simpl in Hok.
      destruct (d_order_index d) as [i|]; [discriminate|].
      rewrite <- Heq. intros Hin.
      apply max_with_zero_ge in Hin. unfold tasks_of in Hin. lia.
Qed.

Lemma reorder_tasks_distinct study_id task_ids w :
  distinct_order study w ->
  op_complete study w (ReorderTasks study_id task_ids) = true ->
  distinct_order study (apply_op clock (ReorderTasks study_id task_ids) w).
Proof.
  intros [Hids Hord] Hok. unfold apply_op, exec.
  destruct (string_dec study_id "") as [HS|HS];
    [destruct (reorder_tasks_raise clock study_id task_ids w (or_introl HS))
       as [e [-> _]]; now split|].
  destruct task_ids as [|id rest];
    [destruct (reorder_tasks_raise clock study_id [] w (or_intror eq_refl))
       as [e [-> _]]; now split|].
  rewrite reorder_tasks_run by (assumption || discriminate).
  unfold distinct_order, tasks_of. simpl. split.
  - rewrite map_map.
    erewrite map_ext; [exact Hids|]. intros t. apply reordered_id.
  - rewrite filter_map_commute
      by (intros t; now rewrite !task_matches_study, reordered_study).
    rewrite map_map. fold (tasks_of study w).
    destruct (String.eqb_spec study_id study) as [->|Hne].
    + unfold op_complete in Hok. rewrite String.eqb_refl in Hok.
      cbn [negb orb] in Hok. rewrite forallb_forall in Hok.
      apply NoDup_map_transfer with (f := t_id);
        [|now apply NoDup_map_filter].
      intros a b Ha Hb Heq.
      assert (Hsa : t_study_id a = study).
      { apply filter_In in Ha as [_ Ha]. rewrite task_matches_study in Ha.
        now apply String.eqb_eq in Ha. }
      assert (Hsb : t_study_id b = study).
      { apply filter_In in Hb as [_ Hb]. rewrite task_matches_study in Hb.
        now apply String.eqb_eq in Hb. }
      pose proof (Hok a Ha) as Hina. pose proof (Hok b Hb) as Hinb.
      apply str_in_In in Hina, Hinb.
      unfold reordered in Heq.
      rewrite Hsa, Hsb, String.eqb_refl in Heq.
      destruct (last_index (t_id a) (id :: rest)) as [ka|] eqn:Hka;
        [|now apply last_index_None in Hka].
      destruct (last_index (t_id b) (id :: rest)) as [kb|] eqn:Hkb;
        [|now apply last_index_None in Hkb].
      cbn [t_order_index] in Heq. assert (ka = kb) by lia. subst kb.
      eapply last_index_inj; eassumption.
    + erewrite map_ext_in; [exact Hord|]. intros t Ht.
      apply filter_In in Ht as [_ Ht]. rewrite task_matches_study in Ht.
      apply String.eqb_eq in Ht.
      rewrite reordered_other_study; [reflexivity | congruence].
Qed.

Lemma run_ops_distinct ops : forall w,
  distinct_order study w ->
  ops_complete clock study w ops = true ->
  distinct_order study (run_ops clock ops w).
Proof.
  induction ops as [|op ops IH]; intros w Hinv Hok; simpl in *.
  - assumption.
  - apply andb_true_iff in Hok as [Hop Hrest].
    apply IH; [|assumption].
    destruct op; [now apply add_task_distinct
                 | now apply reorder_tasks_distinct].
Qed.

End Ordering.

(** ** The task sequencer *)

(** [read_tasks] always returns the tasks of the study in non-decreasing
    order of [order_index]. *)
Lemma list_tasks_nondecreasing study w :
  Permutation (list_tasks study w) (tasks_of study w)
  /\ StronglySorted Z.le (map t_order_index (list_tasks study w)).
Proof.
  rewrite list_tasks_sorted. split.
  - apply sort_by_order_index_perm.
  - apply sorted_indices, sort_by_order_index_sorted.
Qed.

(** C1, as amended.  Start from a table with unique ids in which study
    [study] has no task, and run any sequence of [create_task] and
    [reorder_tasks] calls in which every task added to [study] leaves
    [order_index] to the component and every reorder of [study] names all
    the tasks the study has at that moment.  Then [read_tasks] for [study]
    returns exactly the study's tasks, with strictly increasing
    [order_index] values and no value shared by two tasks. *)
Theorem list_tasks_strictly_increasing clock study ops w0 :
  NoDup (map t_id (tasks w0)) ->
  tasks_of study w0 = [] ->
  ops_complete clock study w0 ops = true ->
  let listed := list_tasks study (run_ops clock ops w0) in
  Permutation listed (tasks_of study (run_ops clock ops w0))
  /\ StronglySorted Z.lt (map t_order_index listed)
  /\ NoDup (map t_order_index listed).
Proof.
  intros Hids Hempty Hok listed.
  assert (Hinv : distinct_order study (run_ops clock ops w0)).
  { apply run_ops_distinct; [|assumption]. split; [assumption|].
    rewrite Hempty. constructor. }
  destruct Hinv as [_ Hord].
  destruct (list_tasks_nondecreasing study (run_ops clock ops w0))
    as [Hperm Hsorted].
  assert (Hnd : NoDup (map t_order_index listed)).
  { eapply Permutation_NoDup; [|exact Hord].
    apply Permutation_map, Permutation_sym, Hperm. }
  repeat split; try assumption.
  now apply sorted_nodup_strict.
Qed.

Lemma list_tasks_strictly_increasing_witness :
  let ops := [AddTask (sample_task "A" "S1" None) "u1";
              AddTask (sample_task "B" "S1" None) "u2";
              AddTask (sample_task "X" "S2" (Some 7)) "u3";
              ReorderTasks "S1" ["B"; "X"; "A"];
              AddTask (sample_task "C" "S1" None) "u4"] in
  ops_complete sample_clock "S1" empty_world ops = true
  /\ map (fun t => (t_id t, t_order_index t))
       (list_tasks "S1" (run_ops sample_clock ops empty_world))
     = [("B", 1); ("A", 3); ("C", 4)]
  /\ StronglySorted Z.lt
       (map t_order_index
          (list_tasks "S1" (run_ops sample_clock ops empty_world))).
Proof.
  intros ops. split; [reflexivity|]. split; [reflexivity|].
  apply (list_tasks_strictly_increasing sample_clock "S1" ops empty_world).
  - simpl. constructor.
  - reflexivity.
  - reflexivity.
Defined.

(** C1 fails as stated: a reorder that names only part of the study's
    tasks, and tasks created with an explicit [order_index], both leave
    two tasks of the study with the same [order_index]. *)
Lemma list_tasks_ties :
  map (fun t => (t_id t, t_order_index t))
    (list_tasks "S1"
       (run_ops sample_clock
          [AddTask (sample_task "A" "S1" None) "u1";
           AddTask (sample_task "B" "S1" None) "u2";
           AddTask (sample_task "C" "S1" None) "u3";
           ReorderTasks "S1" ["C"]] empty_world))
  = [("A", 1); ("C", 1); ("B", 2)]
  /\ map (fun t => (t_id t, t_order_index t))
       (list_tasks "S1"
          (run_ops sample_clock
             [AddTask (sample_task "A" "S1" (Some 0)) "u1";
              AddTask (sample_task "B" "S1" (Some 0)) "u2"] empty_world))
     = [("A", 0); ("B", 0)]
  /\ ~ StronglySorted Z.lt [1; 1; 2]
  /\ ~ StronglySorted Z.lt [0; 0].
Proof.
  split; [reflexivity|]. split; [reflexivity|]. split.
  - intros H. inversion H as [|? ? _ Hall]; subst.
    inversion Hall as [|? ? Hlt _]; subst. lia.
  - intros H. inversion H as [|? ? _ Hall]; subst.
    inversion Hall as [|? ? Hlt _]; subst. lia.
Qed.

(** C2, as amended.  [reorder_tasks] checks nothing about the set of ids:
    it raises only for an empty study id or an empty list, with a plain
    [Exception], and then the database and the clock are as before the
    call; every other call, whatever ids it lists, succeeds. *)
Theorem reorder_tasks_rejects_only_empty clock study_id task_ids w :
  match reorder_tasks clock study_id task_ids w with
  | (inl e, w') =>
    (study_id = "" \/ task_ids = []) /\ w' = w
    /\ (e = Exception "Study ID is required"
        \/ e = Exception "Task IDs list is required")
  | (inr message, _) =>
    study_id <> "" /\ task_ids <> []
    /\ message = "Tasks reordered successfully"
  end.
Proof.
  destruct (string_dec study_id "") as [HS|HS].
  - destruct (reorder_tasks_raise clock study_id task_ids w (or_introl HS))
      as [e [-> He]]. auto.
  - destruct task_ids as [|id rest].
    + destruct (reorder_tasks_raise clock study_id [] w (or_intror eq_refl))
        as [e [-> He]]. auto.
    + rewrite reorder_tasks_run by (assumption || discriminate).
      repeat split; [assumption | discriminate].
Qed.

(** C2 fails as stated: study S1 has tasks A and B, the list names B
    only, and the call succeeds and moves B from position 2 to 1. *)
Lemma reorder_tasks_accepts_partial_list :
  let w := run_ops sample_clock
             [AddTask (sample_task "A" "S1" None) "u1";
              AddTask (sample_task "B" "S1" None) "u2"] empty_world in
  same_id_set "S1" ["B"] w = false
  /\ result (reorder_tasks sample_clock "S1" ["B"]) w
     = inr "Tasks reordered successfully"
  /\ map (fun t => (t_id t, t_order_index t)) (tasks_of "S1" w)
     = [("A", 1); ("B", 2)]
  /\ map (fun t => (t_id t, t_order_index t))
       (tasks_of "S1" (exec (reorder_tasks sample_clock "S1" ["B"]) w))
     = [("A", 1); ("B", 1)].
Proof. repeat split. Qed.

(** C9.  [create_task] departs from the claim, and from its own comment
    "Get max order_index for this study and add 1", when every task of the
    study has a negative [order_index]: the 0 appended to guard the empty
    list takes part in the maximum.  Study S1 is stored and its only task
    was created with [order_index] -5; the task created next without
    [order_index] gets 1, where the maximum plus 1 is -4. *)
Lemma create_task_after_negative_index :
  let w0 := set_tasks (fun _ => []) sample_world in
  let w :=
    exec (create_task sample_clock (sample_task "A" "S1" (Some (-5))) "u1")
      w0 in
  let next := create_task sample_clock (sample_task "B" "S1" None) "u2" in
  map s_id (studies w0) = ["S1"]
  /\ map (fun t => (t_id t, t_order_index t)) (tasks_of "S1" w) = [("A", -5)]
  /\ result next w = inr "B"
  /\ map (fun t => (t_id t, t_order_index t)) (tasks_of "S1" (exec next w))
     = [("A", -5); ("B", 1)]
  /\ 1 <> -5 + 1.
Proof. repeat split. discriminate. Qed.

(** C10.  For a study id (a non-empty string) and a non-empty list of task
    ids, [reorder_tasks] returns its success message.  A stored task of
    that study whose id is in the list gets as [order_index] the position,
    counted from 1, of the last occurrence of its id in the list, and the
    time of that update as [updated_at]; its other fields, and every field
    of every other task (tasks of the study that the list omits, tasks of
    other studies that the list names), are unchanged, and so are the
    other tables. *)
Theorem reorder_tasks_frame clock study_id task_ids w :
  study_id <> "" ->
  task_ids <> [] ->
  let w' := exec (reorder_tasks clock study_id task_ids) w in
  result (reorder_tasks clock study_id task_ids) w
  = inr "Tasks reordered successfully"
  /\ studies w' = studies w
  /\ participants w' = participants w
  /\ responses w' = responses w
  /\ Forall2
       (fun t t' =>
          if String.eqb (t_study_id t) study_id && str_in (t_id t) task_ids
          then exists k,
                 nth_error task_ids k = Some (t_id t)
                 /\ (forall j, (k < j)%nat ->
                     nth_error task_ids j <> Some (t_id t))
                 /\ t' = mkTask (t_id t) (t_study_id t) (t_type t)
                           (t_title t) (t_instructions t)
                           (Z.of_nat k + 1) (t_created_at t)
                           (clock (ticks w + k)%nat)
          else t' = t)
       (tasks w) (tasks w').
Proof.
  intros HS Hids w'. unfold w', result, exec.
  rewrite reorder_tasks_run by assumption. simpl.
  repeat split.
  induction (tasks w) as [|t ts IH]; simpl; constructor; [|exact IH].
  unfold reordered. rewrite (String.eqb_sym (t_study_id t) study_id).
  destruct (String.eqb study_id (t_study_id t)); cbn [andb]; [|reflexivity].
  destruct (last_index (t_id t) task_ids) as [k|] eqn:Hk.
  - assert (Hin : str_in (t_id t) task_ids = true).
    { apply str_in_In. apply last_index_Some in Hk as [Hk _].
      eapply nth_error_In; eassumption. }
    rewrite Hin. exists k.
    destruct (last_index_Some _ _ _ Hk) as [Hnth Hlast].
    repeat split; try assumption. f_equal. lia.
  - apply last_index_None in Hk. apply str_in_false in Hk.
    now rewrite Hk.
Qed.

Lemma reorder_tasks_frame_witness :
  let w := run_ops sample_clock
             [AddTask (sample_task "A" "S1" None) "u1";
              AddTask (sample_task "B" "S1" None) "u2";
              AddTask (sample_task "C" "S1" None) "u3";
              AddTask (sample_task "X" "S2" None) "u4"] empty_world in
  "S1" <> "" /\ ["B"; "X"; "A"] <> []
  /\ map (fun t => (t_id t, t_study_id t, t_order_index t))
       (tasks (exec (reorder_tasks sample_clock "S1" ["B"; "X"; "A"]) w))
     = [("A", "S1", 3); ("B", "S1", 1); ("C", "S1", 3); ("X", "S2", 1)]
  /\ result (reorder_tasks sample_clock "S1" ["B"; "X"; "A"]) w
     = inr "Tasks reordered successfully".
Proof.
  intros w. split; [discriminate|]. split; [discriminate|].
  split; [reflexivity|].
  apply (reorder_tasks_frame sample_clock "S1" ["B"; "X"; "A"] w);
    discriminate.
Defined.

(** ** The participant lifecycle *)

Section Lifecycle.

Variable clock : nat -> string.

Lemma stamp_status_run data w :
  stamp_status clock data (tick w) =
  (inr (stamped_data clock data w),
   mkWorld (studies w) (tasks w) (participants w) (responses w)
     (S (ticks w) + if is_some (pd_status data) then 1 else 0)%nat).
Proof.
  unfold stamped_data, result, stamp_status.
  destruct (pd_status data) as [status|]; simpl.
  - unfold bind, datetime_now, tick. simpl.
    destruct (String.eqb status "started" && negb (is_some (pd_started_at data)));
      [unfold ret; repeat f_equal; lia|].
    destruct (String.eqb status "completed"
              && negb (is_some (pd_completed_at data)));
      unfold ret; repeat f_equal; lia.
  - unfold ret, tick. simpl. repeat f_equal. lia.
Qed.

Lemma update_participant_run participant_id data w :
  participant_id <> "" ->
  participant_data_nonempty data = true ->
  update_participant clock participant_id (Some data) w =
  (inr (option_map
          (fun p => p_id (apply_participant_patch (stamped_data clock data w)
                            (clock (ticks w)) p))
          (find (participant_has_id participant_id) (participants w))),
   mkWorld (studies w) (tasks w)
     (map (fun p => if participant_has_id participant_id p
                    then apply_participant_patch (stamped_data clock data w)
                           (clock (ticks w)) p
                    else p) (participants w))
     (responses w)
     (S (ticks w) + if is_some (pd_status data) then 1 else 0)%nat).
Proof.
  intros Hid Hdata. unfold update_participant.
  apply str_truthy_true in Hid. rewrite Hid, require_true.
  rewrite Hdata, require_true.
  unfold bind at 1. unfold datetime_now at 1.
  unfold bind. rewrite stamp_status_run.
  unfold db_update_participants, set_participants. reflexivity.
Qed.

Lemma update_participant_raise participant_id data w :
  participant_id = "" \/ data = None
  \/ (exists d, data = Some d /\ participant_data_nonempty d = false) ->
  exists e, update_participant clock participant_id data w = (inl e, w)
            /\ (e = Exception "Participant ID is required"
                \/ e = Exception "Update data is required").
Proof.
  intros H. unfold update_participant.
  destruct (str_truthy participant_id) eqn:Hid;
    [rewrite require_true | rewrite require_false; eauto].
  destruct data as [d|]; [|unfold raise; eauto].
  destruct (participant_data_nonempty d) eqn:Hd;
    [|rewrite require_false; eauto].
  destruct H as [-> | [H | [d' [Heq Hd']]]]; try discriminate.
  injection Heq as <-. congruence.
Qed.

Lemma create_participant_cases participant uuid w :
  (exists e w', create_participant clock participant uuid w = (inl e, w')
                /\ participants w' = participants w)
  \/ (exists d, participant = Some d
        /\ create_participant clock participant uuid w =
           (inr (or_default (pd_id d) uuid),
            mkWorld (studies w) (tasks w)
              (participants w ++
               [mkParticipant (or_default (pd_id d) uuid)
                  (or_default (pd_study_id d) "")
                  (or_default (pd_contact d) "")
                  (pd_demographics d)
                  (or_default (pd_status d) "invited")
                  (or_default (pd_invited_at d) (Some (clock (ticks w))))
                  (or_default (pd_started_at d) None)
                  (or_default (pd_completed_at d) None)
                  (clock (ticks w)) (clock (ticks w))])%list
              (responses w) (S (ticks w)))).
Proof.
  destruct participant as [d|];
    [|left; do 2 eexists; simpl; unfold raise; eauto].
  unfold create_participant.
  destruct (participant_data_nonempty d);
    [rewrite require_true | left; rewrite require_false; eauto].
  destruct (truthy (pd_study_id d));
    [rewrite require_true | left; rewrite require_false; eauto].
  destruct (truthy (pd_contact d));
    [rewrite require_true | left; rewrite require_false; eauto].
  unfold bind, datetime_now, db_create_participant. simpl.
  destruct (str_in (or_default (pd_id d) uuid) (map p_id (participants w))).
  - left. do 2 eexists. split; [reflexivity|]. reflexivity.
  - right. exists d. split; reflexivity.
Qed.

(** The keys of the dictionary after the status branch. *)
Lemma stamped_status data w :
  pd_status (stamped_data clock data w) = pd_status data.
Proof.
  unfold stamped_data, result, stamp_status.
  destruct (pd_status data) as [status|] eqn:Hs; simpl; [|assumption].
  unfold bind, datetime_now. simpl.
  destruct (String.eqb status "started" && negb (is_some (pd_started_at data)));
    [simpl; assumption|].
  destruct (String.eqb status "completed"
            && negb (is_some (pd_completed_at data))); simpl; assumption.
Qed.

Lemma stamped_invited_at data w :
  pd_invited_at (stamped_data clock data w) = pd_invited_at data.
Proof.
  unfold stamped_data, result, stamp_status.
  destruct (pd_status data) as [status|] eqn:Hs; simpl; [|reflexivity].
  unfold bind, datetime_now. simpl.
  destruct (String.eqb status "started" && negb (is_some (pd_started_at data)));
    [reflexivity|].
  destruct (String.eqb status "completed"
            && negb (is_some (pd_completed_at data))); reflexivity.
Qed.

Lemma stamped_started_at data w :
  pd_started_at (stamped_data clock data w) =
  match pd_started_at data with
  | Some v => Some v
  | None =>
    if status_is data "started" then Some (Some (clock (S (ticks w))))
    else None
  end.
Proof.
  unfold stamped_data, result, stamp_status, status_is.
  destruct (pd_status data) as [status|] eqn:Hs; simpl;
    [|now destruct (pd_started_at data)].
  unfold bind, datetime_now. simpl.
  destruct (String.eqb status "started") eqn:Hst; simpl.
  - destruct (pd_started_at data) as [v|] eqn:Hv; simpl.
    + destruct (String.eqb status "completed"
                && negb (is_some (pd_completed_at data))); simpl;
        assumption.
    + reflexivity.
  - destruct (String.eqb status "completed"
              && negb (is_some (pd_completed_at data))); simpl;
      now destruct (pd_started_at data).
Qed.

Lemma stamped_completed_at data w :
  pd_completed_at (stamped_data clock data w) =
  match pd_completed_at data with
  | Some v => Some v
  | None =>
    if status_is data "completed" then Some (Some (clock (S (ticks w))))
    else None
  end.
Proof.
  unfold stamped_data, result, stamp_status, status_is.
  destruct (pd_status data) as [status|] eqn:Hs; simpl;
    [|now destruct (pd_completed_at data)].
  unfold bind, datetime_now. simpl.
  destruct (String.eqb_spec status "started") as [->|Hst]; simpl.
  - destruct (pd_started_at data) as [v|] eqn:Hv; simpl;
      now destruct (pd_completed_at data).
  - destruct (String.eqb status "completed") eqn:Hc; simpl;
      [|now destruct (pd_completed_at data)].
    destruct (pd_completed_at data) as [v|] eqn:Hv; simpl;
      [assumption | reflexivity].
Qed.

End Lifecycle.

(** C4, as amended.  [update_participant] checks no transition: it raises
    only for an empty participant id or an empty update dictionary, with a
    plain [Exception], and then nothing has changed; every other call
    succeeds, and a row with that id ends with the requested status,
    whatever status it had; the other rows are unchanged. *)
Theorem update_participant_accepts_any_status clock participant_id data w :
  match update_participant clock participant_id data w with
  | (inl e, w') =>
    (participant_id = "" \/ data = None
     \/ exists d, data = Some d /\ participant_data_nonempty d = false)
    /\ w' = w
    /\ (e = Exception "Participant ID is required"
        \/ e = Exception "Update data is required")
  | (inr _, w') =>
    participant_id <> ""
    /\ exists d, data = Some d
       /\ Forall2
            (fun p p' =>
               if participant_has_id participant_id p
               then p_status p' = or_default (pd_status d) (p_status p)
               else p' = p)
            (participants w) (participants w')
  end.
Proof.
  destruct (string_dec participant_id "") as [Hid|Hid].
  { destruct (update_participant_raise clock participant_id data w
                (or_introl Hid)) as [e [-> He]]. auto. }
  destruct data as [d|].
  2:{ destruct (update_participant_raise clock participant_id None w
                  (or_intror (or_introl eq_refl))) as [e [-> He]]. auto. }
  destruct (participant_data_nonempty d) eqn:Hd.
  2:{ destruct (update_participant_raise clock participant_id (Some d) w)
        as [e [-> He]]; [right; right; eauto|]. repeat split; eauto. }
  rewrite update_participant_run by assumption.
  split; [assumption|]. exists d. split; [reflexivity|]. simpl.
  induction (participants w) as [|p ps IH]; simpl; constructor; [|exact IH].
  destruct (participant_has_id participant_id p); [|reflexivity].
  simpl. now rewrite stamped_status.
Qed.

(** C4 fails as stated: a participant invited, started and completed is
    updated to [started]; the call succeeds and the stored status goes back
    from [completed] to [started]. *)
Lemma update_participant_completed_to_started :
  let w1 := exec (create_participant sample_clock sample_participant "u1")
              empty_world in
  let w2 := exec (update_participant sample_clock "p1"
                    (status_update "started")) w1 in
  let w3 := exec (update_participant sample_clock "p1"
                    (status_update "completed")) w2 in
  map p_status (participants w3) = ["completed"]
  /\ result (update_participant sample_clock "p1" (status_update "started")) w3
     = inr (Some "p1")
  /\ map p_status
       (participants
          (exec (update_participant sample_clock "p1"
                   (status_update "started")) w3))
     = ["started"].
Proof. repeat split. Qed.

(** C5, as amended.  [create_participant] stores [invited_at] as the
    current time unless the caller supplies it, and the other two
    timestamps as supplied or empty.  A successful [update_participant]
    writes [started_at] (or [completed_at]) in a row with the given id as
    follows: the value the update dictionary supplies, if it names the
    field (also an empty one); otherwise the current time, if the
    dictionary sets the status to [started] (or [completed]), whether or
    not the field was already set; otherwise the stored value.
    [invited_at] changes only when the dictionary names it.  Rows with
    another id are unchanged. *)
Theorem participant_timestamps clock participant uuid participant_id d w :
  match create_participant clock participant uuid w with
  | (inl _, w') => participants w' = participants w
  | (inr id, w') =>
    exists p c,
      participant = Some c
      /\ participants w' = (participants w ++ [p])%list
      /\ p_id p = id
      /\ p_invited_at p = or_default (pd_invited_at c) (Some (clock (ticks w)))
      /\ p_started_at p = or_default (pd_started_at c) None
      /\ p_completed_at p = or_default (pd_completed_at c) None
  end
  /\ match update_participant clock participant_id (Some d) w with
     | (inl _, w') => w' = w
     | (inr _, w') =>
       Forall2
         (fun p p' =>
            if participant_has_id participant_id p
            then p_invited_at p' = or_default (pd_invited_at d) (p_invited_at p)
                 /\ p_started_at p' =
                    match pd_started_at d with
                    | Some v => v
                    | None =>
                      if status_is d "started"
                      then Some (clock (S (ticks w)))
                      else p_started_at p
                    end
                 /\ p_completed_at p' =
                    match pd_completed_at d with
                    | Some v => v
                    | None =>
                      if status_is d "completed"
                      then Some (clock (S (ticks w)))
                      else p_completed_at p
                    end
            else p' = p)
         (participants w) (participants w')
     end.
Proof.
  split.
  - destruct (create_participant_cases clock participant uuid w)
      as [[e [w' [-> Hsame]]] | [c [-> ->]]]; [assumption|].
    do 2 eexists. repeat split.
  - destruct (string_dec participant_id "") as [Hid|Hid].
    { destruct (update_participant_raise clock participant_id (Some d) w
                  (or_introl Hid)) as [e [-> _]]. reflexivity. }
    destruct (participant_data_nonempty d) eqn:Hd.
    2:{ destruct (update_participant_raise clock participant_id (Some d) w)
          as [e [-> _]]; [right; right; eauto | reflexivity]. }
    rewrite update_participant_run by assumption. simpl.
    induction (participants w) as [|p ps IH]; simpl; constructor; [|exact IH].
    destruct (participant_has_id participant_id p); [|reflexivity].
    simpl. rewrite stamped_invited_at, stamped_started_at,
      stamped_completed_at.
    repeat split.
    + destruct (pd_started_at d); [reflexivity|].
      now destruct (status_is d "started").
    + destruct (pd_completed_at d); [reflexivity|].
      now destruct (status_is d "completed").
Qed.

(** C5 fails as stated: repeating the update to [started] replaces the
    [started_at] written by the first one, and an update that names
    [started_at] with an empty value clears it. *)
Lemma update_participant_restamps :
  let w1 := exec (create_participant sample_clock sample_participant "u1")
              empty_world in
  let w2 := exec (update_participant sample_clock "p1"
                    (status_update "started")) w1 in
  let w3 := exec (update_participant sample_clock "p1"
                    (status_update "started")) w2 in
  let w4 := exec (update_participant sample_clock "p1"
                    (Some (mkParticipantData None None None None None None
                             (Some None) None))) w3 in
  map p_started_at (participants w2) = [Some "2025-01-01 00:00:02"]
  /\ map p_started_at (participants w3) = [Some "2025-01-01 00:00:04"]
  /\ map p_started_at (participants w4) = [None].
Proof. repeat split. Qed.

(** ** The analysis pipeline *)

Section Analysis.

Variable json_dumps : json -> string.
Variable json_loads : string -> string + json.
Variable strip : string -> string.
Variable inference : list ApiCall -> ApiCall -> ApiFailure + string.

Lemma pure_bind {St A B : Type} (m : M St A) (k : A -> M St B) :
  pure m -> (forall a, pure (k a)) -> pure (bind m k).
Proof.
  intros [[e|a] Hm] Hk.
  - exists (inl e). intros s. unfold bind. now rewrite Hm.
  - destruct (Hk a) as [r Hr]. exists r. intros s. unfold bind.
    now rewrite Hm.
Qed.

Lemma pure_index xs i : pure (index xs i).
Proof.
  unfold index. destruct (nth_error xs i); eexists; intros ?; reflexivity.
Qed.

Lemma pure_loads content : pure (loads json_loads content).
Proof.
  unfold loads. destruct (json_loads content); eexists; intros ?; reflexivity.
Qed.

Lemma pure_unwrap_fence content : pure (unwrap_fence content).
Proof.
  unfold unwrap_fence.
  destruct (contains "```json" content);
    [apply pure_bind; [apply pure_index | intros; apply pure_index]|].
  destruct (contains "```" content);
    [apply pure_bind; [apply pure_index | intros; apply pure_index]|].
  eexists. intros ?. reflexivity.
Qed.

Lemma pure_decode_analysis content :
  pure (decode_analysis json_loads strip content).
Proof.
  apply pure_bind; [apply pure_unwrap_fence | intros; apply pure_loads].
Qed.

Lemma analyze_text_response_run self text context log :
  analyze_text_response json_loads strip inference self text context log =
  match anthropic_client self with
  | None => (inl (ValueError "Anthropic API key not configured"), log)
  | Some _ =>
    (match inference log (analysis_call text context) with
     | inl f =>
       inl (Exception ("Text analysis failed: " ++ failure_message f))
     | inr content =>
       match result (decode_analysis json_loads strip content) log with
       | inl e => inl (Exception ("Text analysis failed: " ++ str e))
       | inr j => inr j
       end
     end,
     (log ++ [analysis_call text context])%list)
  end.
Proof.
  unfold analyze_text_response.
  destruct (anthropic_client self) as [key|]; cbn [is_some];
    [rewrite require_true | now rewrite require_false].
  unfold try_except, create_message. fold (analysis_call text context).
  unfold bind at 1.
  destruct (inference log (analysis_call text context)) as [f|content];
    [reflexivity|].
  fold (decode_analysis json_loads strip content). unfold result.
  destruct (pure_decode_analysis content) as [r Hr]. rewrite !Hr. simpl.
  now destruct r.
Qed.

Lemma synthesize_study_insights_run self study_data log :
  synthesize_study_insights json_dumps json_loads inference self study_data log
  = match openai_client self with
    | None => (inl (ValueError "OpenAI API key not configured"), log)
    | Some _ =>
      (match inference log (synthesis_call json_dumps study_data) with
       | inl f =>
         inl (Exception ("Study synthesis failed: " ++ failure_message f))
       | inr content =>
         match json_loads content with
         | inl msg => inl (Exception ("Study synthesis failed: " ++ msg))
         | inr j => inr j
         end
       end,
       (log ++ [synthesis_call json_dumps study_data])%list)
    end.
Proof.
  unfold synthesize_study_insights.
  destruct (openai_client self) as [key|]; cbn [is_some];
    [rewrite require_true | now rewrite require_false].
  unfold try_except, create_message.
  fold (synthesis_call json_dumps study_data). unfold bind.
  destruct (inference log (synthesis_call json_dumps study_data))
    as [f|content]; [reflexivity|].
  unfold loads. now destruct (json_loads content).
Qed.

End Analysis.

(** C6, as amended.  The service keeps no cache: with an Anthropic client
    configured, every call of [analyze_text_response] sends one request to
    the collaborator, so two calls with the same text and context send the
    same request twice. *)
Theorem analyze_text_response_calls_every_time json_loads strip inference
  self text context log :
  anthropic_client self <> None ->
  let analyze :=
    analyze_text_response json_loads strip inference self text context in
  exec analyze log = (log ++ [analysis_call text context])%list
  /\ exec analyze (exec analyze log)
     = (log ++ [analysis_call text context; analysis_call text context])%list.
Proof.
  intros Hclient analyze. unfold analyze, exec.
  rewrite !analyze_text_response_run.
  destruct (anthropic_client self) as [key|]; [|congruence]. simpl.
  split; [reflexivity|]. now rewrite <- app_assoc.
Qed.

Lemma analyze_text_response_calls_every_time_witness :
  anthropic_client sample_service <> None
  /\ let analyze :=
       analyze_text_response sample_loads (fun s => s) sample_inference
         sample_service "I love this product!" None in
     exec analyze [] = [analysis_call "I love this product!" None]
     /\ exec analyze (exec analyze [])
        = [analysis_call "I love this product!" None;
           analysis_call "I love this product!" None].
Proof.
  split; [discriminate|].
  apply (analyze_text_response_calls_every_time sample_loads (fun s => s)
           sample_inference sample_service "I love this product!" None []).
  discriminate.
Defined.

(** C6 fails as stated: two calls with the same text both succeed and the
    collaborator has been called twice, not once. *)
Lemma analyze_text_response_twice_two_calls :
  let analyze :=
    analyze_text_response sample_loads (fun s => s) sample_inference
      sample_service "I love this product!" None in
  result analyze [] = inr (JObj [])
  /\ result analyze (exec analyze []) = inr (JObj [])
  /\ length (exec analyze (exec analyze [])) = 2%nat.
Proof. repeat split. Qed.

(** C7, as amended.  [synthesize_study_insights] looks at no response
    count.  With an OpenAI client configured it sends one request whatever
    the study data holds, and returns the decoded reply or raises [Study
    synthesis failed]; without a client it raises [ValueError] and sends
    nothing.  The route sends nothing when [study_data] is missing or
    falsy, and otherwise does what the service does. *)
Theorem synthesize_study_insights_calls_always json_dumps json_loads inference
  self study_data payload_data log :
  synthesize_study_insights json_dumps json_loads inference self study_data log
  = match openai_client self with
    | None => (inl (ValueError "OpenAI API key not configured"), log)
    | Some _ =>
      (match inference log (synthesis_call json_dumps study_data) with
       | inl f =>
         inl (Exception ("Study synthesis failed: " ++ failure_message f))
       | inr content =>
         match json_loads content with
         | inl msg => inl (Exception ("Study synthesis failed: " ++ msg))
         | inr j => inr j
         end
       end,
       (log ++ [synthesis_call json_dumps study_data])%list)
    end
  /\ synthesize_study json_dumps json_loads inference self payload_data log
     = if json_truthy (or_default payload_data JNull)
       then synthesize_study_insights json_dumps json_loads inference self
              (or_default payload_data JNull) log
       else (inl (Exception "Study data is required"), log).
Proof.
  split; [apply synthesize_study_insights_run|].
  unfold synthesize_study.
  destruct (json_truthy (or_default payload_data JNull));
    [now rewrite require_true | now rewrite require_false].
Qed.

(** C7 fails as stated: for a study without participants and responses
    the service calls the collaborator once and returns its decoded
    reply. *)
Lemma synthesize_empty_study_calls :
  let synthesize :=
    synthesize_study sample_dumps sample_loads sample_inference
      sample_service (Some empty_study_data) in
  result synthesize [] = inr (JObj [])
  /\ exec synthesize [] = [synthesis_call sample_dumps empty_study_data].
Proof. repeat split. Qed.


(** Three providers: after two timeouts the third request is answered and
    the analysis succeeds; a refused key surfaces after one request; a
    provider that is down surfaces after three. *)
Example retry_scenarios :
  let analyze provider :=
    analyze_text_response sample_loads (fun s => s)
      (client_inference 500 8000 provider) sample_service
      "I love this product!" None [] in
  let events provider :=
    snd (client_create 500 8000 provider []
           (analysis_call "I love this product!" None)) in
  fst (analyze flaky_provider) = inr (JObj [])
  /\ events flaky_provider
     = [Attempt 0; Sleep 500; Attempt 1; Sleep 1000; Attempt 2]
  /\ fst (analyze denying_provider)
     = inl (Exception "Text analysis failed: Incorrect API key provided.")
  /\ events denying_provider = [Attempt 0]
  /\ fst (analyze dead_provider)
     = inl (Exception "Text analysis failed: Internal server error")
  /\ events dead_provider
     = [Attempt 0; Sleep 500; Attempt 1; Sleep 1000; Attempt 2].
Proof. repeat split. Qed.

(** ** The response ingestor *)

Section IngestorProofs.
Variable clock : nat -> string.
















Lemma upsert_response_raise P T payload uuid now w e w1 :
  upsert_response P T payload uuid now w = (inl e, w1) -> w1 = w.
Proof.
  unfold upsert_response.
  destruct (find (for_pair P T) (responses w)); [discriminate|].
  destruct (str_in uuid (map r_id (responses w))); [|discriminate].
  intros H. now injection H as _ <-.
Qed.








End IngestorProofs.




(** The scenario of the specification, section 8: after the reorder the
    tasks are listed as T2, T1; the first submission moves p1 to [started],
    the second to [completed]. *)
Example specification_scenario :
  let w1 := exec (reorder_tasks sample_clock "S1" ["T2"; "T1"])
              scenario_world in
  let w2 := exec (submit sample_clock "p1" "T2" (Text "Nice") "r1") w1 in
  let w3 := exec (submit sample_clock "p1" "T1" (MediaUrls ["v.mp4"]) "r2")
              w2 in
  map (fun t => (t_id t, t_order_index t)) (list_tasks "S1" w1)
  = [("T2", 1); ("T1", 2)]
  /\ map p_status (participants w2) = ["started"]
  /\ map p_status (participants w3) = ["completed"]
  /\ map (fun p => (is_some (p_started_at p), is_some (p_completed_at p)))
       (participants w3) = [(true, true)].
Proof. repeat split. Qed.

(* ================================================================== *)
(** * Part III: further properties of the code *)
(* ================================================================== *)

(** ** Reading tasks *)

Lemma insert_by_order_index_filter k t l :
  filter (fun x => t_order_index x =? k) (insert_by_order_index t l)
  = filter (fun x => t_order_index x =? k) (t :: l).
Proof.
  induction l as [|h r IH]; [reflexivity|].
  cbn [insert_by_order_index].
  destruct (Z.leb_spec (t_order_index t) (t_order_index h)) as [Hle|Hgt];
    [reflexivity|].
  cbn [filter] in *.
  destruct (Z.eqb_spec (t_order_index h) k) as [Hh|Hh];
    destruct (Z.eqb_spec (t_order_index t) k) as [Ht|Ht];
    try lia; now rewrite IH.
Qed.

Lemma sort_by_order_index_filter k l :
  filter (fun x => t_order_index x =? k) (sort_by_order_index l)
  = filter (fun x => t_order_index x =? k) l.
Proof.
  induction l as [|t l IH]; [reflexivity|].
  cbn [sort_by_order_index fold_right].
  rewrite insert_by_order_index_filter. cbn [filter].
  fold (sort_by_order_index l). now rewrite IH.
Qed.

(** X1.  [read_tasks] changes nothing, and the list it returns holds
    exactly the stored tasks that match the query, each once, in
    non-decreasing order of [order_index]. *)
Theorem read_tasks_sorted query w l :
  result (read_tasks query) w = inr l ->
  exec (read_tasks query) w = w
  /\ Permutation l
       (filter (task_matches (or_default query (mkTaskQuery None None None)))
          (tasks w))
  /\ StronglySorted Z.le (map t_order_index l).
Proof.
  unfold result, exec, read_tasks, bind, db_read_tasks, ret. cbn [fst snd].
  intros Hl. injection Hl as <-. split; [reflexivity|]. split.
  - apply sort_by_order_index_perm.
  - apply sorted_indices, sort_by_order_index_sorted.
Qed.

Lemma read_tasks_sorted_witness :
  let w := run_ops sample_clock
             [AddTask (sample_task "A" "S1" (Some 4)) "u1";
              AddTask (sample_task "B" "S1" (Some 2)) "u2"]
             (set_tasks (fun _ => []) sample_world) in
  exists l,
    result (read_tasks (Some (study_query "S1"))) w = inr l
    /\ map (fun t => (t_id t, t_order_index t)) l = [("B", 2); ("A", 4)]
    /\ StronglySorted Z.le (map t_order_index l).
Proof.
  intros w. eexists. split; [reflexivity|]. split; [reflexivity|].
  apply (read_tasks_sorted (Some (study_query "S1")) w _ eq_refl).
Defined.

(** X2.  The sort of [read_tasks] is stable: in the list it returns,
    tasks that share an [order_index] stand in the order in which the
    database holds them. *)
Theorem read_tasks_stable query w l k :
  result (read_tasks query) w = inr l ->
  filter (fun t => t_order_index t =? k) l
  = filter (fun t => t_order_index t =? k)
      (filter (task_matches (or_default query (mkTaskQuery None None None)))
         (tasks w)).
Proof.
  unfold result, read_tasks, bind, db_read_tasks, ret. cbn [fst].
  intros Hl. injection Hl as <-. apply sort_by_order_index_filter.
Qed.

Lemma read_tasks_stable_witness :
  let w := run_ops sample_clock
             [AddTask (sample_task "A" "S1" (Some 2)) "u1";
              AddTask (sample_task "B" "S1" (Some 1)) "u2";
              AddTask (sample_task "C" "S1" (Some 2)) "u3"]
             (set_tasks (fun _ => []) sample_world) in
  exists l,
    result (read_tasks (Some (study_query "S1"))) w = inr l
    /\ map t_id l = ["B"; "A"; "C"]
    /\ map t_id (filter (fun t => t_order_index t =? 2) l) = ["A"; "C"].
Proof.
  intros w. eexists. split; [reflexivity|]. split; [reflexivity|].
  rewrite (read_tasks_stable (Some (study_query "S1")) w _ 2 eq_refl).
  reflexivity.
Defined.

(** ** Creating tasks *)

Lemma create_task_rejected clock task uuid w :
  match task with
  | None => True
  | Some d =>
    task_data_nonempty d && truthy (d_study_id d) && truthy (d_type d)
    && truthy (d_title d) && str_in (or_default (d_type d) "") valid_types
    && negb (str_in (or_default (d_id d) uuid) (map t_id (tasks w))) = false
  end ->
  exists e w', create_task clock task uuid w = (inl e, w')
               /\ studies w' = studies w /\ tasks w' = tasks w
               /\ participants w' = participants w
               /\ responses w' = responses w.
Proof.
  destruct (create_task_cases clock task uuid w)
    as [Hfail | [d [-> [Hstudy [Hfresh Hrun]]]]]; [intros _; exact Hfail|].
  intros Hbad. exfalso.
  apply str_in_false in Hfresh. unfold created_task in Hfresh. simpl in Hfresh.
  rewrite Hfresh, Hstudy in Hbad.
  revert Hrun Hbad. unfold create_task.
  destruct (task_data_nonempty d); [|rewrite require_false; discriminate].
  rewrite require_true, Hstudy, require_true.
  destruct (truthy (d_type d)); [|rewrite require_false; discriminate].
  rewrite require_true.
  destruct (truthy (d_title d)); [|rewrite require_false; discriminate].
  rewrite require_true.
  destruct (str_in (or_default (d_type d) "") valid_types);
    [|rewrite require_false; discriminate].
  intros _ Hbad. discriminate Hbad.
Qed.

(** X3.  When [create_task] returns an id, the dictionary was given with
    a non-empty [study_id] and [title] and one of the six task types, the
    id was not stored before, and exactly one row, built from the
    dictionary, has been appended.  When it raises, the table of tasks is
    as before.  A dictionary that fails one of the four checks is refused
    with the message of the first check it fails, before the clock or the
    database is touched. *)
Theorem create_task_checks clock task uuid w :
  (forall id,
     result (create_task clock task uuid) w = inr id ->
     exists d,
       task = Some d
       /\ truthy (d_study_id d) = true
       /\ truthy (d_title d) = true
       /\ In (or_default (d_type d) "") valid_types
       /\ id = or_default (d_id d) uuid
       /\ ~ In id (map t_id (tasks w))
       /\ tasks (exec (create_task clock task uuid) w)
          = (tasks w ++ [created_task clock d uuid w])%list)
  /\ (forall e,
        result (create_task clock task uuid) w = inl e ->
        tasks (exec (create_task clock task uuid) w) = tasks w)
  /\ (task = None ->
      create_task clock task uuid w
      = (inl (Exception "Task data is required"), w))
  /\ (forall d ok msg,
        task = Some d ->
        task_data_nonempty d = true ->
        find (fun check => negb (fst check)) (task_checks d) = Some (ok, msg) ->
        create_task clock task uuid w = (inl (Exception msg), w)).
Proof.
  unfold result, exec. split; [|split; [|split]].
  - intros id Hid.
    destruct (create_task_cases clock task uuid w)
      as [[e [w' [Hrun _]]] | [d [-> [Hstudy [Hfresh Hrun]]]]];
      rewrite Hrun in *; cbn [fst snd] in *; [discriminate|].
    injection Hid as <-. exists d. cbn [tasks].
    assert (Hchecks : truthy (d_title d) = true
                      /\ str_in (or_default (d_type d) "") valid_types = true).
    { revert Hrun. unfold create_task.
      destruct (task_data_nonempty d);
        [rewrite require_true | rewrite require_false; discriminate].
      rewrite Hstudy, require_true.
      destruct (truthy (d_type d));
        [rewrite require_true | rewrite require_false; discriminate].
      destruct (truthy (d_title d));
        [rewrite require_true | rewrite require_false; discriminate].
      destruct (str_in (or_default (d_type d) "") valid_types);
        [now split | rewrite require_false; discriminate]. }
    destruct Hchecks as [Htitle Htype]. apply str_in_In in Htype.
    repeat split; assumption || reflexivity.
  - intros e He.
    destruct (create_task_cases clock task uuid w)
      as [[e' [w' [Hrun [_ [Htasks _]]]]] | [d [_ [_ [_ Hrun]]]]];
      rewrite Hrun in *; cbn [fst snd] in *; [assumption | discriminate].
  - intros ->. reflexivity.
  - intros d ok msg -> Hne. unfold task_checks, create_task.
    rewrite Hne, require_true. cbn [find fst].
    destruct (truthy (d_study_id d)); cbn [negb];
      [rewrite require_true
      | intros H; injection H as _ <-; now rewrite require_false].
    destruct (truthy (d_type d)); cbn [negb];
      [rewrite require_true
      | intros H; injection H as _ <-; now rewrite require_false].
    destruct (truthy (d_title d)); cbn [negb];
      [rewrite require_true
      | intros H; injection H as _ <-; now rewrite require_false].
    destruct (str_in (or_default (d_type d) "") valid_types); cbn [negb];
      [discriminate
      | intros H; injection H as _ <-; now rewrite require_false].
Qed.

Lemma insert_before_last x acc t :
  t_order_index x < t_order_index t ->
  insert_by_order_index x (acc ++ [t])%list
  = (insert_by_order_index x acc ++ [t])%list.
Proof.
  intros Hlt. induction acc as [|h acc IH]; simpl.
  - destruct (Z.leb_spec (t_order_index x) (t_order_index t)); [reflexivity|lia].
  - destruct (t_order_index x <=? t_order_index h); [reflexivity|].
    simpl. now rewrite IH.
Qed.

Lemma sort_append_largest l t :
  (forall x, In x l -> t_order_index x < t_order_index t) ->
  sort_by_order_index (l ++ [t])%list = (sort_by_order_index l ++ [t])%list.
Proof.
  induction l as [|x l IH]; intros Hall; [reflexivity|].
  cbn [app sort_by_order_index fold_right].
  fold (sort_by_order_index (l ++ [t])). fold (sort_by_order_index l).
  rewrite IH by (intros y Hy; apply Hall; now right).
  apply insert_before_last. apply Hall. now left.
Qed.

(** X4.  A task created without [order_index] is listed last: when
    [create_task] succeeds for such a dictionary, [read_tasks] for its
    study returns what it returned before, followed by the new task. *)
Theorem create_task_listed_last clock d uuid w id :
  d_order_index d = None ->
  result (create_task clock (Some d) uuid) w = inr id ->
  let S := or_default (d_study_id d) "" in
  exists t,
    list_tasks S (exec (create_task clock (Some d) uuid) w)
    = (list_tasks S w ++ [t])%list
    /\ t_id t = id /\ t_study_id t = S
    /\ t_order_index t
       = max_with_zero (map t_order_index (tasks_of S w)) + 1.
Proof.
  intros Hidx Hres S. unfold result, exec in *.
  destruct (create_task_cases clock (Some d) uuid w)
    as [[e [w' [Hrun _]]] | [d' [Hd [Hstudy [_ Hrun]]]]];
    rewrite Hrun in *; simpl in Hres; [discriminate|].
  injection Hd as <-. injection Hres as <-.
  exists (created_task clock d uuid w).
  assert (Hord : t_order_index (created_task clock d uuid w)
                 = max_with_zero (map t_order_index (tasks_of S w)) + 1).
  { unfold created_task. simpl. now rewrite Hidx. }
  repeat split; try assumption.
  rewrite !list_tasks_sorted. unfold tasks_of. cbn [snd tasks].
  rewrite filter_app. cbn [filter].
  rewrite task_matches_study. unfold created_task at 1. cbn [t_study_id].
  fold S. rewrite String.eqb_refl.
  apply sort_append_largest. intros x Hx. rewrite Hord.
  pose proof (max_with_zero_ge (map t_order_index (tasks_of S w))
                (t_order_index x) (in_map _ _ _ Hx)). lia.
Qed.

Lemma create_task_listed_last_witness :
  let w := run_ops sample_clock
             [AddTask (sample_task "A" "S1" (Some 4)) "u1";
              AddTask (sample_task "B" "S1" (Some 2)) "u2"] empty_world in
  let d := mkTaskData None (Some "S1") (Some "camera") (Some "Unboxing")
             None None in
  result (create_task sample_clock (Some d) "u3") w = inr "u3"
  /\ map t_id (list_tasks "S1" w) = ["B"; "A"]
  /\ exists t,
       list_tasks "S1" (exec (create_task sample_clock (Some d) "u3") w)
       = (list_tasks "S1" w ++ [t])%list
       /\ t_id t = "u3".
Proof.
  intros w d. split; [reflexivity|]. split; [reflexivity|].
  destruct (create_task_listed_last sample_clock d "u3" w "u3"
              eq_refl eq_refl) as [t [Ht [Hid _]]].
  exists t. split; [exact Ht | exact Hid].
Defined.

(** ** Reordering with a full list *)

Lemma sorted_permutation_unique (l1 : list Task) : forall l2,
  Permutation l1 l2 ->
  StronglySorted Z.lt (map t_order_index l1) ->
  StronglySorted Z.lt (map t_order_index l2) ->
  l1 = l2.
Proof.
  induction l1 as [|a r1 IH]; intros l2 Hperm H1 H2.
  - symmetry. now apply Permutation_nil.
  - destruct l2 as [|b r2];
      [apply Permutation_sym, Permutation_nil in Hperm; discriminate|].
    simpl in H1, H2.
    inversion H1 as [|? ? Hs1 Hall1]; subst.
    inversion H2 as [|? ? Hs2 Hall2]; subst.
    rewrite Forall_forall in Hall1, Hall2.
    assert (Hab : a = b).
    { assert (Ha : In a (b :: r2))
        by (eapply Permutation_in; [exact Hperm | now left]).
      assert (Hb : In b (a :: r1))
        by (eapply Permutation_in;
            [apply Permutation_sym; exact Hperm | now left]).
      destruct Ha as [Ha|Ha]; [now symmetry|].
      destruct Hb as [Hb|Hb]; [assumption|].
      pose proof (Hall2 _ (in_map t_order_index _ _ Ha)).
      pose proof (Hall1 _ (in_map t_order_index _ _ Hb)). lia. }
    subst b. f_equal. apply IH; try assumption.
    eapply Permutation_cons_inv. exact Hperm.
Qed.

Lemma map_by_position {A B : Type} (f : A -> B) (g : nat -> B) (l : list A) :
  forall s,
  (forall k x, nth_error l k = Some x -> f x = g (s + k)%nat) ->
  map f l = map g (seq s (length l)).
Proof.
  induction l as [|x l IH]; intros s H; [reflexivity|].
  simpl. f_equal.
  - rewrite (H 0%nat x eq_refl). f_equal. lia.
  - apply IH. intros k y Hy. rewrite (H (S k) y Hy). f_equal. lia.
Qed.

Lemma positions_strictly_sorted n : forall s,
  StronglySorted Z.lt (map (fun k => Z.of_nat k + 1) (seq s n)).
Proof.
  induction n as [|n IH]; intros s; simpl; constructor.
  - apply IH.
  - apply Forall_forall. intros x Hx.
    apply in_map_iff in Hx as [k [<- Hk]]. apply in_seq in Hk. lia.
Qed.

Lemma strictly_sorted_NoDup (l : list Z) : StronglySorted Z.lt l -> NoDup l.
Proof.
  induction 1 as [|h r Hr IH Hh]; constructor; [|assumption].
  intros Hin. rewrite Forall_forall in Hh. specialize (Hh _ Hin). lia.
Qed.

Lemma last_index_NoDup ids : forall k x,
  NoDup ids -> nth_error ids k = Some x -> last_index x ids = Some k.
Proof.
  induction ids as [|y rest IH]; intros k x Hnd Hk;
    [destruct k; discriminate|].
  inversion Hnd as [|? ? Hnotin Hrest]; subst.
  destruct k as [|k]; simpl in *.
  - injection Hk as ->.
    apply last_index_None in Hnotin. rewrite Hnotin.
    now rewrite String.eqb_refl.
  - now rewrite (IH k x Hrest Hk).
Qed.

(** X5.  When the table has unique ids and the list given to
    [reorder_tasks] names each task of the study exactly once,
    [read_tasks] for the study afterwards returns the tasks in the order of
    the list, with [order_index] 1, 2, ..., N. *)
Theorem reorder_tasks_in_requested_order clock study_id task_ids w :
  study_id <> "" ->
  task_ids <> [] ->
  NoDup (map t_id (tasks w)) ->
  Permutation task_ids (map t_id (tasks_of study_id w)) ->
  let listed :=
    list_tasks study_id (exec (reorder_tasks clock study_id task_ids) w) in
  map t_id listed = task_ids
  /\ map t_order_index listed
     = map (fun k => Z.of_nat k + 1) (seq 0 (length task_ids)).
Proof.
  intros HS Hne Hids Hperm listed. unfold listed, exec.
  rewrite reorder_tasks_run by assumption.
  rewrite list_tasks_sorted. unfold tasks_of. cbn [snd tasks].
  rewrite filter_map_commute
    by (intros t; now rewrite !task_matches_study, reordered_study).
  fold (tasks_of study_id w).
  destruct (Permutation_map_inv _ _ Hperm) as [ts [Hts Hpts]].
  set (relabel := reordered clock study_id 1 (ticks w) task_ids).
  assert (Hnd : NoDup task_ids).
  { eapply Permutation_NoDup; [apply Permutation_sym; exact Hperm|].
    now apply NoDup_map_filter. }
  assert (Hkeys : map t_order_index (map relabel ts)
                  = map (fun k => Z.of_nat k + 1) (seq 0 (length task_ids))).
  { rewrite map_map, Hts, length_map. apply map_by_position.
    intros k t Hk. unfold relabel, reordered.
    assert (Hin : In t (tasks_of study_id w)).
    { eapply Permutation_in; [apply Permutation_sym; exact Hpts|].
      eapply nth_error_In; eassumption. }
    apply filter_In in Hin as [_ Hst]. rewrite task_matches_study in Hst.
    rewrite Hst.
    rewrite (last_index_NoDup task_ids k (t_id t) Hnd).
    - cbn [t_order_index]. rewrite Nat.add_0_l. lia.
    - rewrite Hts. now apply map_nth_error. }
  assert (Hsorted : sort_by_order_index (map relabel (tasks_of study_id w))
                    = map relabel ts).
  { apply sorted_permutation_unique.
    - eapply Permutation_trans; [apply sort_by_order_index_perm|].
      now apply Permutation_map.
    - apply sorted_nodup_strict.
      + apply sorted_indices, sort_by_order_index_sorted.
      + eapply Permutation_NoDup.
        * apply Permutation_map, Permutation_sym.
          eapply Permutation_trans; [apply sort_by_order_index_perm|].
          apply Permutation_map. exact Hpts.
        * rewrite Hkeys.
          apply strictly_sorted_NoDup, positions_strictly_sorted.
    - rewrite Hkeys. apply positions_strictly_sorted. }
  rewrite Hsorted. split; [|exact Hkeys].
  rewrite map_map, Hts. apply map_ext. intros t. apply reordered_id.
Qed.

Lemma reorder_tasks_in_requested_order_witness :
  let w := run_ops sample_clock
             [AddTask (sample_task "A" "S1" None) "u1";
              AddTask (sample_task "X" "S2" None) "u2";
              AddTask (sample_task "B" "S1" None) "u3";
              AddTask (sample_task "C" "S1" None) "u4"] empty_world in
  "S1" <> "" /\ ["C"; "A"; "B"] <> []
  /\ map t_id (tasks_of "S1" w) = ["A"; "B"; "C"]
  /\ map (fun t => (t_id t, t_order_index t))
       (list_tasks "S1" (exec (reorder_tasks sample_clock "S1" ["C"; "A"; "B"]) w))
     = [("C", 1); ("A", 2); ("B", 3)]
  /\ map t_id
       (list_tasks "S1" (exec (reorder_tasks sample_clock "S1" ["C"; "A"; "B"]) w))
     = ["C"; "A"; "B"].
Proof.
  intros w. split; [discriminate|]. split; [discriminate|].
  split; [reflexivity|]. split; [reflexivity|].
  apply (reorder_tasks_in_requested_order sample_clock "S1" ["C"; "A"; "B"] w).
  - discriminate.
  - discriminate.
  - simpl. repeat constructor; simpl; intuition discriminate.
  - simpl. apply Permutation_sym.
    change ["C"; "A"; "B"] with (["C"] ++ ["A"; "B"])%list.
    change ["A"; "B"; "C"] with (["A"; "B"] ++ ["C"])%list.
    apply Permutation_app_comm.
Defined.

Lemma reordered_twice clock S index s0 s1 ids t :
  t_order_index
    (reordered clock S index s1 ids (reordered clock S index s0 ids t))
  = t_order_index (reordered clock S index s0 ids t)
  /\ t_id (reordered clock S index s1 ids (reordered clock S index s0 ids t))
     = t_id t.
Proof.
  split; [|now rewrite !reordered_id].
  unfold reordered at 1. rewrite reordered_study, reordered_id.
  unfold reordered.
  destruct (String.eqb S (t_study_id t)); [|reflexivity].
  now destruct (last_index (t_id t) ids).
Qed.

(** X6.  [reorder_tasks] overwrites: calling it a second time with the
    same study and list leaves every task with the id and [order_index] the
    first call gave it. *)
Theorem reorder_tasks_idempotent clock study_id task_ids w :
  study_id <> "" ->
  task_ids <> [] ->
  let w1 := exec (reorder_tasks clock study_id task_ids) w in
  let w2 := exec (reorder_tasks clock study_id task_ids) w1 in
  map (fun t => (t_id t, t_order_index t)) (tasks w2)
  = map (fun t => (t_id t, t_order_index t)) (tasks w1).
Proof.
  intros HS Hne w1 w2. unfold w2, w1, exec.
  rewrite !reorder_tasks_run by assumption. cbn [snd tasks ticks].
  rewrite !map_map. apply map_ext. intros t.
  destruct (reordered_twice clock study_id 1 (ticks w)
              (ticks w + length task_ids)%nat task_ids t) as [Hidx Hid].
  now rewrite Hidx, Hid, reordered_id.
Qed.

Lemma reorder_tasks_idempotent_witness :
  let w := run_ops sample_clock
             [AddTask (sample_task "A" "S1" None) "u1";
              AddTask (sample_task "B" "S1" None) "u2"] empty_world in
  let w1 := exec (reorder_tasks sample_clock "S1" ["B"; "A"]) w in
  let w2 := exec (reorder_tasks sample_clock "S1" ["B"; "A"]) w1 in
  "S1" <> "" /\ ["B"; "A"] <> []
  /\ map (fun t => (t_id t, t_order_index t)) (tasks w1) = [("A", 2); ("B", 1)]
  /\ map (fun t => (t_id t, t_order_index t)) (tasks w2)
     = map (fun t => (t_id t, t_order_index t)) (tasks w1).
Proof.
  intros w w1 w2. split; [discriminate|]. split; [discriminate|].
  split; [reflexivity|].
  apply (reorder_tasks_idempotent sample_clock "S1" ["B"; "A"] w);
    discriminate.
Defined.

(** ** Updating and deleting tasks *)

Section Editing.

Variable clock : nat -> string.

Lemma update_task_run task_id d w :
  task_id <> "" ->
  task_update_nonempty d = true ->
  match tu_type d with
  | Some type => str_in type valid_types
  | None => true
  end = true ->
  update_task clock task_id (Some d) w =
  (inr (option_map (fun t => t_id (apply_task_update d (clock (ticks w)) t))
          (find (task_matches (id_query task_id)) (tasks w))),
   mkWorld (studies w)
     (map (fun t => if task_matches (id_query task_id) t
                    then apply_task_update d (clock (ticks w)) t else t)
        (tasks w))
     (participants w) (responses w) (S (ticks w))).
Proof.
  intros Hid Hd Hty. unfold update_task.
  apply str_truthy_true in Hid.
  rewrite Hid, require_true, Hd, require_true, Hty, require_true.
  reflexivity.
Qed.

Lemma update_task_raise task_id data w :
  task_id = "" \/ data = None
  \/ (exists d, data = Some d
        /\ (task_update_nonempty d = false
            \/ exists type, tu_type d = Some type
                            /\ str_in type valid_types = false)) ->
  exists e, update_task clock task_id data w = (inl e, w).
Proof.
  intros H. unfold update_task.
  destruct (str_truthy task_id) eqn:Hid;
    [rewrite require_true | rewrite require_false; eauto].
  destruct data as [d|]; [|unfold raise; eauto].
  destruct (task_update_nonempty d) eqn:Hd;
    [rewrite require_true | rewrite require_false; eauto].
  destruct (match tu_type d with
            | Some type => str_in type valid_types
            | None => true
            end) eqn:Hty; [|rewrite require_false; eauto].
  exfalso. destruct H as [-> | [H | [d' [Heq [Hd' | [type [Htype Hbad]]]]]]];
    try discriminate; injection Heq as <-; [congruence|].
  rewrite Htype in Hty. congruence.
Qed.

Lemma task_matches_id id t :
  task_matches (id_query id) t = String.eqb id (t_id t).
Proof.
  unfold task_matches, id_query, field_matches. simpl.
  now rewrite !andb_true_r.
Qed.

Lemma delete_task_run task_id w :
  task_id <> "" ->
  delete_task task_id w = db_delete_tasks task_id w.
Proof.
  intros Hid. unfold delete_task. apply str_truthy_true in Hid.
  now rewrite Hid, require_true.
Qed.

Lemma delete_task_raise w : delete_task "" w
  = (inl (Exception "Task ID is required"), w).
Proof. reflexivity. Qed.

Lemma filter_none {A : Type} (p : A -> bool) (l : list A) :
  (forall x, In x l -> p x = true) -> filter p l = l.
Proof.
  induction l as [|x l IH]; intros H; [reflexivity|]. simpl.
  rewrite (H x (or_introl eq_refl)). f_equal. apply IH.
  intros y Hy. apply H. now right.
Qed.

Lemma filter_swap {A : Type} (p q : A -> bool) (l : list A) :
  filter p (filter q l) = filter q (filter p l).
Proof.
  induction l as [|x l IH]; [reflexivity|]. simpl.
  destruct (q x) eqn:Hq; destruct (p x) eqn:Hp; simpl;
    rewrite ?Hq, ?Hp, IH; reflexivity.
Qed.

End Editing.


(** X8.  Deleting the task that [create_task] has just created restores
    the tasks table; studies and participants are untouched, and so are
    the responses when each of them refers to a stored task. *)
Theorem delete_task_undoes_create clock task uuid w id :
  result (create_task clock task uuid) w = inr id ->
  id <> "" ->
  let w2 := exec (delete_task id) (exec (create_task clock task uuid) w) in
  tasks w2 = tasks w
  /\ studies w2 = studies w
  /\ participants w2 = participants w
  /\ (references_resolve w -> responses w2 = responses w).
Proof.
  intros Hres Hid w2. unfold w2, result, exec in *.
  destruct (create_task_cases clock task uuid w)
    as [[e [w' [Hrun _]]] | [d [-> [_ [Hfresh Hrun]]]]];
    rewrite Hrun in *; simpl in Hres; [discriminate|].
  assert (Hnew : t_id (created_task clock d uuid w) = id)
    by now injection Hres.
  clear Hres. rewrite Hnew in Hfresh.
  rewrite delete_task_run by assumption.
  unfold db_delete_tasks. cbn [snd tasks studies participants responses].
  assert (Hkeep : filter (fun t => negb (task_matches (id_query id) t))
                    (tasks w) = tasks w).
  { apply filter_none. intros t Ht. rewrite task_matches_id.
    apply negb_true_iff. apply String.eqb_neq. intros ->.
    apply Hfresh. now apply in_map. }
  repeat split.
  - rewrite filter_app, Hkeep. cbn [filter]. rewrite task_matches_id, Hnew.
    rewrite String.eqb_refl. apply app_nil_r.
  - intros Href. apply filter_none. intros r Hr.
    apply negb_true_iff, str_in_false. intros Hin.
    apply in_map_iff in Hin as [t [Ht Hin]].
    apply filter_In in Hin as [Hin Hmatch].
    rewrite task_matches_id in Hmatch. apply String.eqb_eq in Hmatch.
    unfold references_resolve in Href. rewrite Forall_forall in Href.
    destruct (Href r Hr) as [Hres' _]. apply str_in_In in Hres'.
    apply Hfresh. congruence.
Qed.

Lemma delete_task_undoes_create_witness :
  let w := run_ops sample_clock
             [AddTask (sample_task "A" "S1" None) "u1"] empty_world in
  let w1 := exec (create_task sample_clock (sample_task "B" "S1" None) "u2") w in
  result (create_task sample_clock (sample_task "B" "S1" None) "u2") w = inr "B"
  /\ "B" <> ""
  /\ map t_id (tasks w1) = ["A"; "B"]
  /\ tasks (exec (delete_task "B") w1) = tasks w.
Proof.
  intros w w1. split; [reflexivity|]. split; [discriminate|].
  split; [reflexivity|].
  apply (delete_task_undoes_create sample_clock (sample_task "B" "S1" None)
           "u2" w "B"); [reflexivity | discriminate].
Defined.

Lemma delete_participant_run participant_id w :
  participant_id <> "" ->
  delete_participant participant_id w = db_delete_participants participant_id w.
Proof.
  intros Hid. unfold delete_participant. apply str_truthy_true in Hid.
  now rewrite Hid, require_true.
Qed.

(** X9.  Deleting a task or a participant never leaves an orphan: when
    every response refers to a stored task and a stored participant, this
    still holds after [delete_task] and after [delete_participant] (the
    responses of the deleted row are deleted with it). *)
Theorem delete_keeps_references task_id participant_id w :
  references_resolve w ->
  references_resolve (exec (delete_task task_id) w)
  /\ references_resolve (exec (delete_participant participant_id) w).
Proof.
  intros Href. unfold references_resolve in *. rewrite Forall_forall in Href.
  split.
  - destruct (string_dec task_id "") as [->|Hid]; [now apply Forall_forall|].
    unfold exec. rewrite delete_task_run by assumption.
    unfold db_delete_tasks. cbn [snd tasks participants responses].
    apply Forall_forall. intros r Hr.
    apply filter_In in Hr as [Hr Hkept].
    destruct (Href r Hr) as [Htask Hpart]. split; [|assumption].
    apply str_in_In. apply str_in_In in Htask.
    apply in_map_iff in Htask as [t [Ht Hin]].
    apply in_map_iff. exists t. split; [assumption|].
    apply filter_In. split; [assumption|].
    destruct (task_matches (id_query task_id) t) eqn:Hm; [|reflexivity].
    exfalso. apply negb_true_iff, str_in_false in Hkept. apply Hkept.
    rewrite <- Ht. apply in_map. apply filter_In. now split.
  - destruct (string_dec participant_id "") as [->|Hid];
      [now apply Forall_forall|].
    unfold exec. rewrite delete_participant_run by assumption.
    unfold db_delete_participants. cbn [snd tasks participants responses].
    apply Forall_forall. intros r Hr.
    apply filter_In in Hr as [Hr Hkept].
    destruct (Href r Hr) as [Htask Hpart]. split; [assumption|].
    apply str_in_In. apply str_in_In in Hpart.
    apply in_map_iff in Hpart as [p [Hp Hin]].
    apply in_map_iff. exists p. split; [assumption|].
    apply filter_In. split; [assumption|].
    destruct (participant_has_id participant_id p) eqn:Hm; [|reflexivity].
    exfalso. apply negb_true_iff, str_in_false in Hkept. apply Hkept.
    rewrite <- Hp. apply in_map. apply filter_In. now split.
Qed.

Lemma delete_keeps_references_witness :
  let w := exec (submit sample_clock "p1" "T1" (Text "Tasty") "r1")
             sample_world in
  references_resolve w
  /\ map r_id (responses w) = ["r1"]
  /\ responses (exec (delete_task "T1") w) = []
  /\ references_resolve (exec (delete_task "T1") w).
Proof.
  intros w.
  assert (Href : references_resolve w).
  { unfold references_resolve. simpl. repeat constructor. }
  split; [exact Href|]. split; [reflexivity|]. split; [reflexivity|].
  exact (proj1 (delete_keeps_references "T1" "p1" w Href)).
Defined.

(** ** Invariants of the task table under all four editing operations *)

Section Invariants.

Variable clock : nat -> string.

Lemma create_task_type_valid d uuid w id w' :
  create_task clock (Some d) uuid w = (inr id, w') ->
  str_in (or_default (d_type d) "") valid_types = true.
Proof.
  intros Hrun.
  destruct (str_in (or_default (d_type d) "") valid_types) eqn:Hty;
    [reflexivity|].
  destruct (create_task_rejected clock (Some d) uuid w) as [e [w1 [Hbad _]]].
  - cbv beta iota. rewrite Hty. now rewrite andb_false_r.
  - congruence.
Qed.

Lemma apply_edit_types_valid e w :
  types_valid w -> types_valid (apply_edit clock e w).
Proof.
  unfold types_valid. intros Hvalid. destruct e as [[task uuid|S ids]|id|id data];
    unfold apply_edit, apply_op, exec.
  - destruct (create_task_cases clock task uuid w)
      as [[e [w' [Hrun [_ [Htasks _]]]]] | [d [-> [_ [_ Hrun]]]]].
    + rewrite Hrun. simpl. now rewrite Htasks.
    + pose proof (create_task_type_valid _ _ _ _ _ Hrun) as Hty.
      rewrite Hrun. simpl. apply Forall_app. split; [assumption|].
      constructor; [exact Hty | constructor].
  - destruct (string_dec S "") as [HS|HS];
      [destruct (reorder_tasks_raise clock S ids w (or_introl HS))
         as [e [-> _]]; assumption|].
    destruct ids as [|x rest];
      [destruct (reorder_tasks_raise clock S [] w (or_intror eq_refl))
         as [e [-> _]]; assumption|].
    rewrite reorder_tasks_run by (assumption || discriminate). simpl.
    apply Forall_map. eapply Forall_impl; [|exact Hvalid].
    intros t Ht. unfold reordered.
    destruct (String.eqb S (t_study_id t)); [|assumption].
    now destruct (last_index (t_id t) (x :: rest)).
  - destruct (string_dec id "") as [->|Hid]; [assumption|].
    rewrite delete_task_run by assumption. simpl.
    apply Forall_forall. intros t Ht. apply filter_In in Ht as [Ht _].
    rewrite Forall_forall in Hvalid. now apply Hvalid.
  - pose proof (update_task_raise clock id data w) as Hraise.
    destruct (string_dec id "") as [Hid|Hid];
      [destruct Hraise as [e ->]; auto|].
    destruct data as [d|]; [|destruct Hraise as [e ->]; auto].
    destruct (task_update_nonempty d) eqn:Hd;
      [|destruct Hraise as [e ->]; [right; right; eauto | assumption]].
    destruct (match tu_type d with
              | Some type => str_in type valid_types
              | None => true
              end) eqn:Hty.
    2:{ destruct (tu_type d) as [type|] eqn:Htype; [|discriminate].
        destruct Hraise as [e ->]; [right; right; eauto 6 | assumption]. }
    rewrite update_task_run by assumption. simpl.
    apply Forall_map. eapply Forall_impl; [|exact Hvalid].
    intros t Ht. destruct (task_matches (id_query id) t); [|assumption].
    unfold apply_task_update. simpl.
    destruct (tu_type d); simpl; assumption.
Qed.

Lemma delete_task_distinct study task_id w :
  distinct_order study w ->
  distinct_order study (exec (delete_task task_id) w).
Proof.
  intros [Hids Hord]. unfold exec.
  destruct (string_dec task_id "") as [->|Hid]; [now split|].
  rewrite delete_task_run by assumption.
  unfold distinct_order, tasks_of, db_delete_tasks. cbn [snd tasks]. split.
  - now apply NoDup_map_filter.
  - rewrite filter_swap. now apply NoDup_map_filter.
Qed.

Lemma update_task_distinct study task_id data w :
  distinct_order study w ->
  edit_complete study w (UpdateTask task_id data) = true ->
  distinct_order study (exec (update_task clock task_id data) w).
Proof.
  intros [Hids Hord] Hok. unfold exec.
  pose proof (update_task_raise clock task_id data w) as Hraise.
  destruct (string_dec task_id "") as [Hid|Hid];
    [destruct Hraise as [e ->]; [auto | now split]|].
  destruct data as [d|]; [|destruct Hraise as [e ->]; [auto | now split]].
  destruct (task_update_nonempty d) eqn:Hd;
    [|destruct Hraise as [e ->]; [right; right; eauto | now split]].
  destruct (match tu_type d with
            | Some type => str_in type valid_types
            | None => true
            end) eqn:Hty.
  2:{ destruct (tu_type d) as [type|] eqn:Htype; [|discriminate].
      destruct Hraise as [e ->]; [right; right; eauto 6 | now split]. }
  rewrite update_task_run by assumption.
  cbn [edit_complete] in Hok.
  apply andb_true_iff in Hok as [Hok Hoi].
  apply andb_true_iff in Hok as [Hoid Hos].
  destruct (tu_id d) eqn:Hi; [discriminate|].
  destruct (tu_study_id d) eqn:Hs; [discriminate|].
  destruct (tu_order_index d) eqn:Ho; [discriminate|].
  set (h := fun t => if task_matches (id_query task_id) t
                     then apply_task_update d (clock (ticks w)) t else t).
  assert (Hh : forall t, t_id (h t) = t_id t
                         /\ t_study_id (h t) = t_study_id t
                         /\ t_order_index (h t) = t_order_index t).
  { intros t. unfold h.
    destruct (task_matches (id_query task_id) t); [|auto].
    unfold apply_task_update. rewrite Hi, Hs, Ho. simpl. auto. }
  unfold distinct_order, tasks_of. cbn [snd tasks]. fold h. split.
  - rewrite map_map. erewrite map_ext; [exact Hids|].
    intros t. apply Hh.
  - rewrite filter_map_commute.
    + rewrite map_map. erewrite map_ext; [exact Hord|].
      intros t. apply Hh.
    + intros t. rewrite !task_matches_study.
      destruct (Hh t) as [_ [-> _]]. reflexivity.
Qed.

Lemma run_edits_distinct study es : forall w,
  distinct_order study w ->
  edits_complete clock study w es = true ->
  distinct_order study (run_edits clock es w).
Proof.
  induction es as [|e es IH]; intros w Hinv Hok; simpl in *; [assumption|].
  apply andb_true_iff in Hok as [He Hrest].
  apply IH; [|assumption].
  destruct e as [[task uuid|S ids]|id|id data]; unfold apply_edit.
  - now apply add_task_distinct.
  - now apply reorder_tasks_distinct.
  - now apply delete_task_distinct.
  - now apply update_task_distinct.
Qed.

End Invariants.

(** X10.  Every stored task has one of the six task types, and no
    sequence of [create_task], [update_task], [reorder_tasks] and
    [delete_task] calls changes that. *)
Theorem task_types_stay_valid clock edits w :
  types_valid w -> types_valid (run_edits clock edits w).
Proof.
  revert w. induction edits as [|e es IH]; intros w Hvalid; simpl;
    [assumption|].
  apply IH. now apply apply_edit_types_valid.
Qed.

Lemma task_types_stay_valid_witness :
  let edits := [Edit (AddTask (sample_task "A" "S1" None) "u1");
                UpdateTask "A"
                  (Some (mkTaskUpdate None None (Some "video") None None None None
                          None));
                UpdateTask "A"
                  (Some (mkTaskUpdate None None (Some "camera") None None None None
                          None))] in
  types_valid empty_world
  /\ map t_type (tasks (run_edits sample_clock edits empty_world)) = ["camera"]
  /\ types_valid (run_edits sample_clock edits empty_world).
Proof.
  intros edits.
  assert (H0 : types_valid empty_world) by constructor.
  split; [exact H0|]. split; [reflexivity|].
  exact (task_types_stay_valid sample_clock edits empty_world H0).
Defined.

(** X11.  The strict order of a study's tasks survives removals and
    updates as well: start from a table with unique ids in which the study
    has no task, and run any sequence of complete [create_task] and
    [reorder_tasks] calls, [delete_task] calls, and [update_task] calls
    that name neither [id], [study_id] nor [order_index]; [read_tasks] for
    the study then returns strictly increasing [order_index] values. *)
Theorem list_tasks_strict_with_edits clock study edits w0 :
  NoDup (map t_id (tasks w0)) ->
  tasks_of study w0 = [] ->
  edits_complete clock study w0 edits = true ->
  StronglySorted Z.lt
    (map t_order_index (list_tasks study (run_edits clock edits w0))).
Proof.
  intros Hids Hempty Hok.
  assert (Hinv : distinct_order study (run_edits clock edits w0)).
  { apply run_edits_distinct; [|assumption]. split; [assumption|].
    rewrite Hempty. constructor. }
  destruct Hinv as [_ Hord].
  destruct (list_tasks_nondecreasing study (run_edits clock edits w0))
    as [Hperm Hsorted].
  apply sorted_nodup_strict; [assumption|].
  eapply Permutation_NoDup; [|exact Hord].
  apply Permutation_map, Permutation_sym, Hperm.
Qed.

Lemma list_tasks_strict_with_edits_witness :
  let edits := [Edit (AddTask (sample_task "A" "S1" None) "u1");
                Edit (AddTask (sample_task "B" "S1" None) "u2");
                Edit (AddTask (sample_task "C" "S1" None) "u3");
                RemoveTask "B";
                UpdateTask "C"
                  (Some (mkTaskUpdate None None None (Some "Renamed") None None
                          None None));
                Edit (AddTask (sample_task "D" "S1" None) "u4")] in
  edits_complete sample_clock "S1" empty_world edits = true
  /\ map (fun t => (t_id t, t_title t, t_order_index t))
       (list_tasks "S1" (run_edits sample_clock edits empty_world))
     = [("A", "Thoughts", 1); ("C", "Renamed", 3); ("D", "Thoughts", 4)]
  /\ StronglySorted Z.lt
       (map t_order_index
          (list_tasks "S1" (run_edits sample_clock edits empty_world))).
Proof.
  intros edits. split; [reflexivity|]. split; [reflexivity|].
  apply (list_tasks_strict_with_edits sample_clock "S1" edits empty_world).
  - constructor.
  - reflexivity.
  - reflexivity.
Defined.

(** ** The study form *)

(** X12.  [getTaskTypeFromId] returns, for every id, one of the six task
    types the backend accepts; for the ids 1 to 6 it is the type at that
    position of the backend's list. *)
Theorem getTaskTypeFromId_valid id :
  In (getTaskTypeFromId id) valid_types
  /\ (1 <= id <= 6 ->
      nth_error valid_types (Z.to_nat (id - 1)) = Some (getTaskTypeFromId id))
  /\ (~ 1 <= id <= 6 -> getTaskTypeFromId id = "discussion").
Proof.
  unfold getTaskTypeFromId, typeMap. cbn [find fst].
  destruct (Z.eqb_spec 1 id) as [<-|H1];
    [cbn; split; [tauto | split; [reflexivity | lia]]|].
  destruct (Z.eqb_spec 2 id) as [<-|H2];
    [cbn; split; [tauto | split; [reflexivity | lia]]|].
  destruct (Z.eqb_spec 3 id) as [<-|H3];
    [cbn; split; [tauto | split; [reflexivity | lia]]|].
  destruct (Z.eqb_spec 4 id) as [<-|H4];
    [cbn; split; [tauto | split; [reflexivity | lia]]|].
  destruct (Z.eqb_spec 5 id) as [<-|H5];
    [cbn; split; [tauto | split; [reflexivity | lia]]|].
  destruct (Z.eqb_spec 6 id) as [<-|H6];
    [cbn; split; [tauto | split; [reflexivity | lia]]|].
  cbn. split; [tauto|]. split; [lia | reflexivity].
Qed.

Lemma getTaskTypeFromId_valid_witness :
  1 <= 5 <= 6
  /\ nth_error valid_types (Z.to_nat (5 - 1)) = Some (getTaskTypeFromId 5)
  /\ getTaskTypeFromId 5 = "classification"
  /\ getTaskTypeFromId 0 = "discussion".
Proof.
  split; [lia|]. split.
  - apply (proj1 (proj2 (getTaskTypeFromId_valid 5))). lia.
  - split; reflexivity.
Defined.

Lemma remove_at_spec {A : Type} (tasks : list A) : forall i index,
  (i <= index)%nat ->
  remove_at i index tasks
  = (firstn (index - i) tasks ++ skipn (S (index - i)) tasks)%list.
Proof.
  induction tasks as [|x l IH]; intros i index Hle; simpl.
  - now destruct (index - i)%nat.
  - destruct (Nat.eqb_spec i index) as [->|Hne].
    + rewrite Nat.sub_diag. simpl.
      clear IH Hle. revert index.
      assert (H : forall j index, (index < j)%nat -> remove_at j index l = l).
      { induction l as [|y l IH]; intros j index Hlt; simpl; [reflexivity|].
        destruct (Nat.eqb_spec j index); [lia|]. f_equal. apply IH. lia. }
      intros index. apply H. lia.
    + destruct (index - i)%nat as [|n] eqn:Hn; [lia|].
      simpl. f_equal. rewrite IH by lia.
      replace (index - S i)%nat with n by lia. reflexivity.
Qed.

(** X13.  [handleRemoveTask] removes exactly the entry at the given
    position and keeps the others in order; a position outside the list
    leaves the list unchanged. *)
Theorem handleRemoveTask_spec {A : Type} (index : nat) (tasks : list A) :
  handleRemoveTask index tasks
  = (firstn index tasks ++ skipn (S index) tasks)%list
  /\ ((index < length tasks)%nat ->
      S (length (handleRemoveTask index tasks)) = length tasks)
  /\ ((length tasks <= index)%nat -> handleRemoveTask index tasks = tasks).
Proof.
  unfold handleRemoveTask.
  rewrite remove_at_spec by lia. rewrite Nat.sub_0_r.
  split; [reflexivity|]. split.
  - intros Hlt. rewrite length_app, length_firstn, length_skipn. lia.
  - intros Hge. rewrite firstn_all2 by assumption.
    rewrite skipn_all2 by lia. apply app_nil_r.
Qed.

Lemma handleRemoveTask_spec_witness :
  (1 < length ["a"; "b"; "c"])%nat
  /\ handleRemoveTask 1 ["a"; "b"; "c"] = ["a"; "c"]
  /\ S (length (handleRemoveTask 1 ["a"; "b"; "c"])) = length ["a"; "b"; "c"]
  /\ handleRemoveTask 3 ["a"; "b"; "c"] = ["a"; "b"; "c"].
Proof.
  split; [simpl; lia|]. split; [reflexivity|]. split.
  - apply (proj1 (proj2 (handleRemoveTask_spec 1 ["a"; "b"; "c"]))).
    simpl. lia.
  - apply (proj2 (proj2 (handleRemoveTask_spec 3 ["a"; "b"; "c"]))).
    simpl. lia.
Defined.

Section Form.

Variable clock : nat -> string.

Lemma max_with_zero_snoc l x :
  (forall y, In y l -> y < x) -> 0 < x ->
  max_with_zero (l ++ [x]) = x.
Proof.
  induction l as [|y l IH]; intros Hall Hpos; simpl; [lia|].
  rewrite IH; [|intros z Hz; apply Hall; now right | assumption].
  specialize (Hall y (or_introl eq_refl)). lia.
Qed.

Lemma form_rows_cons uuid i first task rest :
  form_rows uuid i first (task :: rest)
  = (uuid i, getTaskTypeFromId (taskTypeId task), prompt task,
     Some (prompt task), first)
    :: form_rows uuid (S i) (first + 1) rest.
Proof.
  unfold form_rows. cbn [length seq combine map fst snd].
  replace (i + 0)%nat with i by lia.
  replace (first + Z.of_nat 0) with first by (simpl; lia).
  f_equal.
  assert (H : forall l s,
            map (fun entry : nat * FormTask =>
                   (uuid (i + fst entry)%nat,
                    getTaskTypeFromId (taskTypeId (snd entry)),
                    prompt (snd entry), Some (prompt (snd entry)),
                    first + Z.of_nat (fst entry)))
              (combine (seq (S s) (length l)) l)
            = map (fun entry : nat * FormTask =>
                     (uuid (S i + fst entry)%nat,
                      getTaskTypeFromId (taskTypeId (snd entry)),
                      prompt (snd entry), Some (prompt (snd entry)),
                      first + 1 + Z.of_nat (fst entry)))
                (combine (seq s (length l)) l)).
  { induction l as [|t l IH]; intros s; [reflexivity|].
    cbn [length seq combine map fst snd]. rewrite IH.
    replace (i + S s)%nat with (S i + s)%nat by lia.
    replace (first + Z.of_nat (S s)) with (first + 1 + Z.of_nat s) by lia.
    reflexivity. }
  apply H.
Qed.

Lemma tasks_create_without_id study_id type title instructions order_index
  uuid :
  tasks_create clock
    (Some (Some (mkTaskData None study_id type title instructions
                   order_index))) uuid
  = create_task clock
      (Some (mkTaskData (Some uuid) study_id type title instructions
               order_index)) uuid.
Proof. reflexivity. Qed.

(** When every request of the loop is accepted, the tasks of the form
    are listed after the tasks the study had. *)
Lemma handleSubmit_tasks_run S uuid : forall tasks0 i w w',
  handleSubmit_tasks clock S uuid i tasks0 w = (inr tt, w') ->
  map row_of (list_tasks S w')
  = (map row_of (list_tasks S w)
     ++ form_rows uuid i
          (max_with_zero (map t_order_index (tasks_of S w)) + 1)
          tasks0)%list.
Proof.
  induction tasks0 as [|task rest IH]; intros i w w' Hloop.
  - injection Hloop as <-. unfold form_rows. simpl. now rewrite app_nil_r.
  - cbn [handleSubmit_tasks] in Hloop.
    rewrite tasks_create_without_id in Hloop.
    set (d := mkTaskData (Some (uuid i)) (Some S)
                (Some (getTaskTypeFromId (taskTypeId task)))
                (Some (prompt task)) (Some (prompt task)) None) in Hloop.
    unfold bind at 1 in Hloop.
    destruct (create_task_cases clock (Some d) (uuid i) w)
      as [[e [w0 [Hrun _]]] | [d' [Hd [_ [_ Hrun]]]]];
      rewrite Hrun in Hloop; [discriminate|].
    injection Hd as <-. cbv beta iota in Hloop.
    set (t := created_task clock d (uuid i) w) in *.
    set (w1 := mkWorld (studies w) (tasks w ++ [t])%list (participants w)
                 (responses w) (Datatypes.S (ticks w))) in *.
    assert (Hord : t_order_index t
                   = max_with_zero (map t_order_index (tasks_of S w)) + 1)
      by reflexivity.
    assert (Hlarge : forall x, In x (tasks_of S w) ->
                               t_order_index x < t_order_index t).
    { intros x Hx. rewrite Hord.
      pose proof (max_with_zero_ge (map t_order_index (tasks_of S w))
                    (t_order_index x) (in_map _ _ _ Hx)). lia. }
    assert (Htasks1 : tasks_of S w1 = (tasks_of S w ++ [t])%list).
    { unfold tasks_of, w1. cbn [tasks]. rewrite filter_app. cbn [filter].
      rewrite task_matches_study. unfold t, created_task, d.
      cbn [t_study_id d_study_id or_default].
      now rewrite String.eqb_refl. }
    assert (Hlist1 : list_tasks S w1 = (list_tasks S w ++ [t])%list).
    { rewrite !list_tasks_sorted, Htasks1.
      now apply sort_append_largest. }
    rewrite (IH _ _ _ Hloop).
    rewrite Hlist1, Htasks1, map_app, form_rows_cons.
    rewrite (map_app t_order_index). cbn [map].
    rewrite max_with_zero_snoc.
    + rewrite <- app_assoc. cbn [map app]. rewrite Hord. reflexivity.
    + intros y Hy. apply in_map_iff in Hy as [x [<- Hx]]. now apply Hlarge.
    + rewrite Hord.
      pose proof (max_with_zero_nonneg (map t_order_index (tasks_of S w))).
      lia.
Qed.

End Form.

(** X14.  The task loop of the study form, for a study that has no tasks
    yet: when every request of [handleSubmit] has been accepted,
    [read_tasks] lists the tasks in the order of the form, each under the
    id the route generated, with the type of its type id, its prompt as
    title and as instructions, and [order_index] 1, 2, ..., N. *)
Theorem form_tasks_listed_in_order clock studyId uuid form_tasks w :
  tasks_of studyId w = [] ->
  result (handleSubmit_tasks clock studyId uuid 0 form_tasks) w = inr tt ->
  map row_of
    (list_tasks studyId
       (exec (handleSubmit_tasks clock studyId uuid 0 form_tasks) w))
  = form_rows uuid 0 1 form_tasks.
Proof.
  intros Hempty Hok. unfold result, exec in *.
  destruct (handleSubmit_tasks clock studyId uuid 0 form_tasks w)
    as [[e|[]] w'] eqn:Hrun; [discriminate|].
  cbn [snd]. rewrite (handleSubmit_tasks_run clock _ _ _ _ _ _ Hrun).
  rewrite list_tasks_sorted, Hempty. reflexivity.
Qed.

Lemma form_tasks_listed_in_order_witness :
  let uuid := fun k => String (ascii_of_nat (97 + k)) "" in
  let form := [mkFormTask 1 "Film your snack"; mkFormTask 9 "Why?"] in
  let w := set_tasks (fun _ => []) sample_world in
  tasks_of "S1" w = []
  /\ result (handleSubmit_tasks sample_clock "S1" uuid 0 form) w = inr tt
  /\ map row_of
       (list_tasks "S1"
          (exec (handleSubmit_tasks sample_clock "S1" uuid 0 form) w))
     = [("a", "camera", "Film your snack", Some "Film your snack", 1);
        ("b", "discussion", "Why?", Some "Why?", 2)].
Proof.
  intros uuid form w. split; [reflexivity|]. split; [reflexivity|].
  apply (form_tasks_listed_in_order sample_clock "S1" uuid form w eq_refl
           eq_refl).
Defined.

(** ** Enrolling participants *)

Section Enrolling.

Variable clock : nat -> string.

Lemma bulk_create_attempt (row : Participant) (count : Z) w :
  try_except (db_create_participant row ;;; ret (count + 1))
    (fun e => ret count) w
  = if str_in (p_id row) (map p_id (participants w))
    then (inr count, w)
    else (inr (count + 1),
          mkWorld (studies w) (tasks w) (participants w ++ [row])%list
            (responses w) (ticks w)).
Proof.
  unfold try_except, bind, db_create_participant, ret.
  now destruct (str_in (p_id row) (map p_id (participants w))).
Qed.

(** What the loop of [bulk_create_participants] stores for a contact. *)
Lemma bulk_create_loop_run study_id demographics current_time uuid :
  forall contacts i count w,
  exists new,
    bulk_create_loop study_id demographics current_time uuid i contacts count w
    = (inr (count + Z.of_nat (length new)),
       mkWorld (studies w) (tasks w) (participants w ++ new)%list
         (responses w) (ticks w))
    /\ (length new <= length contacts)%nat
    /\ Forall (fun p => p_study_id p = study_id /\ p_status p = "invited"
                        /\ p_invited_at p = Some current_time
                        /\ p_started_at p = None /\ p_completed_at p = None
                        /\ In (p_contact p) contacts) new.
Proof.
  induction contacts as [|contact rest IH]; intros i count w.
  - exists []. simpl. unfold ret. rewrite app_nil_r, Z.add_0_r.
    destruct w; repeat split; auto.
  - cbn [bulk_create_loop]. unfold bind at 1. rewrite bulk_create_attempt.
    cbn [p_id].
    destruct (str_in (uuid i) (map p_id (participants w))) eqn:Hin.
    + destruct (IH (S i) count w) as [new [Hrun [Hlen Hall]]].
      exists new. rewrite Hrun. split; [reflexivity|].
      split; [cbn [length]; lia|].
      eapply Forall_impl; [|exact Hall]. intros p Hp. simpl in *. tauto.
    + set (row := mkParticipant (uuid i) study_id contact
                    (if json_truthy (or_default demographics JNull)
                     then demographics else None)
                    "invited" (Some current_time) None None
                    current_time current_time).
      destruct (IH (S i) (count + 1)
                  (mkWorld (studies w) (tasks w) (participants w ++ [row])%list
                     (responses w) (ticks w)))
        as [new [Hrun [Hlen Hall]]].
      exists (row :: new). rewrite Hrun.
      cbn [studies tasks participants responses ticks length].
      rewrite <- app_assoc. cbn [app].
      split; [f_equal; f_equal; lia|]. split; [lia|].
      constructor; [cbn; tauto|].
      eapply Forall_impl; [|exact Hall]. intros p Hp. simpl in *. tauto.
Qed.

Lemma bulk_create_participants_run study_id contacts demographics uuid w :
  study_id <> "" -> contacts <> [] ->
  exists new,
    bulk_create_participants clock study_id contacts demographics uuid w
    = (inr (mkBulkResult (Z.of_nat (length new))
              (Z.of_nat (length contacts))),
       mkWorld (studies w) (tasks w) (participants w ++ new)%list
         (responses w) (S (ticks w)))
    /\ (length new <= length contacts)%nat
    /\ Forall (fun p => p_study_id p = study_id /\ p_status p = "invited"
                        /\ p_invited_at p = Some (clock (ticks w))
                        /\ p_started_at p = None /\ p_completed_at p = None
                        /\ In (p_contact p) contacts) new.
Proof.
  intros HS Hne. unfold bulk_create_participants.
  apply str_truthy_true in HS. rewrite HS, require_true.
  destruct contacts as [|c rest] eqn:Hc; [congruence|].
  rewrite require_true. rewrite <- Hc.
  unfold bind at 1. unfold datetime_now at 1. unfold bind at 1.
  destruct (bulk_create_loop_run study_id demographics (clock (ticks w)) uuid
              contacts 0 0 (tick w)) as [new [Hrun [Hlen Hall]]].
  exists new. rewrite Hrun. unfold ret. cbn [tick studies tasks participants
    responses ticks]. rewrite Z.add_0_l.
  split; [reflexivity|]. split; assumption.
Qed.

(** When the loop has counted every contact, it has stored one row per
    contact, in order. *)
Lemma bulk_create_loop_all study_id demographics current_time uuid :
  forall contacts i count w count' w',
  bulk_create_loop study_id demographics current_time uuid i contacts count w
  = (inr count', w') ->
  count' = count + Z.of_nat (length contacts) ->
  exists new,
    participants w' = (participants w ++ new)%list
    /\ map p_contact new = contacts
    /\ map p_id new = map uuid (seq i (length contacts)).
Proof.
  induction contacts as [|contact rest IH]; intros i count w count' w' Hrun Hall.
  - injection Hrun as _ <-. exists []. now rewrite app_nil_r.
  - cbn [bulk_create_loop] in Hrun. unfold bind at 1 in Hrun.
    rewrite bulk_create_attempt in Hrun. cbn [p_id] in Hrun.
    destruct (str_in (uuid i) (map p_id (participants w))).
    + exfalso.
      destruct (bulk_create_loop_run study_id demographics current_time uuid
                  rest (S i) count w) as [new [Hloop [Hlen _]]].
      rewrite Hloop in Hrun. injection Hrun as <- _.
      cbn [length] in Hall. lia.
    + destruct (IH _ _ _ _ _ Hrun) as [new [Hw' [Hc Hi]]];
        [cbn [length] in Hall; lia|].
      cbn [participants] in Hw'. rewrite <- app_assoc in Hw'.
      cbn [app] in Hw'. eexists. split; [exact Hw'|].
      cbn [map p_contact p_id length seq]. now rewrite Hc, Hi.
Qed.

Lemma create_participant_fresh participant uuid w id w' :
  create_participant clock participant uuid w = (inr id, w') ->
  ~ In id (map p_id (participants w))
  /\ exists c, participant = Some c
               /\ truthy (pd_study_id c) = true
               /\ truthy (pd_contact c) = true.
Proof.
  destruct participant as [c|]; [|discriminate].
  unfold create_participant.
  destruct (participant_data_nonempty c);
    [rewrite require_true | rewrite require_false; discriminate].
  destruct (truthy (pd_study_id c)) eqn:Hs;
    [rewrite require_true | rewrite require_false; discriminate].
  destruct (truthy (pd_contact c)) eqn:Hc;
    [rewrite require_true | rewrite require_false; discriminate].
  unfold bind, datetime_now, db_create_participant. cbn [p_id tick participants].
  destruct (str_in (or_default (pd_id c) uuid) (map p_id (participants w)))
    eqn:Hin; [discriminate|].
  intros H. injection H as <- _. apply str_in_false in Hin. eauto.
Qed.

End Enrolling.

(** X15.  [bulk_create_participants] raises only for an empty study id or
    an empty contact list, and then nothing has changed.  Otherwise it
    reads the clock once, reports the length of the list as
    [total_requested] and as [created_count] the number of rows it appended
    (never more than requested); the rows stored before are untouched, and
    every new row belongs to the study, holds one of the contacts, has
    status [invited], the one time read as [invited_at] and no
    [started_at] or [completed_at]. *)
Theorem bulk_create_participants_counts clock study_id contacts demographics
  uuid w :
  match bulk_create_participants clock study_id contacts demographics uuid w
  with
  | (inl e, w') => (study_id = "" \/ contacts = []) /\ w' = w
  | (inr r, w') =>
    total_requested r = Z.of_nat (length contacts)
    /\ 0 <= created_count r <= total_requested r
    /\ ticks w' = S (ticks w)
    /\ tasks w' = tasks w /\ responses w' = responses w
    /\ exists new,
         participants w' = (participants w ++ new)%list
         /\ Z.of_nat (length new) = created_count r
         /\ Forall (fun p => p_study_id p = study_id
                             /\ p_status p = "invited"
                             /\ p_invited_at p = Some (clock (ticks w))
                             /\ p_started_at p = None
                             /\ p_completed_at p = None
                             /\ In (p_contact p) contacts) new
  end.
Proof.
  destruct (string_dec study_id "") as [->|HS]; [cbn; auto|].
  destruct contacts as [|c rest] eqn:Hc.
  { unfold bulk_create_participants. apply str_truthy_true in HS.
    rewrite HS, require_true, require_false. auto. }
  rewrite <- Hc.
  destruct (bulk_create_participants_run clock study_id contacts demographics
              uuid w HS) as [new [Hrun [Hlen Hall]]]; [congruence|].
  rewrite Hrun. cbn. repeat split; try lia. exists new. auto.
Qed.

(** X16.  When [bulk_create_participants] reports as many created
    participants as contacts requested, it has appended one row per
    contact, in the order of the list, under the ids generated in that
    order. *)
Theorem bulk_create_participants_in_order clock study_id contacts
  demographics uuid w r :
  result (bulk_create_participants clock study_id contacts demographics uuid)
    w = inr r ->
  created_count r = total_requested r ->
  exists new,
    participants
      (exec (bulk_create_participants clock study_id contacts demographics
               uuid) w)
    = (participants w ++ new)%list
    /\ map p_contact new = contacts
    /\ map p_id new = map uuid (seq 0 (length contacts)).
Proof.
  unfold result, exec, bulk_create_participants.
  destruct (str_truthy study_id);
    [rewrite require_true | rewrite require_false; discriminate].
  destruct contacts as [|c rest] eqn:Hc;
    [rewrite require_false; discriminate|].
  rewrite require_true. rewrite <- Hc.
  unfold bind at 1 2. unfold datetime_now at 1 2. unfold bind at 1 2.
  destruct (bulk_create_loop study_id demographics (clock (ticks w)) uuid 0
              contacts 0 (tick w)) as [[e|count] w'] eqn:Hloop;
    [discriminate|].
  cbn [fst snd ret]. intros Hr Hcount. injection Hr as <-.
  cbn [created_count total_requested] in Hcount.
  destruct (bulk_create_loop_all clock _ _ _ _ _ _ _ _ _ _ Hloop)
    as [new Hnew]; [lia|].
  exists new. exact Hnew.
Qed.

(** Three contacts, one of them the empty string, are enrolled in the
    stored study S1. *)
Lemma bulk_create_participants_in_order_witness :
  let uuid := fun k => String (ascii_of_nat (97 + k)) "" in
  let contacts := ["ana@example.com"; ""; "+506 5555"] in
  let run := bulk_create_participants sample_clock "S1" contacts None uuid in
  result run sample_world = inr (mkBulkResult 3 3)
  /\ exists new,
       participants (exec run sample_world)
       = (participants sample_world ++ new)%list
       /\ map p_contact new = contacts
       /\ map p_id new = ["a"; "b"; "c"].
Proof.
  intros uuid contacts run. split; [reflexivity|].
  apply (bulk_create_participants_in_order sample_clock "S1" contacts None
           uuid sample_world (mkBulkResult 3 3) eq_refl eq_refl).
Defined.

(** X17.  A participant that [create_participant] has created can be read
    back: [read_participants] with the returned id yields exactly one row,
    holding the given study and contact and the given status, or
    [invited] when none was given. *)
Theorem create_participant_read_back clock participant uuid w id :
  result (create_participant clock participant uuid) w = inr id ->
  exists p c,
    participant = Some c
    /\ result (read_participants (Some (mkParticipantQuery (Some id) None None)))
         (exec (create_participant clock participant uuid) w) = inr [p]
    /\ p_id p = id
    /\ pd_study_id c = Some (p_study_id p)
    /\ pd_contact c = Some (p_contact p)
    /\ p_status p = or_default (pd_status c) "invited".
Proof.
  unfold result, exec. intros Hres.
  destruct (create_participant clock participant uuid w) as [[e|id'] w'] eqn:Hrun;
    simpl in Hres; [discriminate|]. injection Hres as ->.
  destruct (create_participant_fresh clock _ _ _ _ _ Hrun)
    as [Hfresh [c [-> [Hs Hc]]]].
  destruct (create_participant_cases clock (Some c) uuid w)
    as [[e [w1 [Hbad _]]] | [c' [Hc' Hrun']]]; [congruence|].
  injection Hc' as <-. rewrite Hrun' in Hrun. injection Hrun as Hid <-.
  eexists. exists c. split; [reflexivity|].
  unfold read_participants, db_read_participants.
  cbn [fst snd participants or_default].
  rewrite filter_app. cbn [filter].
  unfold participant_matches at 2, field_matches.
  cbn [pq_id pq_study_id pq_status p_id]. rewrite Hid, String.eqb_refl.
  cbn [andb].
  assert (Hnone : filter
                    (participant_matches
                       (mkParticipantQuery (Some id) None None))
                    (participants w) = []).
  { destruct (filter _ (participants w)) as [|p l] eqn:Hf; [reflexivity|].
    exfalso. assert (Hin : In p (p :: l)) by now left.
    rewrite <- Hf in Hin. apply filter_In in Hin as [Hin Hm].
    unfold participant_matches, field_matches in Hm. simpl in Hm.
    rewrite !andb_true_r in Hm. apply String.eqb_eq in Hm.
    apply Hfresh. rewrite Hm. now apply in_map. }
  rewrite Hnone. cbn [app].
  split; [reflexivity|]. cbn [p_id p_study_id p_contact p_status].
  repeat split; try assumption.
  - destruct (pd_study_id c); [reflexivity | discriminate].
  - destruct (pd_contact c); [reflexivity | discriminate].
Qed.

Lemma create_participant_read_back_witness :
  let w := exec (create_participant sample_clock sample_participant "u1")
             empty_world in
  result (create_participant sample_clock sample_participant "u1") empty_world
  = inr "p1"
  /\ exists p,
       result (read_participants
                 (Some (mkParticipantQuery (Some "p1") None None))) w
       = inr [p]
       /\ p_status p = "invited".
Proof.
  intros w. split; [reflexivity|].
  destruct (create_participant_read_back sample_clock sample_participant "u1"
              empty_world "p1" eq_refl)
    as [p [c [Hc [Hread [_ [_ [_ Hstatus]]]]]]].
  exists p. split; [exact Hread|].
  injection Hc as <-. exact Hstatus.
Defined.


(** ** The lifecycle of a participant *)

Lemma participants_without_id id (f : Participant -> Participant) l :
  ~ In id (map p_id l) ->
  map (fun p => if participant_has_id id p then f p else p) l = l
  /\ filter (participant_matches (mkParticipantQuery (Some id) None None)) l
     = [].
Proof.
  induction l as [|p l IH]; intros Hfresh; [now split|].
  simpl in Hfresh.
  destruct IH as [IHm IHf]; [tauto|].
  assert (Hp : String.eqb id (p_id p) = false)
    by (apply String.eqb_neq; intros ->; tauto).
  cbn [map filter]. unfold participant_has_id at 1.
  unfold participant_matches at 1, field_matches.
  cbn [pq_id pq_study_id pq_status]. rewrite Hp, IHm, IHf. now split.
Qed.

Lemma update_status_of_last clock id s st ts l row rs n :
  id <> "" -> ~ In id (map p_id l) -> p_id row = id ->
  exec (update_participant clock id (status_update s))
    (mkWorld st ts (l ++ [row])%list rs n)
  = mkWorld st ts
      (l ++ [mkParticipant id (p_study_id row) (p_contact row)
               (p_demographics row) s (p_invited_at row)
               (if String.eqb s "started" then Some (clock (S n))
                else p_started_at row)
               (if String.eqb s "completed" then Some (clock (S n))
                else p_completed_at row)
               (p_created_at row) (clock n)])%list
      rs (S (S n)).
Proof.
  intros Hid Hfresh Hrow. unfold exec, status_update.
  rewrite update_participant_run by (assumption || reflexivity).
  cbn [snd studies tasks participants responses ticks pd_status is_some].
  f_equal; [|lia].
  rewrite map_app.
  match goal with
  | |- context [map (fun p => if participant_has_id id p then ?f p else p) l] =>
    destruct (participants_without_id id f l Hfresh) as [-> _]
  end.
  f_equal. cbn [map]. unfold participant_has_id.
  rewrite Hrow, String.eqb_refl. f_equal.
  unfold apply_participant_patch, stamped_data, result, stamp_status, bind,
    datetime_now, tick.
  cbn [pd_status pd_started_at pd_completed_at is_some negb fst snd ticks].
  rewrite !andb_true_r.
  destruct (String.eqb_spec s "started") as [->|Hs].
  - cbn. now rewrite Hrow.
  - destruct (String.eqb s "completed"); cbn; now rewrite Hrow.
Qed.

(** X18.  Enrolment followed by the two status updates: a participant
    created without status or timestamps, then updated to [started] and
    then to [completed], is read back as one row with status [completed],
    [invited_at] the time of creation, and [started_at] and
    [completed_at] the times read by the two updates. *)
Theorem participant_lifecycle clock c uuid w id :
  pd_status c = None ->
  pd_invited_at c = None ->
  pd_started_at c = None ->
  pd_completed_at c = None ->
  result (create_participant clock (Some c) uuid) w = inr id ->
  id <> "" ->
  let w1 := exec (create_participant clock (Some c) uuid) w in
  let w2 := exec (update_participant clock id (status_update "started")) w1 in
  let w3 := exec (update_participant clock id (status_update "completed")) w2 in
  exists p,
    result (read_participants (Some (mkParticipantQuery (Some id) None None)))
      w3 = inr [p]
    /\ p_status p = "completed"
    /\ p_invited_at p = Some (clock (ticks w))
    /\ p_started_at p = Some (clock (ticks w + 2)%nat)
    /\ p_completed_at p = Some (clock (ticks w + 4)%nat)
    /\ pd_contact c = Some (p_contact p).
Proof.
  intros Hst Hinv Hsta Hcom Hres Hid w1 w2 w3.
  unfold result in Hres.
  destruct (create_participant clock (Some c) uuid w) as [[e|id'] w'] eqn:Hrun;
    simpl in Hres; [discriminate|]. injection Hres as ->.
  destruct (create_participant_fresh clock _ _ _ _ _ Hrun)
    as [Hfresh [c' [Hc' [_ Hcontact]]]]. injection Hc' as <-.
  destruct (create_participant_cases clock (Some c) uuid w)
    as [[e [w0 [Hbad _]]] | [c' [Hc' Hrun']]]; [congruence|].
  injection Hc' as <-. rewrite Hrun' in Hrun. injection Hrun as Hnew _.
  unfold w3, w2, w1. unfold exec at 3. rewrite Hrun'. cbn [snd].
  rewrite update_status_of_last by (assumption || exact Hnew).
  rewrite update_status_of_last by (assumption || reflexivity).
  unfold result, read_participants, db_read_participants.
  cbn [fst participants or_default].
  rewrite filter_app.
  destruct (participants_without_id id (fun p => p) (participants w) Hfresh)
    as [_ ->].
  cbn [filter app]. unfold participant_matches, field_matches.
  cbn [pq_id pq_study_id pq_status p_id]. rewrite String.eqb_refl.
  cbn [andb]. eexists. split; [reflexivity|].
  cbn [p_status p_invited_at p_started_at p_completed_at p_contact
       String.eqb Ascii.eqb Bool.eqb].
  rewrite ?Hinv, ?Hsta, ?Hcom. cbn [or_default].
  repeat split.
  - do 2 f_equal. lia.
  - do 2 f_equal. lia.
  - destruct (pd_contact c); [reflexivity | discriminate].
Qed.

Lemma participant_lifecycle_witness :
  result (create_participant sample_clock
            (Some (mkParticipantData (Some "p3") (Some "S1")
                     (Some "p3@example.com") None None None None None)) "u1")
    sample_world = inr "p3"
  /\ "p3" <> ""
  /\ exists p,
       result (read_participants
                 (Some (mkParticipantQuery (Some "p3") None None)))
         (exec (update_participant sample_clock "p3"
                  (status_update "completed"))
            (exec (update_participant sample_clock "p3"
                     (status_update "started"))
               (exec (create_participant sample_clock
                        (Some (mkParticipantData (Some "p3") (Some "S1")
                                 (Some "p3@example.com") None None None None
                                 None)) "u1") sample_world)))
       = inr [p]
       /\ p_status p = "completed"
       /\ p_started_at p = Some (sample_clock 2)
       /\ p_completed_at p = Some (sample_clock 4).
Proof.
  split; [reflexivity|]. split; [discriminate|].
  destruct (participant_lifecycle sample_clock
              (mkParticipantData (Some "p3") (Some "S1")
                 (Some "p3@example.com") None None None None None)
              "u1" sample_world "p3" eq_refl eq_refl eq_refl eq_refl eq_refl)
    as [p [Hread [Hs [_ [Hst [Hc _]]]]]]; [discriminate|].
  exists p. repeat split; assumption.
Defined.

(** ** Replies in a markdown fence *)

Lemma string_app_assoc (a b c : string) : (a ++ b) ++ c = a ++ (b ++ c).
Proof. induction a as [|x a IH]; simpl; [reflexivity | now rewrite IH]. Qed.

Lemma string_app_nil_r (s : string) : s ++ "" = s.
Proof. induction s as [|x s IH]; simpl; [reflexivity | now rewrite IH]. Qed.

Lemma prefix_no_tick sep c s :
  Ascii.eqb c "`" = false -> String.prefix (String "`" sep) (String c s) = false.
Proof.
  intros Hc. cbn [String.prefix].
  destruct (ascii_dec "`" c) as [<-|]; [|reflexivity].
  rewrite Ascii.eqb_refl in Hc. discriminate.
Qed.

Lemma split_from_tick_free sep body : forall cur r,
  tick_free body = true ->
  split_from (String "`" sep) 0 cur (body ++ r)
  = split_from (String "`" sep) 0 (cur ++ body) r.
Proof.
  induction body as [|c body IH]; intros cur r Hfree.
  - now rewrite string_app_nil_r.
  - simpl in Hfree. apply andb_true_iff in Hfree as [Hc Hfree].
    apply negb_true_iff in Hc.
    change (String c body ++ r) with (String c (body ++ r)).
    cbn [split_from]. rewrite prefix_no_tick by assumption.
    rewrite IH by assumption. now rewrite string_app_assoc.
Qed.

Lemma contains_tick_free sep s :
  tick_free s = true -> contains (String "`" sep) s = false.
Proof.
  induction s as [|c s IH]; intros Hfree; [reflexivity|].
  simpl in Hfree. apply andb_true_iff in Hfree as [Hc Hfree].
  apply negb_true_iff in Hc.
  cbn [contains]. rewrite prefix_no_tick by assumption. now apply IH.
Qed.

Lemma contains_after sep pre rest :
  String.prefix sep rest = true -> contains sep (pre ++ rest) = true.
Proof.
  intros H. induction pre as [|c pre IH]; cbn [append].
  - destruct rest; cbn [contains]; rewrite H; reflexivity.
  - cbn [contains]. rewrite IH. apply orb_true_r.
Qed.

Lemma tick_free_head post :
  tick_free post = true ->
  String.prefix "`" post = false.
Proof.
  destruct post as [|c post]; [reflexivity|]. cbn [tick_free]. intros H.
  apply andb_true_iff in H as [Hc _]. apply negb_true_iff in Hc.
  now apply prefix_no_tick.
Qed.

Lemma prefix_nil s : String.prefix "" s = true.
Proof. now destruct s. Qed.

Lemma prefix_cons_same a s1 s2 :
  String.prefix (String a s1) (String a s2) = String.prefix s1 s2.
Proof.
  cbn [String.prefix]. destruct (ascii_dec a a); [reflexivity | congruence].
Qed.

Lemma prefix_refl_app s r : String.prefix s (s ++ r) = true.
Proof.
  induction s as [|c s IH]; cbn [append].
  - apply prefix_nil.
  - now rewrite prefix_cons_same.
Qed.

Lemma prefix_tick_free sep post :
  tick_free post = true -> String.prefix (String "`" sep) post = false.
Proof.
  destruct post as [|c post]; [reflexivity|]. cbn [tick_free]. intros H.
  apply andb_true_iff in H as [Hc _]. apply negb_true_iff in Hc.
  now apply prefix_no_tick.
Qed.

Lemma split_from_skip sep x : forall cur r,
  split_from sep (String.length x) cur (x ++ r) = split_from sep 0 cur r.
Proof.
  induction x as [|c x IH]; intros cur r; [reflexivity|].
  cbn [String.length append split_from]. apply IH.
Qed.

Lemma split_from_match c sep cur r :
  split_from (String c sep) 0 cur (String c sep ++ r)
  = cur :: split_from (String c sep) 0 "" r.
Proof.
  cbn [append split_from].
  change (String c (sep ++ r)) with (String c sep ++ r).
  rewrite prefix_refl_app. cbn [String.length].
  replace (S (String.length sep) - 1)%nat with (String.length sep) by lia.
  now rewrite split_from_skip.
Qed.

Lemma split_from_no_match sep cur c rest :
  String.prefix sep (String c rest) = false ->
  split_from sep 0 cur (String c rest)
  = split_from sep 0 (cur ++ String c "") rest.
Proof. intros H. cbn [split_from]. now rewrite H. Qed.

(** The first piece of [s.split("```json")] and of [s.split("```")] for a
    string that starts with backtick-free text followed by a closing
    fence. *)
Lemma split_head_closing body post :
  tick_free body = true -> tick_free post = true ->
  exists inner,
    nth_error (split "```json" (body ++ "```" ++ post)) 0 = Some inner
    /\ nth_error (split "```" inner) 0 = Some body.
Proof.
  intros Hb Hp. unfold split.
  rewrite split_from_tick_free by assumption. cbn [append].
  assert (Hthen : forall inner,
            inner = body \/ inner = body ++ "```" ++ post ->
            nth_error (split_from "```" 0 "" inner) 0 = Some body).
  { intros inner [->| ->].
    - rewrite <- (string_app_nil_r body) at 1.
      rewrite split_from_tick_free by assumption. reflexivity.
    - rewrite split_from_tick_free by assumption.
      now rewrite split_from_match. }
  destruct (String.prefix "json" post) eqn:Hjson.
  - exists body. split; [|apply Hthen; now left].
    cbn [split_from]. rewrite !prefix_cons_same, Hjson. reflexivity.
  - exists (body ++ "```" ++ post). split; [|apply Hthen; now right].
    rewrite split_from_no_match by (now rewrite !prefix_cons_same).
    rewrite split_from_no_match
      by (rewrite !prefix_cons_same; now apply prefix_tick_free).
    rewrite split_from_no_match
      by (rewrite !prefix_cons_same; now apply prefix_tick_free).
    rewrite <- (string_app_nil_r post) at 1.
    rewrite split_from_tick_free by assumption.
    cbn [split_from nth_error]. f_equal.
    now rewrite !string_app_assoc.
Qed.

Lemma index_found xs i x (log : list ApiCall) :
  nth_error xs i = Some x -> index xs i log = (inr x, log).
Proof. intros H. unfold index. now rewrite H. Qed.

Lemma unwrap_fence_fenced pre body post (log : list ApiCall) :
  tick_free pre = true ->
  tick_free body = true ->
  tick_free post = true ->
  unwrap_fence (pre ++ "```json" ++ body ++ "```" ++ post) log
  = (inr body, log).
Proof.
  intros Hpre Hbody Hpost. unfold unwrap_fence.
  rewrite contains_after by apply prefix_refl_app.
  destruct (split_head_closing body post Hbody Hpost)
    as [inner [Hinner Hhead]].
  unfold bind.
  rewrite (index_found _ 1 inner).
  - now apply index_found.
  - unfold split. rewrite split_from_tick_free by assumption.
    rewrite split_from_match. exact Hinner.
Qed.

(** X19.  A reply that holds its JSON between [```json] and [```], with
    no other backtick before, inside or after, is unwrapped to exactly
    that JSON; a reply without any backtick is passed on unchanged. *)
Theorem unwrap_fence_round_trip pre body post log :
  tick_free pre = true ->
  tick_free body = true ->
  tick_free post = true ->
  unwrap_fence (pre ++ "```json" ++ body ++ "```" ++ post) log
  = (inr body, log)
  /\ unwrap_fence body log = (inr body, log).
Proof.
  intros Hpre Hbody Hpost. split.
  - now apply unwrap_fence_fenced.
  - unfold unwrap_fence.
    now rewrite !contains_tick_free by assumption.
Qed.

Lemma unwrap_fence_round_trip_witness :
  tick_free "Here you go: " = true
  /\ tick_free "{}" = true
  /\ tick_free " Hope this helps." = true
  /\ unwrap_fence ("Here you go: " ++ "```json" ++ "{}" ++ "```"
                   ++ " Hope this helps.") []
     = (inr "{}", []).
Proof.
  split; [reflexivity | split; [reflexivity | split; [reflexivity |]]].
  apply (proj1 (unwrap_fence_round_trip "Here you go: " "{}"
                  " Hope this helps." [] eq_refl eq_refl eq_refl)).
Defined.

Lemma prefix_app p : forall x r,
  String.prefix p x = true -> String.prefix p (x ++ r) = true.
Proof.
  induction p as [|a p IH]; intros x r H; [apply prefix_nil|].
  destruct x as [|b x]; [discriminate|].
  cbn [append]. cbn [String.prefix] in *.
  destruct (ascii_dec a b); [now apply IH | discriminate].
Qed.

Lemma split_from_nonempty sep s : forall skip cur,
  exists a rest, split_from sep skip cur s = a :: rest.
Proof.
  induction s as [|c s IH]; intros skip cur; [now exists cur, []|].
  cbn [split_from]. destruct skip as [|k]; [|apply IH].
  destruct (String.prefix sep (String c s)); [|apply IH].
  destruct (IH (String.length sep - 1)%nat "") as [a [rest ->]].
  now exists cur, (a :: rest).
Qed.

(** [sep in s] makes [s.split(sep)] at least two pieces long. *)
Lemma split_contains c sep s : forall cur,
  contains (String c sep) s = true ->
  exists a b rest, split_from (String c sep) 0 cur s = a :: b :: rest.
Proof.
  induction s as [|d s IH]; intros cur H; [discriminate|].
  cbn [contains] in H. cbn [split_from].
  destruct (String.prefix (String c sep) (String d s)).
  - destruct (split_from_nonempty (String c sep) s
                (String.length (String c sep) - 1)%nat "") as [b [rest ->]].
    now exists cur, b, rest.
  - apply IH. exact H.
Qed.

(** The first piece of [s.split(sep)]. *)
Lemma split_from_head sep s : forall cur,
  exists others, split_from sep 0 cur s = (cur ++ before sep s) :: others.
Proof.
  induction s as [|c s IH]; intros cur.
  - exists []. cbn [split_from before]. now rewrite string_app_nil_r.
  - cbn [split_from before].
    destruct (String.prefix sep (String c s)).
    + rewrite string_app_nil_r. eauto.
    + destruct (IH (cur ++ String c "")) as [others ->]. exists others.
      now rewrite string_app_assoc.
Qed.

Lemma before_is_prefix sep s : exists r, s = before sep s ++ r.
Proof.
  induction s as [|c s [r IH]]; [now exists ""|].
  cbn [before]. destruct (String.prefix sep (String c s)).
  - now exists (String c s).
  - exists r. cbn [append]. now rewrite <- IH.
Qed.

Lemma before_no_sep c sep s :
  contains (String c sep) (before (String c sep) s) = false.
Proof.
  induction s as [|d s IH]; [reflexivity|].
  cbn [before]. destruct (String.prefix (String c sep) (String d s)) eqn:Hp;
    [reflexivity|].
  cbn [contains]. rewrite IH, orb_false_r.
  destruct (String.prefix (String c sep)
              (String d (before (String c sep) s))) eqn:Hq; [|reflexivity].
  destruct (before_is_prefix (String c sep) s) as [r Hr].
  apply (prefix_app _ _ r) in Hq. cbn [append] in Hq.
  rewrite <- Hr in Hq. congruence.
Qed.

(** X20.  Unwrapping never fails, whatever the reply: the index into the
    pieces of the split is always in range.  The unwrapped text holds no
    fence marker. *)
Theorem unwrap_fence_total content (log : list ApiCall) :
  exists text,
    unwrap_fence content log = (inr text, log)
    /\ contains "```" text = false.
Proof.
  assert (Hinner : forall inner,
            index (split "```" inner) 0 log
            = (inr (before "```" inner), log)).
  { intros inner. apply index_found. unfold split.
    now destruct (split_from_head "```" inner "") as [others ->]. }
  unfold unwrap_fence.
  destruct (contains "```json" content) eqn:Hjson.
  - destruct (split_contains _ _ _ "" Hjson) as [a [b [rest Hs]]].
    exists (before "```" b). split; [|apply before_no_sep].
    unfold bind. rewrite (index_found _ 1 b); [apply Hinner|].
    unfold split. now rewrite Hs.
  - destruct (contains "```" content) eqn:Hfence.
    + destruct (split_contains _ _ _ "" Hfence) as [a [b [rest Hs]]].
      exists (before "```" b). split; [|apply before_no_sep].
      unfold bind. rewrite (index_found _ 1 b); [apply Hinner|].
      unfold split. now rewrite Hs.
    + now exists content.
Qed.

(** X21.  When the collaborator answers [analyze_text_response] with a
    fenced reply, the operation returns what [json.loads] makes of the
    stripped JSON between the fences. *)
Theorem analyze_text_response_fenced_reply json_loads strip inference self
  text context log pre body post j :
  anthropic_client self <> None ->
  inference log (analysis_call text context)
  = inr (pre ++ "```json" ++ body ++ "```" ++ post) ->
  tick_free pre = true ->
  tick_free body = true ->
  tick_free post = true ->
  json_loads (strip body) = inr j ->
  analyze_text_response json_loads strip inference self text context log
  = (inr j, (log ++ [analysis_call text context])%list).
Proof.
  intros Hclient Hreply Hpre Hbody Hpost Hj.
  rewrite analyze_text_response_run.
  destruct (anthropic_client self); [|congruence].
  rewrite Hreply. unfold result, decode_analysis, bind.
  rewrite (unwrap_fence_fenced pre body post log Hpre Hbody Hpost).
  unfold loads. now rewrite Hj.
Qed.

Lemma analyze_text_response_fenced_reply_witness :
  let json_loads := fun s : string =>
    if String.eqb s "{}" then inr (JObj []) else inl "Expecting value" in
  let strip := fun s : string => s in
  let inference := fun (_ : list ApiCall) (_ : ApiCall) =>
    inr ("Sure. " ++ "```json" ++ "{}" ++ "```" ++ "") : ApiFailure + string in
  analyze_text_response json_loads strip inference
    (mkAIService None (Some "sk-ant")) "I like it" None []
  = (inr (JObj []), [analysis_call "I like it" None]).
Proof.
  intros json_loads strip inference.
  apply (analyze_text_response_fenced_reply json_loads strip inference
           (mkAIService None (Some "sk-ant")) "I like it" None []
           "Sure. " "{}" "" (JObj []));
    [discriminate | reflexivity | reflexivity | reflexivity | reflexivity
    | reflexivity].
Defined.

(** ** The three routes of the AI service *)

Section Advising.

Variable json_dumps : json -> string.
Variable json_dumps_line : json -> string.
Variable json_loads : string -> string + json.
Variable strip : string -> string.
Variable inference : list ApiCall -> ApiCall -> ApiFailure + string.

Lemma suggest_study_design_run self objective company_data log :
  suggest_study_design json_dumps_line json_loads inference self objective
    company_data log
  = match openai_client self with
    | None => (inl (ValueError "OpenAI API key not configured"), log)
    | Some _ =>
      (match inference log
               (suggestion_call json_dumps_line objective company_data) with
       | inl f =>
         inl (Exception ("AI suggestion failed: " ++ failure_message f))
       | inr content =>
         match json_loads content with
         | inl msg => inl (Exception ("AI suggestion failed: " ++ msg))
         | inr j => inr j
         end
       end,
       (log ++ [suggestion_call json_dumps_line objective company_data])%list)
    end.
Proof.
  unfold suggest_study_design.
  destruct (openai_client self) as [key|]; cbn [is_some];
    [rewrite require_true | now rewrite require_false].
  unfold try_except, create_message, bind.
  destruct (inference log
              (suggestion_call json_dumps_line objective company_data))
    as [f|content]; [reflexivity|].
  unfold loads. now destruct (json_loads content).
Qed.

(** X22.  The route [/suggest-study-design] refuses a missing or empty
    objective before anything else; otherwise the reply of the one
    request is decoded as it is, without unwrapping a fence, and any
    failure comes back as [AI suggestion failed: ...].  Company data that
    is empty counts as none. *)
Theorem suggest_study_design_route_outcome self objective company_data log :
  suggest_study_design_route json_dumps_line json_loads inference self
    objective company_data log
  = (if truthy objective then
       match openai_client self with
       | None => (inl (ValueError "OpenAI API key not configured"), log)
       | Some _ =>
         let call :=
           suggestion_call json_dumps_line (or_default objective "")
             company_data in
         (match inference log call with
          | inl f =>
            inl (Exception ("AI suggestion failed: " ++ failure_message f))
          | inr content =>
            match json_loads content with
            | inl msg => inl (Exception ("AI suggestion failed: " ++ msg))
            | inr j => inr j
            end
          end, (log ++ [call])%list)
       end
     else (inl (Exception "Objective is required"), log))
  /\ (json_truthy (or_default company_data JNull) = false ->
      suggestion_call json_dumps_line (or_default objective "") company_data
      = suggestion_call json_dumps_line (or_default objective "") None).
Proof.
  split.
  - unfold suggest_study_design_route.
    destruct (truthy objective);
      [rewrite require_true | now rewrite require_false].
    apply suggest_study_design_run.
  - intros Hempty. unfold suggestion_call, suggestion_prompt, company_context.
    now rewrite Hempty.
Qed.

(** X23.  With the service built from the two environment variables,
    each route sends at most one request, and only when its required
    field is present and the key of its provider is set and not empty:
    [/analyze-text] asks Anthropic, the other two ask OpenAI. *)
Theorem ai_routes_requests openai_key anthropic_key text context objective
  company_data study_data log :
  let ai_service := AIService_init openai_key anthropic_key in
  let a := analysis_call (or_default text "") context in
  let s := suggestion_call json_dumps_line (or_default objective "")
             company_data in
  let y := synthesis_call json_dumps (or_default study_data JNull) in
  exec (analyze_text json_loads strip inference ai_service text context) log
  = (log ++ if truthy text && truthy anthropic_key then [a] else [])%list
  /\ exec (suggest_study_design_route json_dumps_line json_loads inference
             ai_service objective company_data) log
     = (log ++ if truthy objective && truthy openai_key then [s] else [])%list
  /\ exec (synthesize_study json_dumps json_loads inference ai_service
             study_data) log
     = (log ++ if json_truthy (or_default study_data JNull)
                  && truthy openai_key then [y] else [])%list
  /\ call_provider a = Anthropic
  /\ call_provider s = OpenAI
  /\ call_provider y = OpenAI.
Proof.
  intros ai_service a s y. unfold exec.
  repeat split.
  - unfold analyze_text.
    destruct (truthy text); cbn [andb];
      [rewrite require_true | rewrite require_false; cbn [snd];
                              now rewrite app_nil_r].
    rewrite analyze_text_response_run. cbn [ai_service AIService_init
                                            anthropic_client].
    destruct (truthy anthropic_key) eqn:Hkey;
      [|cbn [snd]; now rewrite app_nil_r].
    destruct anthropic_key; [reflexivity | discriminate].
  - unfold suggest_study_design_route.
    destruct (truthy objective); cbn [andb];
      [rewrite require_true | rewrite require_false; cbn [snd];
                              now rewrite app_nil_r].
    rewrite suggest_study_design_run. cbn [ai_service AIService_init
                                           openai_client].
    destruct (truthy openai_key) eqn:Hkey;
      [|cbn [snd]; now rewrite app_nil_r].
    destruct openai_key; [reflexivity | discriminate].
  - unfold synthesize_study.
    destruct (json_truthy (or_default study_data JNull)); cbn [andb];
      [rewrite require_true | rewrite require_false; cbn [snd];
                              now rewrite app_nil_r].
    rewrite synthesize_study_insights_run. cbn [ai_service AIService_init
                                                openai_client].
    destruct (truthy openai_key) eqn:Hkey;
      [|cbn [snd]; now rewrite app_nil_r].
    destruct openai_key; [reflexivity | discriminate].
Qed.

End Advising.
